(** * Account status and login-attempt state machine

    A shallow embedding of the Flask authentication service
    ([app.py], [models.py], [utils.py], [database.py]) and the
    properties of its account-status state machine.

    Conventions of the embedding.
    - Python [str] is [string]; one [ascii] is one character (the
      messages of the service are kept as they are written in the
      source).
    - An instant is a number of microseconds ([Z]); a calendar date is a
      number of days since 1970-01-01 ([Z]); [date_of] is Python's
      [datetime.date()] and SQLite's [DATE()].
    - The content of a TIMESTAMP column is a [timestamp_text]: either a
      well-formed time string, identified with the instant it denotes, or
      any other text. Python writes [last_login] and [last_attempt] in
      local time ([datetime.now().isoformat()]), SQLite writes
      [created_at] and the [timestamp] of an audit row in UTC
      (CURRENT_TIMESTAMP). The time strings are the naive ones that the
      service writes; a time string with a UTC offset, and a text that
      the column stores as a number, are not covered.
    - The two SQLite tables are lists of rows in rowid order; every
      statement is one atomic step.
    - A request handler is a computation in the monad [M]: it threads the
      [World] (database, Flask session, system clock, entropy) and may
      raise a Python exception, which leaves the world as it is at that
      point.
    - Every reading of the clock, by Python or by SQLite, consumes one
      entry of [clock]; nothing is assumed of two successive readings
      unless a statement says so.
    - Integers are [Z]. SQLite stores integers of 64 bits and Python's
      [sqlite3] raises [OverflowError] when it is given a larger one; the
      model has no such failure, so the statements on what fails bound
      the counter [login_attempts]. *)

From Stdlib Require Import ZArith List String Ascii Bool Lia Sorted.
Import ListNotations.

#[local] Open Scope string_scope.
#[local] Open Scope Z_scope.

(* ================================================================= *)
(** ** Python strings *)

Definition code (c : ascii) : Z := Z.of_nat (nat_of_ascii c).

Definition chars (s : string) : list ascii := list_ascii_of_string s.

(** [len(s)] *)
Definition len (s : string) : Z := Z.of_nat (String.length s).

(** Truth value of a [str]: the empty string is falsy. *)
Definition truthy (s : string) : bool := negb (String.eqb s "").

(** Truth value of an optional [str] ([None] is falsy). *)
Definition truthy_opt (o : option string) : bool :=
  match o with
  | Some s => truthy s
  | None => false
  end.

(** [str.isspace] on one character (code points below 256). *)
Definition isspace (c : ascii) : bool :=
  let n := code c in
  ((9 <=? n) && (n <=? 13)) || ((28 <=? n) && (n <=? 32))
  || (n =? 133) || (n =? 160).

(** [str.isdigit] on one character (code points below 256): the decimal
    digits and the superscripts one, two and three. *)
Definition isdigit_char (c : ascii) : bool :=
  let n := code c in
  ((48 <=? n) && (n <=? 57)) || (n =? 178) || (n =? 179) || (n =? 185).

(** [s.isdigit()]: every character is a digit and there is at least one. *)
Definition isdigit (s : string) : bool :=
  truthy s && forallb isdigit_char (chars s).

Fixpoint lstrip (s : string) : string :=
  match s with
  | EmptyString => EmptyString
  | String c r => if isspace c then lstrip r else s
  end.

Fixpoint rstrip (s : string) : string :=
  match s with
  | EmptyString => EmptyString
  | String c r =>
      let r' := rstrip r in
      if String.eqb r' "" && isspace c then EmptyString else String c r'
  end.

(** [s.strip()] *)
Definition strip (s : string) : string := rstrip (lstrip s).

(** [re.search(r'[A-Z]', s)] *)
Definition is_upper (c : ascii) : bool := (65 <=? code c) && (code c <=? 90).

Definition has_upper (s : string) : bool := existsb is_upper (chars s).

(** The character class of the second regular expression of
    [validate_password]; 34 is the double quote. *)
Definition special_codes : list Z :=
  [33; 64; 35; 36; 37; 94; 38; 42; 40; 41; 44; 46; 63; 34; 58;
   123; 125; 124; 60; 62].

Definition is_special (c : ascii) : bool :=
  existsb (Z.eqb (code c)) special_codes.

Definition has_special (s : string) : bool := existsb is_special (chars s).

(** [x in l] for a list of strings. *)
Definition str_in (x : string) (l : list string) : bool :=
  existsb (String.eqb x) l.

(* ================================================================= *)
(** ** Time *)

Definition usec_per_second : Z := 1000000.
Definition usec_per_day : Z := 86400 * usec_per_second.

(** [timedelta(days=n)], [timedelta(minutes=n)] in microseconds. *)
Definition timedelta_days (n : Z) : Z := n * usec_per_day.
Definition timedelta_minutes (n : Z) : Z := n * 60 * usec_per_second.

(** The calendar date of an instant, in days. *)
Definition date_of (t : Z) : Z := t / usec_per_day.

(** What a TIMESTAMP column holds besides NULL. [IsoText t] is a
    well-formed time string for the instant [t], as written by
    [datetime.isoformat()] or by SQLite's CURRENT_TIMESTAMP; [BadText s]
    is a text [s] that neither [datetime.fromisoformat] nor SQLite's
    date functions accept. *)
Inductive timestamp_text : Type :=
  | IsoText (t : Z)
  | BadText (s : string).

Definition ts_truthy (o : option timestamp_text) : bool :=
  match o with
  | Some (IsoText _) => true
  | Some (BadText s) => truthy s
  | None => false
  end.

(** Year, month and day of a date counted from 1970-01-01 (proleptic
    Gregorian calendar). *)
Definition civil_from_days (z : Z) : Z * Z * Z :=
  let z := z + 719468 in
  let era := z / 146097 in
  let doe := z - era * 146097 in
  let yoe := (doe - doe / 1460 + doe / 36524 - doe / 146096) / 365 in
  let doy := doe - (365 * yoe + yoe / 4 - yoe / 100) in
  let mp := (5 * doy + 2) / 153 in
  let d := doy - (153 * mp + 2) / 5 + 1 in
  let m := if mp <? 10 then mp + 3 else mp - 9 in
  let y := yoe + era * 400 in
  (if m <=? 2 then y + 1 else y, m, d).

Definition digit (n : Z) : ascii := ascii_of_nat (Z.to_nat (48 + n mod 10)).

Definition two_digits (n : Z) : string :=
  String (digit (n / 10)) (String (digit n) EmptyString).

Definition four_digits (n : Z) : string :=
  String (digit (n / 1000)) (String (digit (n / 100)) (two_digits n)).

(** The text ['YYYY-MM-DD'] that SQLite's [DATE] returns for a date. *)
Definition date_text (d : Z) : string :=
  let '(y, m, dd) := civil_from_days d in
  four_digits y ++ "-" ++ two_digits m ++ "-" ++ two_digits dd.

(* ================================================================= *)
(** ** Rows, objects and the world *)

(** A row of table [users]. *)
Record UserRow : Type := mkUserRow {
  row_id : Z;
  row_dni : string;
  row_password_hash : string;
  row_status : string;
  row_created_at : timestamp_text;
  row_last_login : option timestamp_text;
  row_login_attempts : Z;
  row_last_attempt : option timestamp_text
}.

(** A row of table [activities]. *)
Record Activity : Type := mkActivity {
  act_id : Z;
  act_timestamp : timestamp_text;
  act_user_dni : option string;
  act_action_type : string;
  act_result : string;
  act_details : option string
}.

(** An instance of the Python class [User]. *)
Record User : Type := mkUser {
  id : option Z;
  dni : string;
  password_hash : option string;
  status : string;
  created_at : option timestamp_text;
  last_login : option timestamp_text;
  login_attempts : Z;
  last_attempt : option timestamp_text
}.

(** The Flask session of the client that issues the request; pending
    flash messages live in it. *)
Record Session : Type := mkSession {
  user_dni : option string;
  is_admin : bool;
  flashes : list (string * string)
}.

Definition empty_session : Session := mkSession None false [].

Record World : Type := mkWorld {
  users : list UserRow;
  activities : list Activity;
  session : Session;
  (** successive readings of the system clock (UTC, microseconds) and the
      number of readings taken so far *)
  clock : nat -> Z;
  ticks : nat;
  (** offset of local time from UTC, in microseconds *)
  tz : Z;
  (** successive salts drawn by [generate_password_hash] *)
  salts : nat -> string;
  drawn : nat;
  (** ghost: the calls made to [check_password_hash], latest first *)
  hash_checks : list (string * string)
}.

Definition set_users (f : list UserRow -> list UserRow) (w : World) : World :=
  mkWorld (f (users w)) (activities w) (session w) (clock w) (ticks w) (tz w)
          (salts w) (drawn w) (hash_checks w).

Definition set_activities (f : list Activity -> list Activity) (w : World) : World :=
  mkWorld (users w) (f (activities w)) (session w) (clock w) (ticks w) (tz w)
          (salts w) (drawn w) (hash_checks w).

Definition set_session (f : Session -> Session) (w : World) : World :=
  mkWorld (users w) (activities w) (f (session w)) (clock w) (ticks w) (tz w)
          (salts w) (drawn w) (hash_checks w).

Definition tick (w : World) : World :=
  mkWorld (users w) (activities w) (session w) (clock w) (S (ticks w)) (tz w)
          (salts w) (drawn w) (hash_checks w).

Definition draw (w : World) : World :=
  mkWorld (users w) (activities w) (session w) (clock w) (ticks w) (tz w)
          (salts w) (S (drawn w)) (hash_checks w).

Definition note_hash_check (h p : string) (w : World) : World :=
  mkWorld (users w) (activities w) (session w) (clock w) (ticks w) (tz w)
          (salts w) (drawn w) ((h, p) :: hash_checks w).

(* ================================================================= *)
(** ** The monad of request handlers *)

Inductive exn : Type := ValueError | TypeError | IntegrityError.

Definition exn_eqb (a b : exn) : bool :=
  match a, b with
  | ValueError, ValueError | TypeError, TypeError
  | IntegrityError, IntegrityError => true
  | _, _ => false
  end.

Inductive outcome (A : Type) : Type :=
  | Returned (a : A)
  | Raised (e : exn).

Arguments Returned {A} a.
Arguments Raised {A} e.

Definition M (A : Type) : Type := World -> outcome A * World.

Definition ret {A} (a : A) : M A := fun w => (Returned a, w).

Definition raise {A} (e : exn) : M A := fun w => (Raised e, w).

Definition bind {A B} (m : M A) (k : A -> M B) : M B :=
  fun w =>
    match m w with
    | (Returned a, w') => k a w'
    | (Raised e, w') => (Raised e, w')
    end.

(** [try: body except e: handler] *)
Definition try_except {A} (body : M A) (e : exn) (handler : M A) : M A :=
  fun w =>
    match body w with
    | (Raised e', w') => if exn_eqb e e' then handler w' else (Raised e', w')
    | r => r
    end.

Definition lift {A} (o : outcome A) : M A := fun w => (o, w).

Definition get {A} (f : World -> A) : M A := fun w => (Returned (f w), w).

Definition modify (f : World -> World) : M unit := fun w => (Returned tt, f w).

Declare Scope monad_scope.
Delimit Scope monad_scope with monad.
Notation "x <- m ;; k" := (bind m (fun x => k))
  (at level 61, m at next level, right associativity) : monad_scope.
Notation "m ;; k" := (bind m (fun _ => k))
  (at level 61, right associativity) : monad_scope.
#[local] Open Scope monad_scope.

(** [for x in l: body x] *)
Fixpoint for_each {A} (l : list A) (body : A -> M unit) : M unit :=
  match l with
  | [] => ret tt
  | x :: r => body x ;; for_each r body
  end.

(** A list comprehension whose element expression has effects. *)
Fixpoint comprehension {A B} (l : list A) (f : A -> M B) : M (list B) :=
  match l with
  | [] => ret []
  | x :: r => y <- f x ;; ys <- comprehension r f ;; ret (y :: ys)
  end.

(** A loop that appends to an accumulator. *)
Fixpoint fold_loop {A B} (l : list A) (acc : B) (body : B -> A -> M B) : M B :=
  match l with
  | [] => ret acc
  | x :: r => acc' <- body acc x ;; fold_loop r acc' body
  end.

(* ================================================================= *)
(** ** Clock and SQLite primitives *)

(** [datetime.now()]: local wall-clock time. *)
Definition datetime_now : M Z :=
  fun w => (Returned (clock w (ticks w) + tz w), tick w).

(** SQLite's ['now']: UTC. *)
Definition sqlite_now : M Z :=
  fun w => (Returned (clock w (ticks w)), tick w).

(** CURRENT_TIMESTAMP has a resolution of one second. *)
Definition CURRENT_TIMESTAMP (utc : Z) : timestamp_text :=
  IsoText (utc / usec_per_second * usec_per_second).

(** [datetime.isoformat()] and [datetime.fromisoformat(text)]. *)
Definition isoformat (t : Z) : timestamp_text := IsoText t.

Definition fromisoformat (x : timestamp_text) : outcome Z :=
  match x with
  | IsoText t => Returned t
  | BadText _ => Raised ValueError
  end.

(** SQLite's [DATE(x)]: NULL ([None]) on a text that is not a time. *)
Definition sql_DATE (x : timestamp_text) : option Z :=
  match x with
  | IsoText t => Some (date_of t)
  | BadText _ => None
  end.

(** The comparison [x >= DATE(...)] of a stored text with a date text:
    a time string is at or after a date text exactly from that date on;
    any other text is compared byte by byte. *)
Definition text_ge_date (x : timestamp_text) (d : Z) : bool :=
  match x with
  | IsoText t => d <=? date_of t
  | BadText s => String.leb (date_text d) s
  end.

(** The rowid SQLite gives to an inserted row: the one after the largest
    of the table. Column [id] of [users] is AUTOINCREMENT, and there an
    INSERT OR IGNORE that is ignored (the one of [init_db]) uses a rowid
    up, so that SQLite may give a larger one: of the rowid of a new
    account the properties only state that it is not 0 and not the rowid
    of another row. *)
Definition next_rowid (ids : list Z) : Z := 1 + fold_right Z.max 0 ids.

(* ================================================================= *)
(** ** werkzeug.security *)

(** The salted password hash is a black box: hashing draws a salt, and a
    hash verifies the password it was made from. *)
Class PasswordHasher : Type := {
  generate_password_hash : string -> string -> string;
  check_password_hash : string -> string -> bool;
  check_generated : forall salt pw,
    check_password_hash (generate_password_hash salt pw) pw = true;
  generated_truthy : forall salt pw,
    truthy (generate_password_hash salt pw) = true
}.

(* ================================================================= *)
(** ** HTTP requests and responses *)

Inductive http_method : Type := GET | POST.

Record Request : Type := mkRequest {
  method : http_method;
  form : list (string * string)
}.

Inductive Response : Type :=
  | render_template (template : string)
  | redirect (endpoint : string)
  | jsonify_error (error : string) (http_status : Z)
  | jsonify_success (message : option string).

Fixpoint lookup (k : string) (l : list (string * string)) : option string :=
  match l with
  | [] => None
  | (k', v) :: r => if String.eqb k k' then Some v else lookup k r
  end.

(** [request.form.get(key, '')] *)
Definition form_get_or_empty (rq : Request) (k : string) : string :=
  match lookup k (form rq) with
  | Some v => v
  | None => ""
  end.

(** [request.form.get(key)] *)
Definition form_get (rq : Request) (k : string) : option string :=
  lookup k (form rq).

(** [flash(message, category)] *)
Definition flash (message category : string) : M unit :=
  modify (set_session (fun s =>
    mkSession (user_dni s) (is_admin s) (flashes s ++ [(category, message)])%list)).

Definition session_set_user_dni (d : string) : M unit :=
  modify (set_session (fun s => mkSession (Some d) (is_admin s) (flashes s))).

Definition session_set_is_admin (b : bool) : M unit :=
  modify (set_session (fun s => mkSession (user_dni s) b (flashes s))).

(** [session.clear()] *)
Definition session_clear : M unit := modify (set_session (fun _ => empty_session)).

(* ================================================================= *)
(** ** utils.py, first part *)

(** [validate_input(data, required_fields)] *)
Definition validate_input (data : list (string * string))
    (required_fields : list string) : list string :=
  flat_map
    (fun field =>
       match lookup field data with
       | Some v =>
           if truthy (strip v) then []
           else ["El campo " ++ field ++ " es requerido"]
       | None => ["El campo " ++ field ++ " es requerido"]
       end)
    required_fields.

(* ================================================================= *)
(** ** models.py *)

(** [User.create_from_row] *)
Definition create_from_row (r : UserRow) : User :=
  mkUser (Some (row_id r)) (row_dni r) (Some (row_password_hash r))
         (row_status r) (Some (row_created_at r)) (row_last_login r)
         (row_login_attempts r) (row_last_attempt r).

Definition has_dni (d : string) (r : UserRow) : bool := String.eqb (row_dni r) d.

(** [User.find_by_dni]: SELECT * FROM users WHERE dni = ? *)
Definition find_by_dni (d : string) : M (option User) :=
  get (fun w => option_map create_from_row (find (has_dni d) (users w))).

Definition set_status (u : User) (s : string) : User :=
  mkUser (id u) (dni u) (password_hash u) s (created_at u) (last_login u)
         (login_attempts u) (last_attempt u).

Definition set_id (u : User) (i : Z) : User :=
  mkUser (Some i) (dni u) (password_hash u) (status u) (created_at u)
         (last_login u) (login_attempts u) (last_attempt u).

Definition set_password_hash (u : User) (h : string) : User :=
  mkUser (id u) (dni u) (Some h) (status u) (created_at u) (last_login u)
         (login_attempts u) (last_attempt u).

(** Truth value of [existing_user and existing_user.id]. *)
Definition has_row (existing : option User) : bool :=
  match existing with
  | Some e => match id e with Some i => negb (i =? 0) | None => false end
  | None => false
  end.

(** UPDATE users SET password_hash, status, last_login, login_attempts,
    last_attempt WHERE dni = ? *)
Definition sql_update_user (self : User) (h : string) (r : UserRow) : UserRow :=
  if has_dni (dni self) r then
    mkUserRow (row_id r) (row_dni r) h (status self) (row_created_at r)
              (last_login self) (login_attempts self) (last_attempt self)
  else r.

(** INSERT INTO users (dni, password_hash, status): the other columns
    take their defaults; [dni] is UNIQUE. *)
Definition sql_insert_user (d h s : string) : M Z :=
  utc <- sqlite_now ;;
  taken <- get (fun w => existsb (has_dni d) (users w)) ;;
  if taken then raise IntegrityError
  else
    rowid <- get (fun w => next_rowid (map row_id (users w))) ;;
    modify (set_users (fun l =>
      (l ++ [mkUserRow rowid d h s (CURRENT_TIMESTAMP utc) None 0 None])%list)) ;;
    ret rowid.

(** [User.save]; the columns [password_hash] are NOT NULL. The UPDATE
    binds [login_attempts], which SQLite takes when it fits in 64 bits. *)
Definition save (self : User) : M User :=
  existing_user <- find_by_dni (dni self) ;;
  match password_hash self with
  | None => raise IntegrityError
  | Some h =>
      if has_row existing_user then
        modify (set_users (map (sql_update_user self h))) ;;
        ret self
      else
        rowid <- sql_insert_user (dni self) h (status self) ;;
        ret (set_id self rowid)
  end.

(** [User.validate_dni] *)
Definition validate_dni (d : string) : bool * string :=
  if negb (truthy d) then (false, "El DNI no puede estar vacío")
  else if negb (isdigit d) then (false, "El DNI debe contener solo números")
  else if (len d <? 6) || (8 <? len d) then
    (false, "El DNI debe tener entre 6 y 8 dígitos")
  else (true, "DNI válido").

(** [User.validate_password] *)
Definition validate_password (password : string) : bool * string :=
  if (len password <? 8) || (12 <? len password) then
    (false, "La contraseña debe tener entre 8 y 12 caracteres")
  else if negb (has_upper password) then
    (false, "La contraseña debe contener al menos una mayúscula")
  else if negb (has_special password) then
    (false, "La contraseña debe contener al menos un carácter especial")
  else (true, "Contraseña válida").

(** [User.log_activity]: INSERT INTO activities (user_dni, action_type,
    result, details); [timestamp] defaults to CURRENT_TIMESTAMP. *)
Definition log_activity (self : User) (action_type result : string)
    (details : option string) : M unit :=
  utc <- sqlite_now ;;
  modify (set_activities (fun l =>
    (l ++ [mkActivity (next_rowid (map act_id l)) (CURRENT_TIMESTAMP utc)
                      (Some (dni self)) action_type result details])%list)).

Section WithHasher.

Context {hasher : PasswordHasher}.

(** [generate_password_hash(password)] draws a fresh salt. *)
Definition new_password_hash (password : string) : M string :=
  fun w => (Returned (generate_password_hash (salts w (drawn w)) password), draw w).

(** [User.check_password] *)
Definition check_password (self : User) (password : string) : M bool :=
  match password_hash self with
  | None => ret false
  | Some h =>
      if negb (truthy h) then ret false
      else
        modify (note_hash_check h password) ;;
        ret (check_password_hash h password)
  end.

End WithHasher.

Definition on_success (self : User) (now : timestamp_text) : User :=
  mkUser (id self) (dni self) (password_hash self) "activo" (created_at self)
         (Some now) 0 (last_attempt self).

Definition on_failure (self : User) (now : timestamp_text) : User :=
  mkUser (id self) (dni self) (password_hash self) (status self)
         (created_at self) (last_login self) (login_attempts self + 1)
         (Some now).

(** [datetime.fromisoformat] on the value of a nullable column. *)
Definition fromisoformat_opt (x : option timestamp_text) : outcome Z :=
  match x with
  | Some s => fromisoformat s
  | None => Raised TypeError
  end.

(** [User.update_login_attempt] *)
Definition update_login_attempt (self : User) (success : bool) : M User :=
  t <- datetime_now ;;
  let now := isoformat t in
  self <-
    (if success then ret (on_success self now)
     else
       let self := on_failure self now in
       if (5 <=? login_attempts self) && ts_truthy (last_attempt self) then
         try_except
           (last_attempt_dt <- lift (fromisoformat_opt (last_attempt self)) ;;
            t' <- datetime_now ;;
            let time_diff := t' - last_attempt_dt in
            if time_diff <? timedelta_minutes 1
            then ret (set_status self "bloqueado")
            else ret self)
           ValueError
           (ret self)
       else ret self) ;;
  self <- save self ;;
  log_activity self "acceso" (if success then "exitoso" else "fallido") None ;;
  ret self.

(* ================================================================= *)
(** ** utils.py, second part: the status rules *)

Definition opt_str_eqb (o : option string) (s : string) : bool :=
  match o with
  | Some x => String.eqb x s
  | None => false
  end.

(** The WHERE clause of the query of [check_consecutive_failed_logins]:
    user_dni = ? AND action_type = 'acceso' AND result = 'fallido'
    AND timestamp >= DATE('now', '-<days> days'). *)
Definition failed_login_since (d : string) (cutoff : Z) (a : Activity) : bool :=
  opt_str_eqb (act_user_dni a) d
  && String.eqb (act_action_type a) "acceso"
  && String.eqb (act_result a) "fallido"
  && text_ge_date (act_timestamp a) cutoff.

(** SQLite's order on a nullable date column: NULL sorts below every
    date. *)
Definition date_ltb (a b : option Z) : bool :=
  match a, b with
  | None, Some _ => true
  | Some x, Some y => x <? y
  | _, None => false
  end.

Definition date_eqb (a b : option Z) : bool :=
  match a, b with
  | None, None => true
  | Some x, Some y => x =? y
  | _, _ => false
  end.

(** One row of the grouped result: [attempt_date] and [failures]. *)
Definition attempt_row : Type := option Z * Z.

(** Adds one activity to its group, keeping the groups in descending
    order of date. *)
Fixpoint count_into (d : option Z) (groups : list attempt_row) : list attempt_row :=
  match groups with
  | [] => [(d, 1)]
  | (d', n) :: r =>
      if date_eqb d d' then (d', n + 1) :: r
      else if date_ltb d' d then (d, 1) :: groups
      else (d', n) :: count_into d r
  end.

(** GROUP BY DATE(timestamp) ORDER BY attempt_date DESC *)
Definition group_by_date_desc (dates : list (option Z)) : list attempt_row :=
  fold_right count_into [] dates.

(** The whole SELECT, with its LIMIT. *)
Definition select_recent_attempts (d : string) (days : Z) : M (list attempt_row) :=
  utc <- sqlite_now ;;
  rows <- get activities ;;
  let cutoff := date_of utc - days in
  ret (firstn (Z.to_nat days)
         (group_by_date_desc
            (map (fun a => sql_DATE (act_timestamp a))
                 (filter (failed_login_since d cutoff) rows)))).

(** [datetime.fromisoformat(row['attempt_date']).date()]: NULL comes back
    as [None], which is not a [str]; a date text outside the years 1 to
    9999 is not an ISO date for Python. *)
Definition date_fromisoformat (x : option Z) : outcome Z :=
  match x with
  | None => Raised TypeError
  | Some d =>
      if (-719162 <=? d) && (d <=? 2932896) then Returned d
      else Raised ValueError
  end.

(** [range(n)] *)
Definition range (n : Z) : list Z := map Z.of_nat (seq 0 (Z.to_nat n)).

Fixpoint dates_eqb (a b : list Z) : bool :=
  match a, b with
  | [], [] => true
  | x :: a', y :: b' => (x =? y) && dates_eqb a' b'
  | _, _ => false
  end.

(** [check_consecutive_failed_logins(dni, days)] *)
Definition check_consecutive_failed_logins (d : string) (days : Z) : M bool :=
  recent_attempts <- select_recent_attempts d days ;;
  if days <=? Z.of_nat (List.length recent_attempts) then
    expected_dates <-
      comprehension (range days)
        (fun i => now <- datetime_now ;; ret (date_of (now - timedelta_days i))) ;;
    actual_dates <-
      fold_loop (firstn (Z.to_nat days) recent_attempts) []
        (fun actual_dates row =>
           try_except
             (date_obj <- lift (date_fromisoformat (fst row)) ;;
              ret (actual_dates ++ [date_obj])%list)
             ValueError
             (ret actual_dates)) ;;
    ret (dates_eqb actual_dates expected_dates)
  else ret false.

(** [update_user_status_based_on_rules(user)], for a user that was
    found (the guard on a missing user never fires at its call site). *)
Definition update_user_status_based_on_rules (user : User) : M User :=
  now <- datetime_now ;;
  user <-
    (if ts_truthy (last_login user) then
       try_except
         (last_login_dt <- lift (fromisoformat_opt (last_login user)) ;;
          if timedelta_days 180 <? now - last_login_dt
          then ret (set_status user "pausado")
          else ret user)
         ValueError
         (ret user)
     else
       flagged <- check_consecutive_failed_logins (dni user) 5 ;;
       if flagged then ret (set_status user "alertado") else ret user) ;;
  save user.

(* ================================================================= *)
(** ** app.py *)

Definition ADMIN_PASSWORD : string := "Password123!".

Definition BLOCKED_STATUSES : list string :=
  ["bloqueado"; "pausado"; "alertado"; "suspendido"].

Definition new_user (d h : string) : User :=
  mkUser None d (Some h) "inmaculado" None None 0 None.

Section Handlers.

Context {hasher : PasswordHasher}.

(** POST and GET /register *)
Definition register (rq : Request) : M Response :=
  match method rq with
  | GET => ret (render_template "register.html")
  | POST =>
      let errors := validate_input (form rq) ["dni"; "password"; "confirm_password"] in
      match errors with
      | _ :: _ =>
          for_each errors (fun error => flash error "error") ;;
          ret (render_template "register.html")
      | [] =>
          let dni' := form_get_or_empty rq "dni" in
          let password := form_get_or_empty rq "password" in
          let confirm_password := form_get_or_empty rq "confirm_password" in
          let '(is_valid_dni, dni_message) := validate_dni dni' in
          if negb is_valid_dni then
            flash dni_message "error" ;; ret (render_template "register.html")
          else if negb (String.eqb password confirm_password) then
            flash "Las contraseñas no coinciden" "error" ;;
            ret (render_template "register.html")
          else
            let '(is_valid_password, password_message) := validate_password password in
            if negb is_valid_password then
              flash password_message "error" ;;
              ret (render_template "register.html")
            else
              existing <- find_by_dni dni' ;;
              match existing with
              | Some _ =>
                  flash "El usuario ya existe" "error" ;;
                  ret (render_template "register.html")
              | None =>
                  password_hash <- new_password_hash password ;;
                  new_user <- save (new_user dni' password_hash) ;;
                  log_activity new_user "registro" "exitoso" None ;;
                  flash "Usuario registrado exitosamente" "success" ;;
                  ret (redirect "index")
              end
      end
  end.

(** POST and GET /login *)
Definition login (rq : Request) : M Response :=
  match method rq with
  | GET => ret (render_template "login.html")
  | POST =>
      let dni' := form_get_or_empty rq "dni" in
      let password := form_get_or_empty rq "password" in
      if negb (truthy dni') || negb (truthy password) then
        flash "Por favor complete todos los campos" "error" ;;
        ret (render_template "login.html")
      else
        found <- find_by_dni dni' ;;
        match found with
        | None =>
            flash "Usuario no encontrado" "error" ;;
            ret (render_template "login.html")
        | Some user =>
            user <- update_user_status_based_on_rules user ;;
            if str_in (status user) BLOCKED_STATUSES then
              flash ("Usuario " ++ status user ++ ". No puede ingresar al sistema.") "error" ;;
              log_activity user "acceso" "fallido" (Some ("Usuario " ++ status user)) ;;
              ret (render_template "login.html")
            else
              ok <- check_password user password ;;
              if ok then
                user <- update_login_attempt user true ;;
                session_set_user_dni (dni user) ;;
                session_set_is_admin false ;;
                ret (render_template "success.html")
              else
                update_login_attempt user false ;;
                flash "Contraseña incorrecta" "error" ;;
                ret (render_template "login.html")
        end
  end.

(** Logs on behalf of the row ['admin'] when it exists. *)
Definition log_as_admin (action_type result : string) (details : option string) : M unit :=
  admin_user <- find_by_dni "admin" ;;
  match admin_user with
  | Some a => log_activity a action_type result details
  | None => ret tt
  end.

(** POST and GET /admin/login *)
Definition admin_login (rq : Request) : M Response :=
  match method rq with
  | GET => ret (render_template "admin_login.html")
  | POST =>
      let password := form_get_or_empty rq "password" in
      if negb (truthy password) then
        flash "Por favor ingrese la contraseña de administrador" "error" ;;
        ret (render_template "admin_login.html")
      else if String.eqb password ADMIN_PASSWORD then
        session_set_is_admin true ;;
        session_set_user_dni "admin" ;;
        log_as_admin "admin_login" "exitoso" None ;;
        ret (redirect "admin_dashboard")
      else
        flash "Contraseña de administrador incorrecta" "error" ;;
        ret (render_template "admin_login.html")
  end.

(** POST /admin/change_status *)
Definition change_user_status (rq : Request) : M Response :=
  admin <- get (fun w => is_admin (session w)) ;;
  if negb admin then ret (jsonify_error "Acceso denegado" 403)
  else
    let dni' := form_get rq "dni" in
    let new_status := form_get rq "new_status" in
    match dni', new_status with
    | Some dni', Some new_status =>
        if negb (truthy dni') || negb (truthy new_status) then
          ret (jsonify_error "DNI y nuevo estado son requeridos" 400)
        else if String.eqb dni' "admin" then
          ret (jsonify_error "No puede modificar el usuario administrador" 400)
        else
          found <- find_by_dni dni' ;;
          match found with
          | None => ret (jsonify_error "Usuario no encontrado" 404)
          | Some user =>
              if String.eqb (status user) new_status then
                ret (jsonify_error "El estado actual y el nuevo no pueden ser idénticos" 400)
              else
                save (set_status user new_status) ;;
                log_as_admin "cambio_estado" "admin-ok"
                  (Some ("Usuario " ++ dni' ++ " -> " ++ new_status)) ;;
                ret (jsonify_success None)
          end
    | _, _ => ret (jsonify_error "DNI y nuevo estado son requeridos" 400)
    end.

(** POST /admin/change_password *)
Definition change_user_password (rq : Request) : M Response :=
  admin <- get (fun w => is_admin (session w)) ;;
  if negb admin then ret (jsonify_error "Acceso denegado" 403)
  else
    let dni' := form_get rq "dni" in
    let new_password := form_get rq "new_password" in
    match dni', new_password with
    | Some dni', Some new_password =>
        if negb (truthy dni') || negb (truthy new_password) then
          ret (jsonify_error "DNI y nueva contraseña son requeridos" 400)
        else
          found <- find_by_dni dni' ;;
          match found with
          | None => ret (jsonify_error "Usuario no encontrado" 404)
          | Some user =>
              let '(is_valid_password, password_message) := validate_password new_password in
              if negb is_valid_password then ret (jsonify_error password_message 400)
              else
                h <- new_password_hash new_password ;;
                save (set_password_hash user h) ;;
                log_as_admin "cambio_password" "admin-ok" (Some ("Usuario " ++ dni')) ;;
                ret (jsonify_success None)
          end
    | _, _ => ret (jsonify_error "DNI y nueva contraseña son requeridos" 400)
    end.

(** POST /admin/change_admin_password *)
Definition change_admin_password (rq : Request) : M Response :=
  admin <- get (fun w => is_admin (session w)) ;;
  if negb admin then ret (jsonify_error "Acceso denegado" 403)
  else
    let current_password := form_get rq "current_password" in
    let new_password := form_get rq "new_password" in
    let confirm_password := form_get rq "confirm_password" in
    if negb (truthy_opt current_password && truthy_opt new_password
             && truthy_opt confirm_password) then
      ret (jsonify_error "Todos los campos son requeridos" 400)
    else
      match current_password, new_password, confirm_password with
      | Some current_password, Some new_password, Some confirm_password =>
          if negb (String.eqb current_password ADMIN_PASSWORD) then
            ret (jsonify_error "Contraseña actual incorrecta" 400)
          else if negb (String.eqb new_password confirm_password) then
            ret (jsonify_error "Las nuevas contraseñas no coinciden" 400)
          else
            let '(is_valid_password, password_message) := validate_password new_password in
            if negb is_valid_password then ret (jsonify_error password_message 400)
            else
              log_as_admin "cambio_password_admin" "admin-ok"
                (Some "Contraseña de admin cambiada") ;;
              ret (jsonify_success (Some "Contraseña de administrador actualizada"))
      | _, _, _ => ret (jsonify_error "Todos los campos son requeridos" 400)
      end.

(** GET /logout *)
Definition logout : M Response :=
  who <- get (fun w => user_dni (session w)) ;;
  (match who with
   | Some d =>
       if truthy d then
         found <- find_by_dni d ;;
         match found with
         | Some user => log_activity user "logout" "exitoso" None
         | None => ret tt
         end
       else ret tt
   | None => ret tt
   end) ;;
  session_clear ;;
  flash "Sesión cerrada exitosamente" "success" ;;
  ret (redirect "index").

(** [Database.init_db]: the tables exist afterwards, and the row of the
    administrator is inserted unless a row ['admin'] is there (INSERT OR
    IGNORE). *)
Definition init_db : M unit :=
  admin_password_hash <- new_password_hash "Password123!" ;;
  try_except
    (sql_insert_user "admin" admin_password_hash "activo" ;; ret tt)
    IntegrityError
    (ret tt).

End Handlers.

(* ================================================================= *)
(** ** Concrete worlds on which the model runs *)

(** A stand-in hasher: it keeps the password behind a marker, which is
    enough to tell a right password from a wrong one. *)
#[export] Instance plain_hasher : PasswordHasher := {|
  generate_password_hash := fun _ pw => String "$" pw;
  check_password_hash := fun h pw => String.eqb h (String "$" pw);
  check_generated := fun _ pw => String.eqb_refl (String "$" pw);
  generated_truthy := fun _ _ => eq_refl
|}.

(** Noon UTC of 2026-11-04. *)
Definition noon : Z := 20761 * usec_per_day + 43200 * usec_per_second.

(** A clock that advances one millisecond between two readings. *)
Definition sample_clock (n : nat) : Z := noon + Z.of_nat n * 1000.

(** Local time three hours behind UTC. *)
Definition sample_tz : Z := - (3 * 3600 * usec_per_second).

Definition blank_world : World :=
  mkWorld [] [] empty_session sample_clock 0 sample_tz (fun _ => "salt") 0 [].

(** The database right after start-up. *)
Definition boot : World := snd (init_db blank_world).

Definition post (fields : list (string * string)) : Request := mkRequest POST fields.

Definition as_admin (w : World) : World :=
  set_session (fun s => mkSession (Some "admin") true (flashes s)) w.

(** A row of an ordinary account, with the hash of ["Abc12345!"]. *)
Definition sample_row (d s : string) (last_login : option timestamp_text)
    (attempts : Z) (last_attempt : option timestamp_text) : UserRow :=
  mkUserRow 2 d "$Abc12345!" s (IsoText 0) last_login attempts last_attempt.

Definition with_row (r : UserRow) (w : World) : World :=
  set_users (fun l => l ++ [r])%list w.

(** A failed login event of account [d] stamped [ts]. *)
Definition failed_login_event (i : Z) (d : string) (ts : timestamp_text) : Activity :=
  mkActivity i ts (Some d) "acceso" "fallido" None.

Definition hour : Z := 3600 * usec_per_second.

(** A clock that stands still for an hour between its 19th and 20th
    readings. *)
Definition pausing_clock (n : nat) : Z :=
  noon + Z.of_nat n * 1000 + (if (19 <=? n)%nat then hour else 0).

Definition sample_dni : string := "12345678".

Definition registration : Request :=
  post [("dni", sample_dni); ("password", "Abc12345!");
        ("confirm_password", "Abc12345!")].

Definition good_login : Request :=
  post [("dni", sample_dni); ("password", "Abc12345!")].

Definition bad_login : Request :=
  post [("dni", sample_dni); ("password", "wrong")].

(** The world after [m] ran in [w]. *)
Definition after {A} (m : M A) (w : World) : World := snd (m w).

(** Start-up and a registration, then four failed logins in a row. *)
Definition after_four_failures : World :=
  after (login bad_login) (after (login bad_login)
    (after (login bad_login) (after (login bad_login)
      (after (register registration)
        (after init_db
           (mkWorld [] [] empty_session pausing_clock 0 sample_tz
                    (fun _ => "salt") 0 [])))))).

(** An account that never logged in, with failed logins on four of the
    last days and one audit row whose timestamp is not a time. *)
Definition garbage_world : World :=
  set_activities
    (fun _ =>
       [failed_login_event 1 sample_dni (IsoText (noon - timedelta_days 3));
        failed_login_event 2 sample_dni (IsoText (noon - timedelta_days 2));
        failed_login_event 3 sample_dni (IsoText (noon - timedelta_days 1));
        failed_login_event 4 sample_dni (BadText "garbage");
        failed_login_event 5 sample_dni (IsoText noon)])
    (with_row (sample_row sample_dni "inmaculado" None 4 None) boot).

(** The same account with failed logins on each of the last five days. *)
Definition five_days_world : World :=
  set_activities
    (fun _ =>
       [failed_login_event 1 sample_dni (IsoText (noon - timedelta_days 4));
        failed_login_event 2 sample_dni (IsoText (noon - timedelta_days 3));
        failed_login_event 3 sample_dni (IsoText (noon - timedelta_days 2));
        failed_login_event 4 sample_dni (IsoText (noon - timedelta_days 1));
        failed_login_event 5 sample_dni (IsoText noon)])
    (with_row (sample_row sample_dni "inmaculado" None 5 None) boot).

(** An account suspended by the administrator. *)
Definition suspended_world : World :=
  with_row (sample_row sample_dni "suspendido" None 0 None) boot.

(** An account whose last login is 181 days old. *)
Definition stale_world : World :=
  with_row
    (sample_row sample_dni "activo"
       (Some (IsoText (noon + sample_tz - timedelta_days 181))) 0 None)
    boot.

(** Evenings: the readings of the clock are taken at 01:00 UTC, which
    is 22:00 of the day before in local time, on 31 October 2026 (start-up,
    a registration and a failed login) and on each of the next five
    days. *)
Definition evening_of_reading (n : nat) : Z :=
  if (n <? 7)%nat then 0
  else if (n <? 11)%nat then 1
  else if (n <? 15)%nat then 2
  else if (n <? 19)%nat then 3
  else if (n <? 24)%nat then 4
  else 5.

Definition evening_clock (n : nat) : Z :=
  noon + 13 * hour - timedelta_days 5
  + timedelta_days (evening_of_reading n) + Z.of_nat n * 1000.

(** Start-up and a registration, then one failed login on each of five
    evenings in a row; the next reading of the clock is on the sixth
    evening. *)
Definition after_five_evenings : World :=
  after (login bad_login) (after (login bad_login) (after (login bad_login)
    (after (login bad_login) (after (login bad_login)
      (after (register registration)
        (after init_db
           (mkWorld [] [] empty_session evening_clock 0 sample_tz
                    (fun _ => "salt") 0 []))))))).

(** The same world with the local time zone set to UTC. *)
Definition in_utc (w : World) : World :=
  mkWorld (users w) (activities w) (session w) (clock w) (ticks w) 0
          (salts w) (drawn w) (hash_checks w).

(* ================================================================= *)
(** * The vocabulary of the properties *)

(** ** Requests *)

(** The password policy of [validate_password]. *)
Definition policy_compliant (password : string) : Prop :=
  8 <= len password <= 12 /\ has_upper password = true /\ has_special password = true.

(** A login request for identifier [d] with password [p], both fields
    filled in: the request gets as far as the lookup of the account. *)
Definition login_request (rq : Request) (d p : string) : Prop :=
  method rq = POST
  /\ lookup "dni" (form rq) = Some d /\ lookup "password" (form rq) = Some p
  /\ truthy d = true /\ truthy p = true.

(** The form of a registration for identifier [d] with password [p],
    typed twice. *)
Definition registration_request (rq : Request) (d p : string) : Prop :=
  method rq = POST
  /\ lookup "dni" (form rq) = Some d
  /\ lookup "password" (form rq) = Some p
  /\ lookup "confirm_password" (form rq) = Some p.

(** ** Rows that the handlers write *)

(** The row that INSERT adds for a new account. *)
Definition inserted_row (d h s : string) (w : World) : UserRow :=
  mkUserRow (next_rowid (map row_id (users w))) d h s
            (CURRENT_TIMESTAMP (clock w (ticks w))) None 0 None.

(** The row of an account after an override of its status: nothing but
    the status changes. *)
Definition with_status (r : UserRow) (s : string) : UserRow :=
  mkUserRow (row_id r) (row_dni r) (row_password_hash r) s (row_created_at r)
            (row_last_login r) (row_login_attempts r) (row_last_attempt r).

(** The audit row written when the gate turns a login away. *)
Definition denial_event (user : User) (w : World) : Activity :=
  mkActivity (next_rowid (map act_id (activities w)))
             (CURRENT_TIMESTAMP (clock w (ticks w)))
             (Some (dni user)) "acceso" "fallido"
             (Some ("Usuario " ++ status user)).

(** The audit row of a login attempt that reached the password check. *)
Definition attempt_event (user : User) (result : string) (w : World) : Activity :=
  mkActivity (next_rowid (map act_id (activities w)))
             (CURRENT_TIMESTAMP (clock w (ticks w)))
             (Some (dni user)) "acceso" result None.

(** The audit row that [change_user_status] writes. *)
Definition status_change_event (d new_status : string) (w : World) : Activity :=
  mkActivity (next_rowid (map act_id (activities w)))
             (CURRENT_TIMESTAMP (clock w (ticks w)))
             (Some "admin") "cambio_estado" "admin-ok"
             (Some ("Usuario " ++ d ++ " -> " ++ new_status)).

(** The audit row that [change_admin_password] writes. *)
Definition admin_password_event (w : World) : Activity :=
  mkActivity (next_rowid (map act_id (activities w)))
             (CURRENT_TIMESTAMP (clock w (ticks w)))
             (Some "admin") "cambio_password_admin" "admin-ok"
             (Some "Contraseña de admin cambiada").

(** The world after messages were flashed: only the pending flashes of
    the session grow. *)
Definition flashed (category : string) (messages : list string) (w : World) : World :=
  set_session
    (fun s => mkSession (user_dni s) (is_admin s)
                (flashes s ++ map (fun m => (category, m)) messages)%list) w.

(** ** The audit log and the clock *)

(** Account [d] has a failed login that SQLite dates [day]:
    [DATE(timestamp)] of the audit row, which is a date in UTC for the
    rows that the service writes (CURRENT_TIMESTAMP). *)
Definition failed_on (w : World) (d : string) (day : Z) : Prop :=
  exists a,
    In a (activities w)
    /\ act_user_dni a = Some d
    /\ act_action_type a = "acceso"
    /\ act_result a = "fallido"
    /\ sql_DATE (act_timestamp a) = Some day.

(** The failed logins of account [d] in the audit log. *)
Definition failed_logins (w : World) (d : string) : list Activity :=
  filter (fun a => opt_str_eqb (act_user_dni a) d
                   && String.eqb (act_action_type a) "acceso"
                   && String.eqb (act_result a) "fallido")
         (activities w).

(** The calendar date of a stored UTC time, in UTC and in the local time
    of [w]. *)
Definition utc_date (x : timestamp_text) : option Z := sql_DATE x.

Definition local_date (w : World) (x : timestamp_text) : option Z :=
  match x with
  | IsoText t => Some (date_of (t + tz w))
  | BadText _ => None
  end.

(** Time does not run backwards between two readings of the clock. *)
Definition monotone_clock (w : World) : Prop :=
  forall n, clock w n <= clock w (S n).

(** Local time at the [i]-th reading of the clock from now on. *)
Definition local_time (w : World) (i : nat) : Z := clock w (ticks w + i) + tz w.

(** ** The result of the query *)

(** The dates of the grouped rows. *)
Definition keys (groups : list attempt_row) : list (option Z) := map fst groups.

(** [descending l]: each date of [l] sorts strictly above those after it. *)
Definition descending (l : list (option Z)) : Prop :=
  StronglySorted (fun a b => date_ltb b a = true) l.

(** What the loop of [check_consecutive_failed_logins] computes: a row
    whose date is NULL stops it with [TypeError], a row whose date Python
    rejects is skipped. *)
Fixpoint parse_dates (rows : list attempt_row) (acc : list Z) : outcome (list Z) :=
  match rows with
  | [] => Returned acc
  | row :: r =>
      match date_fromisoformat (fst row) with
      | Returned d => parse_dates r (acc ++ [d])
      | Raised ValueError => parse_dates r acc
      | Raised e => Raised e
      end
  end.

Definition nonspace (c : ascii) : bool := negb (isspace c).

(** ** A program logic for [M] *)

(** [hoare P m Q E]: from a world that satisfies [P], [m] either returns
    [a] in a world that satisfies [Q a], or raises in a world that
    satisfies [E]. *)
Definition hoare {A} (P : World -> Prop) (m : M A)
    (Q : A -> World -> Prop) (E : World -> Prop) : Prop :=
  forall w, P w ->
    match m w with
    | (Returned a, w') => Q a w'
    | (Raised _, w') => E w'
    end.

(** A computation that keeps an invariant, whether it returns or raises. *)
Definition keeps {A} (I : World -> Prop) (m : M A) : Prop :=
  hoare I m (fun _ => I) I.

(** An invariant that only reads table [users]. *)
Definition reads_users (I : World -> Prop) : Prop :=
  forall w w', users w' = users w -> I w -> I w'.

(** An invariant that only reads the two tables. *)
Definition reads_database (I : World -> Prop) : Prop :=
  forall w w', users w' = users w -> activities w' = activities w -> I w -> I w'.

(** An invariant that only reads what belongs to the client and to the
    ghost state: the session, the salts drawn and the hash checks. *)
Definition reads_client (I : World -> Prop) : Prop :=
  forall w w',
    session w' = session w -> hash_checks w' = hash_checks w ->
    drawn w' = drawn w -> I w -> I w'.

(** ** Invariants of the database *)

(** The row of account [d] has a status of [BLOCKED_STATUSES]. *)
Definition blocked_account (d : string) (w : World) : Prop :=
  exists row,
    find (has_dni d) (users w) = Some row
    /\ str_in (row_status row) BLOCKED_STATUSES = true.

(** Saving [u] cannot take account [d] out of the blocked statuses. *)
Definition harmless (d : string) (u : User) : Prop :=
  dni u = d -> str_in (status u) BLOCKED_STATUSES = true.

(** Identifier [d] has a row in table [users]. *)
Definition registered (d : string) (w : World) : Prop :=
  find (has_dni d) (users w) <> None.

(** No rowid is 0, the row ['admin'] exists, and every audit row names
    a registered identifier. *)
Definition well_formed (w : World) : Prop :=
  (forall r, In r (users w) -> row_id r <> 0)
  /\ registered "admin" w
  /\ (forall a, In a (activities w) ->
        exists d, act_user_dni a = Some d /\ registered d w).

(** A well-formed database in which [d] is registered. *)
Definition well_formed_with (d : string) (w : World) : Prop :=
  well_formed w /\ registered d w.

(** ** Sequences of requests *)

(** The requests that write to the database, [change_user_status]
    excepted. *)
Inductive operation : Type :=
  | Authenticate (rq : Request)
  | Register (rq : Request)
  | Logout
  | AdminLogin (rq : Request)
  | ChangeUserPassword (rq : Request)
  | ChangeAdminPassword (rq : Request).

Section Requests.

Context {hasher : PasswordHasher}.

Definition perform (op : operation) : M Response :=
  match op with
  | Authenticate rq => login rq
  | Register rq => register rq
  | Logout => logout
  | AdminLogin rq => admin_login rq
  | ChangeUserPassword rq => change_user_password rq
  | ChangeAdminPassword rq => change_admin_password rq
  end.

(** One request of some client: it runs in that client's session,
    whatever it is. *)
Inductive step (w : World) : World -> Prop :=
  | step_intro (client : Session) (op : operation) :
      step w (snd (perform op (set_session (fun _ => client) w))).

(** Any number of such requests, one after the other. *)
Inductive steps (w : World) : World -> Prop :=
  | steps_done : steps w w
  | steps_more w1 w2 : steps w w1 -> step w1 w2 -> steps w w2.

(** The worlds that the service can be in: after start-up on an empty
    database, and after any request of any client. *)
Inductive reachable : World -> Prop :=
  | reachable_start w0 :
      users w0 = [] -> activities w0 = [] -> reachable (snd (init_db w0))
  | reachable_request w client op :
      reachable w ->
      reachable (snd (perform op (set_session (fun _ => client) w)))
  | reachable_change_status w client rq :
      reachable w ->
      reachable (snd (change_user_status rq (set_session (fun _ => client) w))).

End Requests.

(** ** models.py, the administrator's statistics *)

(** [AdminSystem.get_system_stats]: the two SELECT COUNT( * ). *)
Definition get_system_stats : M (Z * Z) :=
  total_users <- get (fun w => Z.of_nat (List.length (users w))) ;;
  total_activities <- get (fun w => Z.of_nat (List.length (activities w))) ;;
  ret (total_users, total_activities).

(** ** More concrete worlds and requests *)

(** An account that has registered and never logged in. *)
Definition fresh_account_world : World :=
  with_row (sample_row sample_dni "inmaculado" None 0 None) boot.

(** A login for an identifier that has no row. *)
Definition unknown_login : Request :=
  post [("dni", "87654321"); ("password", "Abc12345!")].

(** The administrator's reset of the password of [sample_dni]. *)
Definition password_reset : Request :=
  post [("dni", sample_dni); ("new_password", "Xyz98765!")].

(** The world after start-up, a registration and a failed login, each
    in a session of its own. *)
Definition registered_world : World :=
  snd (perform (Authenticate bad_login)
         (set_session (fun _ => empty_session)
            (snd (perform (Register registration)
                    (set_session (fun _ => empty_session) boot))))).

(** The account with failed logins on each of the last five days, on a
    server whose local time is UTC. *)
Definition utc_five_days_world : World := in_utc five_days_world.

(** The login of the administrator. *)
Definition administrator_login : Request := post [("password", ADMIN_PASSWORD)].

(** A user object without a password hash. *)
Definition hashless_user : User :=
  mkUser None "87654321" None "inmaculado" None None 0 None.

(** ** Relations between the world before and after requests *)

(** What never changes in a row of table [users]. *)
Definition identity (r : UserRow) : Z * string * timestamp_text :=
  (row_id r, row_dni r, row_created_at r).

(** The audit log of [w'] is the one of [w] with rows added at the end. *)
Definition audit_extends (w w' : World) : Prop :=
  exists added, activities w' = (activities w ++ added)%list.

(** Table [users] of [w'] has the rows of [w], each with its rowid,
    identifier and creation time, and possibly new rows after them. *)
Definition accounts_extend (w w' : World) : Prop :=
  exists added,
    map identity (users w') = (map identity (users w) ++ added)%list.

(** No two rows of table [users] share an identifier, or a rowid. *)
Definition unique_accounts (w : World) : Prop :=
  NoDup (map row_dni (users w)) /\ NoDup (map row_id (users w)).

(** What a login is checked against: the identifier of a row and its
    password hash. *)
Definition credentials (r : UserRow) : string * string :=
  (row_dni r, row_password_hash r).

(** Table [users] of [w'] has the rows of [w], each with its identifier
    and its password hash, and possibly new rows after them. *)
Definition credentials_extend (w w' : World) : Prop :=
  exists added,
    map credentials (users w') = (map credentials (users w) ++ added)%list.

(** Identifiers are unique and the credentials [C] are in place. *)
Definition credentials_kept (C : list (string * string)) (w : World) : Prop :=
  NoDup (map row_dni (users w))
  /\ exists added, map credentials (users w) = (C ++ added)%list.

(** Moreover, the row of identifier [d], if any, has the hash [oh]. *)
Definition credentials_kept_for (C : list (string * string)) (d : string)
    (oh : option string) (w : World) : Prop :=
  credentials_kept C w
  /\ forall r, In r (users w) -> row_dni r = d -> oh = Some (row_password_hash r).

(** Every audit row carries a timestamp that is a time. *)
Definition stamped (w : World) : Prop :=
  forall a, In a (activities w) -> exists t, act_timestamp a = IsoText t.

Section AllRequests.

Context {hasher : PasswordHasher}.

(** One request of some client, of any kind. *)
Inductive request_step (w : World) : World -> Prop :=
  | request_ordinary (client : Session) (op : operation) :
      request_step w (snd (perform op (set_session (fun _ => client) w)))
  | request_change_status (client : Session) (rq : Request) :
      request_step w (snd (change_user_status rq (set_session (fun _ => client) w))).

Inductive request_steps (w : World) : World -> Prop :=
  | request_steps_done : request_steps w w
  | request_steps_more w1 w2 :
      request_steps w w1 -> request_step w1 w2 -> request_steps w w2.

End AllRequests.

(* ================================================================= *)
(** * Properties *)

(** ** Running computations *)

#[local] Arguments next_rowid : simpl never.
#[local] Arguments CURRENT_TIMESTAMP : simpl never.
#[local] Arguments date_of : simpl never.
#[local] Arguments String.eqb : simpl never.

Lemma find_has_dni d l r : find (has_dni d) l = Some r -> row_dni r = d.
Proof.
  intros H. apply find_some in H. destruct H as [_ H].
  now apply String.eqb_eq in H.
Qed.

Lemma bind_returned {A B} (m : M A) (k : A -> M B) w a w' :
  m w = (Returned a, w') -> bind m k w = k a w'.
Proof. intros E. unfold bind. now rewrite E. Qed.

(** ** Password policy *)

Lemma validate_password_ok password :
  policy_compliant password ->
  validate_password password = (true, "Contraseña válida").
Proof.
  intros (Hlen & Hup & Hsp). unfold validate_password.
  replace (len password <? 8) with false by (symmetry; apply Z.ltb_ge; lia).
  replace (12 <? len password) with false by (symmetry; apply Z.ltb_ge; lia).
  now rewrite Hup, Hsp.
Qed.

Lemma validate_password_rejects password :
  ~ policy_compliant password -> fst (validate_password password) = false.
Proof.
  intros H. unfold validate_password.
  destruct (len password <? 8) eqn:E1; [reflexivity|].
  destruct (12 <? len password) eqn:E2; [reflexivity|]. cbn [orb].
  destruct (has_upper password) eqn:E3; [|reflexivity]. cbn [negb].
  destruct (has_special password) eqn:E4; [|reflexivity]. exfalso. apply H.
  apply Z.ltb_ge in E1, E2. repeat split; auto.
Qed.

(** ** The rules of the program logic *)

Lemma hoare_ret {A} (a : A) (Q : A -> World -> Prop) E : hoare (Q a) (ret a) Q E.
Proof. intros w H. exact H. Qed.

Lemma hoare_raise {A} e (Q : A -> World -> Prop) (E : World -> Prop) :
  hoare E (raise e) Q E.
Proof. intros w H. exact H. Qed.

Lemma hoare_bind {A B} P (m : M A) (k : A -> M B) Q R E :
  hoare P m Q E -> (forall a, hoare (Q a) (k a) R E) -> hoare P (bind m k) R E.
Proof.
  intros Hm Hk w HP. specialize (Hm w HP). unfold bind.
  destruct (m w) as [[a|e] w']; [exact (Hk a w' Hm) | exact Hm].
Qed.

Lemma hoare_pre {A} (P P' : World -> Prop) (m : M A) Q E :
  (forall w, P' w -> P w) -> hoare P m Q E -> hoare P' m Q E.
Proof. intros HPP Hm w HP. apply Hm, HPP, HP. Qed.

Lemma hoare_post {A} P (m : M A) (Q Q' : A -> World -> Prop) E :
  (forall a w, Q a w -> Q' a w) -> hoare P m Q E -> hoare P m Q' E.
Proof.
  intros HQ Hm w HP. specialize (Hm w HP).
  destruct (m w) as [[a|e] w']; auto.
Qed.

Lemma hoare_weaken {A} (P P' : World -> Prop) (m : M A)
    (Q Q' : A -> World -> Prop) (E E' : World -> Prop) :
  hoare P m Q E ->
  (forall w, P' w -> P w) -> (forall a w, Q a w -> Q' a w) -> (forall w, E w -> E' w) ->
  hoare P' m Q' E'.
Proof.
  intros Hm HP HQ HE w Hw. specialize (Hm w (HP w Hw)).
  destruct (m w) as [[a|e] w']; auto.
Qed.

Lemma hoare_try {A} P (body handler : M A) e Q E :
  hoare P body Q E -> hoare E handler Q E -> hoare P (try_except body e handler) Q E.
Proof.
  intros Hb Hh w HP. specialize (Hb w HP). unfold try_except.
  destruct (body w) as [[a|e'] w']; [exact Hb|].
  destruct (exn_eqb e e'); [exact (Hh w' Hb) | exact Hb].
Qed.

Lemma hoare_get {A} (f : World -> A) (P : World -> Prop) E :
  hoare P (get f) (fun a w => P w /\ a = f w) E.
Proof. intros w HP. cbn. auto. Qed.

Lemma hoare_modify (f : World -> World) (P Q : World -> Prop) E :
  (forall w, P w -> Q (f w)) -> hoare P (modify f) (fun _ => Q) E.
Proof. intros H w HP. cbn. auto. Qed.

Lemma hoare_lift {A} (o : outcome A) (P : World -> Prop) :
  hoare P (lift o) (fun a w => P w /\ o = Returned a) P.
Proof. intros w HP. destruct o; cbn; auto. Qed.

Lemma keeps_ret {A} I (a : A) : keeps I (ret a).
Proof. intros w H. exact H. Qed.

Lemma keeps_raise {A} I e : keeps I (@raise A e).
Proof. intros w H. exact H. Qed.

Lemma keeps_lift {A} I (o : outcome A) : keeps I (lift o).
Proof. intros w H. destruct o; exact H. Qed.

Lemma keeps_get {A} I (f : World -> A) : keeps I (get f).
Proof. intros w H. exact H. Qed.

Lemma keeps_bind {A B} I (m : M A) (k : A -> M B) :
  keeps I m -> (forall a, keeps I (k a)) -> keeps I (bind m k).
Proof. intros Hm Hk. eapply hoare_bind; [exact Hm | exact Hk]. Qed.

Lemma keeps_try {A} I (body handler : M A) e :
  keeps I body -> keeps I handler -> keeps I (try_except body e handler).
Proof. intros Hb Hh. apply hoare_try; assumption. Qed.

Lemma keeps_modify I (f : World -> World) :
  (forall w, I w -> I (f w)) -> keeps I (modify f).
Proof. intros H w HI. cbn. auto. Qed.

Lemma keeps_for_each {A} I (l : list A) (body : A -> M unit) :
  (forall x, keeps I (body x)) -> keeps I (for_each l body).
Proof.
  intros H. induction l as [|x l IH]; cbn [for_each].
  - apply keeps_ret.
  - apply keeps_bind; [apply H | intros _; exact IH].
Qed.

Lemma keeps_comprehension {A B} I (l : list A) (f : A -> M B) :
  (forall x, keeps I (f x)) -> keeps I (comprehension l f).
Proof.
  intros H. induction l as [|x l IH]; cbn [comprehension].
  - apply keeps_ret.
  - apply keeps_bind; [apply H | intros y].
    apply keeps_bind; [exact IH | intros ys; apply keeps_ret].
Qed.

Lemma keeps_fold_loop {A B} I (l : list A) (acc : B) (body : B -> A -> M B) :
  (forall b x, keeps I (body b x)) -> keeps I (fold_loop l acc body).
Proof.
  intros H. revert acc. induction l as [|x l IH]; intros acc; cbn [fold_loop].
  - apply keeps_ret.
  - apply keeps_bind; [apply H | intros acc'; apply IH].
Qed.

Lemma keeps_run {A} I (m : M A) w : keeps I m -> I w -> I (snd (m w)).
Proof. intros H HI. specialize (H w HI). destruct (m w) as [[a|e] w']; exact H. Qed.

Lemma keeps_datetime_now I : reads_database I -> keeps I datetime_now.
Proof. intros H w HI. cbn. now apply (H w). Qed.

Lemma keeps_sqlite_now I : reads_database I -> keeps I sqlite_now.
Proof. intros H w HI. cbn. now apply (H w). Qed.

Lemma keeps_flash I msg cat : reads_database I -> keeps I (flash msg cat).
Proof. intros H. apply keeps_modify. intros w HI. now apply (H w). Qed.

Lemma keeps_session_set_user_dni I d : reads_database I -> keeps I (session_set_user_dni d).
Proof. intros H. apply keeps_modify. intros w HI. now apply (H w). Qed.

Lemma keeps_session_set_is_admin I b : reads_database I -> keeps I (session_set_is_admin b).
Proof. intros H. apply keeps_modify. intros w HI. now apply (H w). Qed.

Lemma keeps_session_clear I : reads_database I -> keeps I session_clear.
Proof. intros H. apply keeps_modify. intros w HI. now apply (H w). Qed.

Lemma keeps_find_by_dni I d : keeps I (find_by_dni d).
Proof. apply keeps_get. Qed.

Ltac keeps_step :=
  lazymatch goal with
  | |- keeps _ (ret _) => apply keeps_ret
  | |- keeps _ (raise _) => apply keeps_raise
  | |- keeps _ (lift _) => apply keeps_lift
  | |- keeps _ (get _) => apply keeps_get
  | |- keeps _ (find_by_dni _) => apply keeps_get
  | |- keeps _ (try_except _ _ _) => apply keeps_try
  | |- keeps _ (bind _ _) => apply keeps_bind; [|intro]
  | |- keeps _ (for_each _ _) => apply keeps_for_each; intro
  | |- keeps _ (comprehension _ _) => apply keeps_comprehension; intro
  | |- keeps _ (fold_loop _ _ _) => apply keeps_fold_loop; intros
  | |- keeps _ (if ?b then _ else _) => destruct b
  | |- keeps _ (match ?x with _ => _ end) => destruct x
  end.

Lemma client_keeps_clock I : reads_client I -> keeps I datetime_now /\ keeps I sqlite_now.
Proof. intros H. split; intros w HI; cbn; now apply (H w). Qed.

Lemma client_keeps_sql_insert_user I d h s :
  reads_client I -> keeps I (sql_insert_user d h s).
Proof.
  intros H. unfold sql_insert_user.
  apply keeps_bind; [apply (client_keeps_clock I H)|intro].
  repeat keeps_step. apply keeps_modify. intros w HI. now apply (H w).
Qed.

Lemma client_keeps_save I self : reads_client I -> keeps I (save self).
Proof.
  intros H. unfold save. repeat keeps_step.
  - apply keeps_modify. intros w HI. now apply (H w).
  - now apply client_keeps_sql_insert_user.
Qed.

Lemma client_keeps_check_consecutive I d days :
  reads_client I -> keeps I (check_consecutive_failed_logins d days).
Proof.
  intros H. unfold check_consecutive_failed_logins, select_recent_attempts.
  apply keeps_bind.
  { apply keeps_bind; [apply (client_keeps_clock I H)|intro]. repeat keeps_step. }
  intro. keeps_step; [|keeps_step].
  apply keeps_bind.
  { apply keeps_comprehension. intro.
    apply keeps_bind; [apply (client_keeps_clock I H)|intro; keeps_step]. }
  intro. repeat keeps_step.
Qed.

Lemma client_keeps_rules I user :
  reads_client I -> keeps I (update_user_status_based_on_rules user).
Proof.
  intros H. unfold update_user_status_based_on_rules.
  apply keeps_bind; [apply (client_keeps_clock I H)|intro].
  apply keeps_bind; [|intro; now apply client_keeps_save].
  keeps_step.
  - repeat keeps_step.
  - apply keeps_bind; [now apply client_keeps_check_consecutive|intro].
    repeat keeps_step.
Qed.

(** ** Table [users] *)

Lemma has_dni_update d self h r :
  has_dni d (sql_update_user self h r) = has_dni d r.
Proof. unfold sql_update_user. now destruct (has_dni (dni self) r). Qed.

Lemma find_update d self h l :
  find (has_dni d) (map (sql_update_user self h) l)
  = option_map (sql_update_user self h) (find (has_dni d) l).
Proof.
  induction l as [|r l IH]; [reflexivity|]. cbn [map find].
  rewrite has_dni_update. now destruct (has_dni d r).
Qed.

Lemma update_hit self h r :
  has_dni (dni self) r = true ->
  sql_update_user self h r
  = mkUserRow (row_id r) (row_dni r) h (status self) (row_created_at r)
              (last_login self) (login_attempts self) (last_attempt self).
Proof. intros H. unfold sql_update_user. now rewrite H. Qed.

Lemma find_none_existsb d l :
  find (has_dni d) l = None -> existsb (has_dni d) l = false.
Proof.
  induction l as [|r l IH]; [reflexivity|]. cbn [find existsb].
  destruct (has_dni d r); [discriminate|exact IH].
Qed.

Lemma find_app_old d l l' r :
  find (has_dni d) l = Some r -> find (has_dni d) (l ++ l') = Some r.
Proof.
  induction l as [|x l IH]; [discriminate|]. cbn [find app].
  destruct (has_dni d x); auto.
Qed.

Lemma find_app_new d l l' :
  find (has_dni d) l = None -> find (has_dni d) (l ++ l') = find (has_dni d) l'.
Proof.
  induction l as [|x l IH]; [reflexivity|]. cbn [find app].
  destruct (has_dni d x); [discriminate|auto].
Qed.

Lemma save_existing self w row h :
  find (has_dni (dni self)) (users w) = Some row ->
  row_id row <> 0 ->
  password_hash self = Some h ->
  save self w = (Returned self, set_users (map (sql_update_user self h)) w).
Proof.
  intros Hf Hid Hh. unfold save, bind, find_by_dni, get. rewrite Hf, Hh. cbn.
  apply Z.eqb_neq in Hid. now rewrite Hid.
Qed.

Lemma save_fresh self w h :
  find (has_dni (dni self)) (users w) = None ->
  password_hash self = Some h ->
  save self w
  = (Returned (set_id self (next_rowid (map row_id (users w)))),
     set_users (fun l => l ++ [inserted_row (dni self) h (status self) w])%list (tick w)).
Proof.
  intros Hf Hh. unfold save, bind, find_by_dni, get. rewrite Hf, Hh. cbn.
  unfold sql_insert_user, bind, sqlite_now, get. cbn.
  now rewrite (find_none_existsb _ _ Hf).
Qed.

Lemma next_rowid_positive ids : 0 < next_rowid ids.
Proof.
  unfold next_rowid.
  assert (0 <= fold_right Z.max 0 ids) by (induction ids; cbn; lia). lia.
Qed.

(** ** The staleness rule *)

(** With a [last_login] that parses, the evaluation is the staleness
    test followed by the save. *)
Lemma rules_with_last_login user w t :
  last_login user = Some (IsoText t) ->
  update_user_status_based_on_rules user w
  = save (if timedelta_days 180 <? clock w (ticks w) + tz w - t
          then set_status user "pausado" else user) (tick w).
Proof.
  intros Hl. unfold update_user_status_based_on_rules.
  unfold bind at 1. unfold datetime_now. unfold bind at 1.
  rewrite Hl. cbn [ts_truthy]. unfold try_except, bind, lift. cbn [fromisoformat_opt fromisoformat].
  now destruct (timedelta_days 180 <? clock w (ticks w) + tz w - t).
Qed.

(** A [last_login] that does not parse is not an error: the status is
    left as it is and the evaluation goes on to save the user. *)
Lemma rules_with_bad_last_login user w s :
  last_login user = Some (BadText s) ->
  truthy s = true ->
  update_user_status_based_on_rules user w = save user (tick w).
Proof.
  intros Hl Hs. unfold update_user_status_based_on_rules.
  unfold bind at 1. unfold datetime_now. unfold bind at 1.
  rewrite Hl. cbn [ts_truthy]. rewrite Hs.
  unfold try_except, bind, lift. cbn [fromisoformat_opt fromisoformat exn_eqb].
  reflexivity.
Qed.

(** ** Blank fields *)

Lemma rstrip_nonspace s :
  existsb nonspace (chars s) = true -> truthy (rstrip s) = true.
Proof.
  induction s as [|c r IH]; cbn [chars list_ascii_of_string existsb rstrip]; [discriminate|].
  intros H. apply orb_true_iff in H.
  destruct (String.eqb (rstrip r) "") eqn:Er.
  - destruct H as [H|H].
    + unfold nonspace in H. apply negb_true_iff in H. now rewrite H.
    + apply IH in H. unfold truthy in H. now rewrite Er in H.
  - reflexivity.
Qed.

Lemma lstrip_nonspace s :
  existsb nonspace (chars s) = true -> existsb nonspace (chars (lstrip s)) = true.
Proof.
  induction s as [|c r IH]; cbn [chars list_ascii_of_string existsb lstrip]; [discriminate|].
  intros H. destruct (isspace c) eqn:Ec.
  - unfold nonspace at 1 in H. rewrite Ec in H. now apply IH.
  - exact H.
Qed.

Lemma strip_nonspace s : existsb nonspace (chars s) = true -> truthy (strip s) = true.
Proof. intros H. now apply rstrip_nonspace, lstrip_nonspace. Qed.

Lemma existsb_weaken {A} (f g : A -> bool) l :
  (forall x, f x = true -> g x = true) -> existsb f l = true -> existsb g l = true.
Proof.
  intros Hfg H. apply existsb_exists in H. destruct H as (x & Hin & Hx).
  apply existsb_exists. eauto.
Qed.

Lemma upper_is_nonspace c : is_upper c = true -> nonspace c = true.
Proof.
  unfold is_upper, nonspace, isspace. intros H.
  apply andb_true_iff in H. destruct H as [H1 H2]. apply Z.leb_le in H1, H2.
  apply negb_true_iff. repeat (apply orb_false_iff; split);
    try (apply andb_false_iff; rewrite !Z.leb_gt; lia); apply Z.eqb_neq; lia.
Qed.

Lemma digit_is_nonspace c : isdigit_char c = true -> nonspace c = true.
Proof.
  unfold isdigit_char, nonspace, isspace. intros H.
  rewrite !orb_true_iff, andb_true_iff, !Z.leb_le, !Z.eqb_eq in H.
  apply negb_true_iff. repeat (apply orb_false_iff; split);
    try (apply andb_false_iff; rewrite !Z.leb_gt; lia); apply Z.eqb_neq; lia.
Qed.

Lemma isdigit_not_blank d : isdigit d = true -> truthy d = true /\ truthy (strip d) = true.
Proof.
  unfold isdigit. intros H. apply andb_true_iff in H. destruct H as [Ht Hall].
  split; [exact Ht|]. apply strip_nonspace.
  destruct d as [|c r]; [discriminate|].
  cbn [chars list_ascii_of_string forallb existsb] in *.
  apply andb_true_iff in Hall. destruct Hall as [Hc _].
  now rewrite (digit_is_nonspace _ Hc).
Qed.

Lemma policy_not_blank p : policy_compliant p -> truthy p = true /\ truthy (strip p) = true.
Proof.
  intros (Hlen & Hup & _). split.
  - destruct p; [cbv in Hlen; now destruct Hlen | reflexivity].
  - apply strip_nonspace. exact (existsb_weaken _ _ _ upper_is_nonspace Hup).
Qed.

Lemma validate_dni_ok d :
  isdigit d = true -> 6 <= len d <= 8 -> validate_dni d = (true, "DNI válido").
Proof.
  intros Hd Hlen. unfold validate_dni.
  rewrite (proj1 (isdigit_not_blank d Hd)), Hd. cbn [negb].
  replace (len d <? 6) with false by (symmetry; apply Z.ltb_ge; lia).
  replace (8 <? len d) with false by (symmetry; apply Z.ltb_ge; lia).
  reflexivity.
Qed.

(** ** The rule of consecutive days, when nothing qualifies *)

Lemma check_consecutive_without_rows d w :
  (forall a, In a (activities w) ->
     failed_login_since d (date_of (clock w (ticks w)) - 5) a = false) ->
  check_consecutive_failed_logins d 5 w = (Returned false, tick w).
Proof.
  intros H. unfold check_consecutive_failed_logins.
  assert (Hsel : select_recent_attempts d 5 w = (Returned [], tick w)).
  { unfold select_recent_attempts, bind, sqlite_now, get, ret.
    cbn [activities tick].
    replace (filter _ (activities w)) with (@nil Activity); [reflexivity|].
    symmetry. induction (activities w) as [|a l IH]; [reflexivity|].
    cbn [filter]. rewrite (H a (or_introl eq_refl)). apply IH.
    intros b Hb. apply H. now right. }
  rewrite (bind_returned _ _ _ _ _ Hsel). reflexivity.
Qed.

Lemma rules_without_history user w :
  ts_truthy (last_login user) = false ->
  (forall a, In a (activities w) ->
     failed_login_since (dni user) (date_of (clock w (S (ticks w))) - 5) a = false) ->
  update_user_status_based_on_rules user w = save user (tick (tick w)).
Proof.
  intros Hl H. unfold update_user_status_based_on_rules.
  unfold bind at 1. unfold datetime_now. unfold bind at 1. rewrite Hl.
  unfold bind at 1.
  rewrite (check_consecutive_without_rows (dni user) (tick w)) by exact H.
  reflexivity.
Qed.

(** ** Grouping by date *)

Lemma date_eqb_eq a b : date_eqb a b = true <-> a = b.
Proof.
  destruct a as [x|], b as [y|]; cbn; try (split; congruence).
  rewrite Z.eqb_eq. split; congruence.
Qed.

Lemma date_ltb_trans a b c :
  date_ltb a b = true -> date_ltb b c = true -> date_ltb a c = true.
Proof.
  destruct a as [x|], b as [y|], c as [z|]; cbn; try congruence.
  rewrite !Z.ltb_lt. lia.
Qed.

Lemma date_total a b :
  date_eqb a b = false -> date_ltb b a = false -> date_ltb a b = true.
Proof.
  destruct a as [x|], b as [y|]; cbn; try congruence.
  rewrite Z.eqb_neq, Z.ltb_ge, Z.ltb_lt. lia.
Qed.

Lemma count_into_keys d groups k :
  In k (keys (count_into d groups)) <-> k = d \/ In k (keys groups).
Proof.
  induction groups as [|[d' n] r IH]; cbn [count_into keys map fst In].
  - intuition.
  - destruct (date_eqb d d') eqn:E.
    + apply date_eqb_eq in E. subst d'. cbn [keys map fst In]. intuition.
    + destruct (date_ltb d' d); cbn [keys map fst In].
      * intuition.
      * unfold keys in IH. rewrite IH. intuition.
Qed.

Lemma group_keys dates k : In k (keys (group_by_date_desc dates)) <-> In k dates.
Proof.
  induction dates as [|d l IH]; cbn [group_by_date_desc fold_right In].
  - intuition.
  - rewrite count_into_keys. unfold group_by_date_desc in IH. rewrite IH.
    intuition.
Qed.

Lemma count_into_descending d groups :
  descending (keys groups) -> descending (keys (count_into d groups)).
Proof.
  unfold descending.
  induction groups as [|[d' n] r IH]; cbn [count_into keys map fst]; intros H.
  - repeat constructor.
  - apply StronglySorted_inv in H. destruct H as [Hr Hd'].
    destruct (date_eqb d d') eqn:E.
    + cbn [map fst]. now constructor.
    + destruct (date_ltb d' d) eqn:L.
      * cbn [map fst]. constructor; [now constructor|].
        constructor; [exact L|].
        rewrite Forall_forall in *. intros x Hx.
        exact (date_ltb_trans _ _ _ (Hd' x Hx) L).
      * cbn [map fst]. constructor; [now apply IH|].
        rewrite Forall_forall in *. intros x Hx.
        apply (count_into_keys d r x) in Hx. destruct Hx as [->|Hx].
        -- now apply date_total.
        -- now apply Hd'.
Qed.

Lemma group_descending dates : descending (keys (group_by_date_desc dates)).
Proof.
  induction dates as [|d l IH]; cbn [group_by_date_desc fold_right].
  - constructor.
  - now apply count_into_descending.
Qed.

(** In a descending list, what LIMIT cuts off sorts below everything
    that is kept. *)
Lemma descending_firstn n l x :
  descending l -> In x l ->
  In x (firstn n l) \/ (forall y, In y (firstn n l) -> date_ltb x y = true).
Proof.
  unfold descending. revert l. induction n as [|n IH]; intros l Hs Hx.
  - right. intros y [].
  - destruct l as [|a l]; [destruct Hx|]. cbn [firstn].
    apply StronglySorted_inv in Hs. destruct Hs as [Hl Ha].
    destruct Hx as [->|Hx]; [left; now left|].
    destruct (IH l Hl Hx) as [Hin|Hlow]; [left; now right|].
    right. intros y [<-|Hy]; [|now apply Hlow].
    rewrite Forall_forall in Ha. now apply Ha.
Qed.

Lemma keys_firstn n groups : keys (firstn n groups) = firstn n (keys groups).
Proof. unfold keys. now rewrite firstn_map. Qed.

(** ** The loop over the grouped rows *)

Lemma parse_loop rows acc w :
  fold_loop rows acc
    (fun actual_dates row =>
       try_except
         (date_obj <- lift (date_fromisoformat (fst row)) ;;
          ret (actual_dates ++ [date_obj])%list)
         ValueError
         (ret actual_dates)) w
  = (parse_dates rows acc, w).
Proof.
  revert acc. induction rows as [|row r IH]; intros acc; [reflexivity|].
  cbn [fold_loop parse_dates]. unfold bind at 1, try_except, bind, lift.
  destruct (date_fromisoformat (fst row)) as [d|e]; cbn.
  - apply IH.
  - destruct e; cbn; [apply IH | reflexivity | reflexivity].
Qed.

Lemma parse_dates_length rows acc r :
  parse_dates rows acc = Returned r ->
  exists ds,
    r = (acc ++ ds)%list
    /\ (List.length ds <= List.length rows)%nat
    /\ (List.length ds = List.length rows -> keys rows = map Some ds).
Proof.
  revert acc. induction rows as [|[k n] rows IH]; intros acc H; cbn [parse_dates] in H.
  - exists []. injection H as <-. rewrite app_nil_r. repeat split; auto.
  - cbn [fst] in H. destruct (date_fromisoformat k) as [d|e] eqn:E.
    + destruct (IH _ H) as (ds & -> & Hlen & Hall).
      exists (d :: ds). rewrite <- app_assoc. cbn [app List.length keys map fst].
      repeat split; [lia|]. intros Heq. unfold keys in Hall. rewrite Hall by lia.
      destruct k as [x|]; cbn in E; [|discriminate].
      destruct ((-719162 <=? x) && (x <=? 2932896)); [|discriminate].
      now injection E as ->.
    + destruct e; try discriminate.
      destruct (IH _ H) as (ds & -> & Hlen & _).
      exists ds. cbn [List.length]. repeat split; [lia|]. intros Heq. lia.
Qed.

Lemma in_firstn {A} n (l : list A) x : In x (firstn n l) -> In x l.
Proof. intros H. rewrite <- (firstn_skipn n l). apply in_or_app. now left. Qed.

Lemma dates_eqb_eq a b : dates_eqb a b = true <-> a = b.
Proof.
  revert b. induction a as [|x a IH]; intros [|y b]; cbn; try (split; congruence).
  rewrite andb_true_iff, Z.eqb_eq, IH. split; [intros [-> ->]; reflexivity|].
  intros H. injection H as -> ->. auto.
Qed.

Lemma date_of_days_before t i : date_of (t - timedelta_days i) = date_of t - i.
Proof.
  unfold date_of, timedelta_days.
  replace (t - i * usec_per_day) with (t + (- i) * usec_per_day) by ring.
  rewrite Z.div_add by (cbv; discriminate). ring.
Qed.

(** ** The rule of consecutive days *)

Lemma failed_login_since_true d cutoff a :
  failed_login_since d cutoff a = true <->
  act_user_dni a = Some d /\ act_action_type a = "acceso"
  /\ act_result a = "fallido" /\ text_ge_date (act_timestamp a) cutoff = true.
Proof.
  unfold failed_login_since. rewrite !andb_true_iff, !String.eqb_eq.
  destruct (act_user_dni a) as [x|]; cbn [opt_str_eqb].
  - rewrite String.eqb_eq. intuition congruence.
  - intuition congruence.
Qed.

Lemma expected_dates_run w :
  comprehension (range 5)
    (fun i => now <- datetime_now ;; ret (date_of (now - timedelta_days i))) w
  = (Returned [date_of (local_time w 0); date_of (local_time w 1) - 1;
               date_of (local_time w 2) - 2; date_of (local_time w 3) - 3;
               date_of (local_time w 4) - 4],
     tick (tick (tick (tick (tick w))))).
Proof.
  change (range 5) with [0; 1; 2; 3; 4].
  rewrite <- (Z.sub_0_r (date_of (local_time w 0))), <- !date_of_days_before.
  cbn [comprehension]. unfold bind, datetime_now, ret, local_time.
  cbn [tick ticks clock tz].
  replace (ticks w + 0)%nat with (ticks w) by lia.
  replace (ticks w + 1)%nat with (S (ticks w)) by lia.
  replace (ticks w + 2)%nat with (S (S (ticks w))) by lia.
  replace (ticks w + 3)%nat with (S (S (S (ticks w)))) by lia.
  replace (ticks w + 4)%nat with (S (S (S (S (ticks w))))) by lia.
  reflexivity.
Qed.

Lemma local_time_tick w i : local_time (tick w) i = local_time w (S i).
Proof.
  unfold local_time. cbn [clock ticks tz tick].
  now replace (S (ticks w) + i)%nat with (ticks w + S i)%nat by lia.
Qed.

Lemma local_time_monotone w i :
  monotone_clock w -> date_of (local_time w i) <= date_of (local_time w (S i)).
Proof.
  intros H. unfold date_of, local_time. apply Z.div_le_mono; [reflexivity|].
  replace (ticks w + S i)%nat with (S (ticks w + i)) by lia.
  specialize (H (ticks w + i)%nat). lia.
Qed.

Lemma descending_firstn_sorted n l : descending l -> descending (firstn n l).
Proof.
  unfold descending. revert l. induction n as [|n IH]; intros l H; [constructor|].
  destruct l as [|a l]; [constructor|]. cbn [firstn].
  apply StronglySorted_inv in H. destruct H as [Hl Ha].
  constructor; [now apply IH|].
  rewrite Forall_forall in *. intros x Hx. apply Ha. exact (in_firstn _ _ _ Hx).
Qed.

(** Five strictly descending dates of the form "date of the i-th reading,
    minus i" come from readings that all fall on one date. *)
Lemma readings_on_one_date a0 a1 a2 a3 a4 :
  descending (map Some [a0; a1 - 1; a2 - 2; a3 - 3; a4 - 4]) ->
  a0 <= a1 -> a1 <= a2 -> a2 <= a3 -> a3 <= a4 ->
  a1 = a0 /\ a2 = a0 /\ a3 = a0 /\ a4 = a0.
Proof.
  unfold descending. cbn [map]. intros H H01 H12 H23 H34.
  repeat match goal with
         | H : StronglySorted _ (_ :: _) |- _ =>
             apply StronglySorted_inv in H; destruct H
         | H : Forall _ (_ :: _) |- _ => apply Forall_inv in H; cbn in H;
                                         apply Z.ltb_lt in H
         end.
  lia.
Qed.

Lemma check_consecutive_sound d w w' :
  check_consecutive_failed_logins d 5 w = (Returned true, w') ->
  monotone_clock w ->
  let today := date_of (local_time w 1) in
  (forall i : nat, (i < 5)%nat -> date_of (local_time w (S i)) = today)
  /\ (forall i, 0 <= i < 5 -> failed_on w d (today - i))
  /\ (forall day, failed_on w d day -> day <= today).
Proof.
  intros Hrun Hmono today.
  unfold check_consecutive_failed_logins in Hrun.
  set (cutoff := date_of (clock w (ticks w)) - 5).
  set (dates := map (fun a => sql_DATE (act_timestamp a))
                  (filter (failed_login_since d cutoff) (activities w))).
  set (groups := group_by_date_desc dates).
  assert (Hsel : select_recent_attempts d 5 w = (Returned (firstn 5 groups), tick w))
    by reflexivity.
  rewrite (bind_returned _ _ _ _ _ Hsel) in Hrun.
  destruct (5 <=? Z.of_nat (List.length (firstn 5 groups))) eqn:Hlen;
    [|discriminate].
  apply Z.leb_le in Hlen.
  assert (Hfive : List.length (firstn 5 groups) = 5%nat).
  { pose proof (firstn_le_length 5 groups). lia. }
  rewrite (bind_returned _ _ _ _ _ (expected_dates_run (tick w))) in Hrun.
  change (Z.to_nat 5) with 5%nat in Hrun.
  rewrite firstn_firstn in Hrun. cbn [Nat.min] in Hrun.
  unfold bind in Hrun. rewrite parse_loop in Hrun.
  destruct (parse_dates (firstn 5 groups) []) as [actual|e] eqn:Hparse; [|discriminate].
  injection Hrun as Heq _. apply dates_eqb_eq in Heq. subst actual.
  destruct (parse_dates_length _ _ _ Hparse) as (ds & Hds & _ & Hall).
  cbn [app] in Hds. subst ds. specialize (Hall (eq_sym Hfive)).
  rewrite keys_firstn in Hall.
  (* the five readings fall on one date *)
  rewrite !local_time_tick in Hall.
  fold today in Hall.
  pose proof (descending_firstn_sorted 5 _ (group_descending dates)) as Hdesc.
  fold groups in Hdesc. rewrite Hall in Hdesc.
  destruct (readings_on_one_date _ _ _ _ _ Hdesc
              (local_time_monotone w 1 Hmono) (local_time_monotone w 2 Hmono)
              (local_time_monotone w 3 Hmono) (local_time_monotone w 4 Hmono))
    as (E2 & E3 & E4 & E5).
  fold today in E2, E3, E4, E5. rewrite E2, E3, E4, E5 in Hall.
  split.
  { intros i Hi.
    assert (Hcases : (i = 0 \/ i = 1 \/ i = 2 \/ i = 3 \/ i = 4)%nat) by lia.
    destruct Hcases as [->|[->|[->|[->| ->]]]]; auto. }
  (* every expected date is a group, hence the date of a failed login *)
  assert (Hgroup : forall k, In k (keys groups) ->
            exists a, In a (activities w) /\ failed_login_since d cutoff a = true
                      /\ sql_DATE (act_timestamp a) = k).
  { intros k Hk. apply (proj1 (group_keys dates k)) in Hk. unfold dates in Hk.
    apply in_map_iff in Hk. destruct Hk as (a & Ha & Hin).
    apply filter_In in Hin. exists a. tauto. }
  assert (Hkept : forall i, 0 <= i < 5 -> In (Some (today - i)) (firstn 5 (keys groups))).
  { intros i Hi. rewrite Hall.
    assert (Hcases : i = 0 \/ i = 1 \/ i = 2 \/ i = 3 \/ i = 4) by lia.
    cbn [map In]. destruct Hcases as [->|[->|[->|[->| ->]]]]; rewrite ?Z.sub_0_r; tauto. }
  assert (Hfail : forall i, 0 <= i < 5 ->
            exists a, In a (activities w) /\ failed_login_since d cutoff a = true
                      /\ sql_DATE (act_timestamp a) = Some (today - i)).
  { intros i Hi. apply Hgroup. exact (in_firstn _ _ _ (Hkept i Hi)). }
  split.
  - intros i Hi. destruct (Hfail i Hi) as (a & Hin & Hf & Hdate).
    apply failed_login_since_true in Hf. exists a. tauto.
  - intros day (a & Hin & Hu & Hact & Hres & Hdate).
    (* the window reaches back at least to the oldest expected date *)
    assert (Hcut : cutoff <= today - 4).
    { destruct (Hfail 4 ltac:(lia)) as (b & _ & Hf & Hb).
      apply failed_login_since_true in Hf. destruct Hf as (_ & _ & _ & Hge).
      destruct (act_timestamp b) as [t|s]; [|discriminate].
      cbn in Hb, Hge. injection Hb as Hb. apply Z.leb_le in Hge. lia. }
    destruct (Z.le_gt_cases day today) as [|Hlate]; [assumption|].
    assert (Hk : In (Some day) (keys groups)).
    { apply (proj2 (group_keys dates (Some day))). unfold dates. apply in_map_iff. exists a. split; [exact Hdate|].
      apply filter_In. split; [exact Hin|]. apply failed_login_since_true.
      repeat split; try assumption.
      destruct (act_timestamp a) as [t|s]; [|discriminate].
      cbn in Hdate |- *. injection Hdate as Hdate. apply Z.leb_le. lia. }
    destruct (descending_firstn 5 _ _ (group_descending dates) Hk) as [Hin5|Hlow].
    + fold groups in Hin5. rewrite Hall in Hin5. cbn [map In] in Hin5.
      intuition (try congruence); match goal with H : Some _ = Some _ |- _ =>
        injection H; lia end.
    + fold groups in Hlow. specialize (Hlow _ (Hkept 0 ltac:(lia))).
      cbn in Hlow. apply Z.ltb_lt in Hlow. lia.
Qed.

Lemma save_returns self w u w' :
  save self w = (Returned u, w') -> status u = status self /\ dni u = dni self.
Proof.
  unfold save. unfold bind at 1. unfold find_by_dni, get.
  destruct (password_hash self) as [h|]; [|discriminate].
  destruct (has_row _).
  - unfold bind, modify, ret. intros H. injection H as <- _. auto.
  - unfold bind.
    destruct (sql_insert_user (dni self) h (status self) w) as [[i|e] w1]; [|discriminate].
    unfold ret. intros H. injection H as <- _. auto.
Qed.

(** What the rule evaluation has compared when it moves an account to
    ['alertado']: the [last_login] of the account is absent (NULL, or
    empty), and, the clock not running backwards, the five readings taken
    for the expected dates fall on one date [today] of the local
    calendar, while the dates that SQLite gives the failed logins of the
    account ([failed_on]: dates in UTC) include each of [today],
    [today - 1], ..., [today - 4] and none after [today]. The two
    calendars are the same only where local time is UTC. *)
Lemma alertado_compares_two_calendars
    (w w' : World) (user user' : User) :
  update_user_status_based_on_rules user w = (Returned user', w') ->
  status user' = "alertado" ->
  status user <> "alertado" ->
  monotone_clock w ->
  let today := date_of (local_time w 2) in
  ts_truthy (last_login user) = false
  /\ (forall i : nat, (i < 5)%nat -> date_of (local_time w (2 + i)) = today)
  /\ (forall i, 0 <= i < 5 -> failed_on w (dni user) (today - i))
  /\ (forall day, failed_on w (dni user) day -> day <= today).
Proof.
  intros Hrun Hnew Hold Hmono today.
  unfold update_user_status_based_on_rules in Hrun.
  unfold bind at 1 in Hrun. unfold datetime_now in Hrun.
  unfold bind at 1 in Hrun.
  destruct (ts_truthy (last_login user)) eqn:Hlast.
  - exfalso.
    unfold try_except, bind, lift in Hrun.
    destruct (fromisoformat_opt (last_login user)) as [t|e].
    + destruct (timedelta_days 180 <? _).
      * apply save_returns in Hrun. cbn in Hrun. destruct Hrun as [Hs _].
        rewrite Hnew in Hs. discriminate.
      * apply save_returns in Hrun. destruct Hrun as [Hs _]. congruence.
    + destruct (exn_eqb ValueError e); [|discriminate].
      apply save_returns in Hrun. destruct Hrun as [Hs _]. congruence.
  - split; [reflexivity|].
    unfold bind at 1 in Hrun.
    destruct (check_consecutive_failed_logins (dni user) 5 (tick w))
      as [[flagged|e] w1] eqn:Hcheck; [|discriminate].
    destruct flagged.
    + assert (Hm : monotone_clock (tick w)) by exact Hmono.
      destruct (check_consecutive_sound _ _ _ Hcheck Hm) as (Hsame & Hdays & Hlast_day).
      rewrite !local_time_tick in Hdays, Hlast_day.
      split; [|split].
      * intros i Hi. specialize (Hsame i Hi). rewrite !local_time_tick in Hsame.
        exact Hsame.
      * exact Hdays.
      * exact Hlast_day.
    + apply save_returns in Hrun. destruct Hrun as [Hs _]. congruence.
Qed.

(** ** The blocking rule *)

(** A failed attempt blocks the account exactly when the counter reaches
    5, whatever [last_attempt] held before: the value that the check
    parses is the one that the call has just written, and two readings
    of the clock within the call are less than a minute apart. In
    particular no stored timestamp makes this check raise. *)
Lemma failed_attempt_outcome user w row h :
  find (has_dni (dni user)) (users w) = Some row ->
  row_id row <> 0 ->
  password_hash user = Some h ->
  clock w (S (ticks w)) - clock w (ticks w) < timedelta_minutes 1 ->
  let counted := on_failure user (isoformat (clock w (ticks w) + tz w)) in
  exists w',
    update_login_attempt user false w
    = (Returned (if 5 <=? login_attempts user + 1
                 then set_status counted "bloqueado" else counted), w').
Proof.
  intros Hf Hid Hh Hgap counted. unfold update_login_attempt.
  unfold bind at 1. unfold datetime_now at 1. unfold bind at 1.
  fold counted. cbn [login_attempts last_attempt counted on_failure ts_truthy isoformat].
  destruct (5 <=? login_attempts user + 1); cbn [andb].
  - unfold try_except, bind at 1, lift, fromisoformat_opt, fromisoformat.
    unfold bind at 1. unfold datetime_now. cbn [clock ticks tz tick].
    unfold isoformat. cbv iota beta.
    replace (_ <? timedelta_minutes 1) with true
      by (symmetry; apply Z.ltb_lt; lia).
    unfold ret at 1. unfold bind at 1.
    erewrite save_existing; [| exact Hf | exact Hid | exact Hh].
    eexists. reflexivity.
  - unfold ret at 1. unfold bind at 1.
    erewrite save_existing; [| exact Hf | exact Hid | exact Hh].
    eexists. reflexivity.
Qed.

(** ** Accounts that the gate keeps out *)

Lemma blocked_reads_users d : reads_users (blocked_account d).
Proof. intros w w' Hu (row & Hf & Hb). exists row. now rewrite Hu. Qed.

Lemma users_only I : reads_users I -> reads_database I.
Proof. intros H w w' Hu _. now apply H. Qed.

Lemma hoare_pure {A} (I : World -> Prop) (fact : Prop) (m : M A) Q E :
  (fact -> hoare I m Q E) -> hoare (fun w => I w /\ fact) m Q E.
Proof. intros H w [HI Hf]. exact (H Hf w HI). Qed.

Lemma keeps_log_activity I self a r d :
  reads_users I -> keeps I (log_activity self a r d).
Proof.
  intros H. unfold log_activity.
  apply keeps_bind; [apply keeps_sqlite_now, users_only, H|intro].
  apply keeps_modify. intros w HI. now apply (H w).
Qed.

Lemma keeps_check_consecutive I d days :
  reads_database I -> keeps I (check_consecutive_failed_logins d days).
Proof.
  intros Hdb.
  unfold check_consecutive_failed_logins, select_recent_attempts.
  apply keeps_bind.
  { apply keeps_bind; [now apply keeps_sqlite_now|intro]. repeat keeps_step. }
  intro. keeps_step; [|keeps_step].
  apply keeps_bind.
  { apply keeps_comprehension. intro.
    apply keeps_bind; [now apply keeps_datetime_now|intro; keeps_step]. }
  intro. repeat keeps_step.
Qed.

Lemma keeps_sql_insert_user d d' h s :
  keeps (blocked_account d) (sql_insert_user d' h s).
Proof.
  pose proof (blocked_reads_users d) as H.
  unfold sql_insert_user.
  apply keeps_bind; [apply keeps_sqlite_now, users_only, H|intro].
  repeat keeps_step. apply keeps_modify.
  intros w (row & Hf & Hb). exists row. split; [|exact Hb].
  cbn [users set_users]. now apply find_app_old.
Qed.

Lemma update_keeps_blocked d self h l :
  harmless d self ->
  (exists row, find (has_dni d) l = Some row
               /\ str_in (row_status row) BLOCKED_STATUSES = true) ->
  exists row, find (has_dni d) (map (sql_update_user self h) l) = Some row
              /\ str_in (row_status row) BLOCKED_STATUSES = true.
Proof.
  intros Hsafe (row & Hf & Hb). exists (sql_update_user self h row).
  rewrite find_update, Hf. split; [reflexivity|].
  unfold sql_update_user. destruct (has_dni (dni self) row) eqn:E; [|exact Hb].
  cbn [row_status]. apply Hsafe.
  apply String.eqb_eq in E. rewrite <- E. exact (find_has_dni _ _ _ Hf).
Qed.

Lemma save_keeps_blocked d self :
  harmless d self ->
  hoare (blocked_account d) (save self)
        (fun u w => blocked_account d w /\ harmless d u /\ dni u = dni self)
        (blocked_account d).
Proof.
  intros Hsafe. unfold save.
  eapply hoare_bind; [apply keeps_find_by_dni|intros existing].
  destruct (password_hash self) as [h|]; [|apply hoare_raise].
  destruct (has_row existing).
  - eapply hoare_bind.
    + apply (hoare_modify _ (blocked_account d) (blocked_account d)).
      intros w H. now apply update_keeps_blocked.
    + intros _ w H. cbn. auto.
  - eapply hoare_bind; [apply keeps_sql_insert_user|].
    intros i w H. cbn. repeat split; auto.
Qed.

Lemma rules_keep_blocked d user :
  harmless d user ->
  hoare (blocked_account d) (update_user_status_based_on_rules user)
        (fun u w => blocked_account d w /\ harmless d u /\ dni u = dni user)
        (blocked_account d).
Proof.
  intros Hsafe. pose proof (blocked_reads_users d) as Hr.
  unfold update_user_status_based_on_rules.
  eapply hoare_bind; [apply keeps_datetime_now, users_only, Hr|intros now].
  eapply hoare_bind with
    (Q := fun u w => blocked_account d w /\ (harmless d u /\ dni u = dni user)).
  - destruct (ts_truthy (last_login user)).
    + apply hoare_try.
      * eapply hoare_bind; [apply keeps_lift|intros t].
        destruct (timedelta_days 180 <? now - t); intros w H; cbn; auto.
        split; [exact H|]. split; [intros _; reflexivity|reflexivity].
      * intros w H. cbn. auto.
    + eapply hoare_bind; [apply keeps_check_consecutive, users_only, Hr|intros flagged].
      destruct flagged; intros w H; cbn; auto.
      split; [exact H|]. split; [intros _; reflexivity|reflexivity].
  - intros u. apply hoare_pure. intros [Hu Hd].
    eapply hoare_post; [|apply save_keeps_blocked, Hu].
    cbn. intros a w (H1 & H2 & H3). repeat split; auto. congruence.
Qed.

(** ** Databases that the service produces *)

Lemma well_formed_with_admin w : well_formed w <-> well_formed_with "admin" w.
Proof. unfold well_formed_with, well_formed. tauto. Qed.

Lemma well_formed_reads_database d : reads_database (well_formed_with d).
Proof.
  intros w w' Hu Ha [(Hid & Hadm & Haud) Hd].
  unfold well_formed_with, well_formed, registered in *. rewrite Hu, Ha. auto.
Qed.

Lemma well_formed_row_id w d row :
  well_formed w -> find (has_dni d) (users w) = Some row -> row_id row <> 0.
Proof. intros (Hid & _) Hf. apply Hid. now apply find_some in Hf. Qed.

Lemma well_formed_no_orphans w d :
  well_formed w -> find (has_dni d) (users w) = None ->
  forall a, In a (activities w) -> act_user_dni a <> Some d.
Proof.
  intros (_ & _ & Haud) Hf a Hin Ha.
  destruct (Haud a Hin) as (d' & Hd' & Hreg).
  assert (d' = d) by congruence. subst d'. now apply Hreg.
Qed.

Lemma registered_update d self h l :
  find (has_dni d) l <> None ->
  find (has_dni d) (map (sql_update_user self h) l) <> None.
Proof.
  intros H. rewrite find_update. now destruct (find (has_dni d) l).
Qed.

Lemma registered_app d l l' :
  find (has_dni d) l <> None -> find (has_dni d) (l ++ l') <> None.
Proof.
  intros H. destruct (find (has_dni d) l) as [r|] eqn:E; [|now destruct H].
  now rewrite (find_app_old _ _ _ _ E).
Qed.

Lemma well_formed_update d self h w :
  well_formed_with d w -> well_formed_with d (set_users (map (sql_update_user self h)) w).
Proof.
  intros [(Hid & Hadm & Haud) Hd]. unfold well_formed_with, well_formed, registered in *.
  cbn [users activities set_users]. repeat split.
  - intros r Hr. apply in_map_iff in Hr. destruct Hr as (r0 & <- & Hr0).
    unfold sql_update_user. destruct (has_dni _ r0); cbn; now apply Hid.
  - now apply registered_update.
  - intros a Ha. destruct (Haud a Ha) as (d' & Hd' & Hreg).
    exists d'. split; [exact Hd'|]. now apply registered_update.
  - now apply registered_update.
Qed.

Lemma well_formed_append d r w :
  well_formed_with d w -> row_id r <> 0 ->
  well_formed_with d (set_users (fun l => l ++ [r])%list w)
  /\ registered (row_dni r) (set_users (fun l => l ++ [r])%list w).
Proof.
  intros [(Hid & Hadm & Haud) Hd] Hr0. unfold well_formed_with, well_formed, registered in *.
  cbn [users activities set_users]. repeat split.
  - intros x Hx. apply in_app_or in Hx. destruct Hx as [Hx|[<-|[]]]; auto.
  - now apply registered_app.
  - intros a Ha. destruct (Haud a Ha) as (d0 & Hd0 & Hreg).
    exists d0. split; [exact Hd0|]. now apply registered_app.
  - now apply registered_app.
  - destruct (find (has_dni (row_dni r)) (users w)) as [x|] eqn:E.
    + now rewrite (find_app_old _ _ _ _ E).
    + rewrite (find_app_new _ _ _ E). cbn. unfold has_dni.
      now rewrite String.eqb_refl.
Qed.

Lemma sql_insert_user_well_formed d d' h s :
  hoare (well_formed_with d) (sql_insert_user d' h s)
        (fun _ w => well_formed_with d w /\ registered d' w)
        (well_formed_with d).
Proof.
  pose proof (well_formed_reads_database d) as Hdb.
  unfold sql_insert_user.
  eapply hoare_bind; [apply keeps_sqlite_now, Hdb|intros utc].
  eapply hoare_bind; [apply keeps_get|intros taken].
  destruct taken; [apply hoare_raise|].
  eapply hoare_bind; [apply hoare_get|intros rowid].
  eapply hoare_bind with (Q := fun _ w => well_formed_with d w /\ registered d' w).
  - apply hoare_modify. intros w [Hw ->].
    apply (well_formed_append d
             (mkUserRow (next_rowid (map row_id (users w))) d' h s
                        (CURRENT_TIMESTAMP utc) None 0 None) w Hw).
    cbn. pose proof (next_rowid_positive (map row_id (users w))). lia.
  - intros _ w H. exact H.
Qed.

Lemma find_registered d d' :
  hoare (well_formed_with d) (find_by_dni d')
        (fun found w =>
           well_formed_with d w
           /\ (forall u, found = Some u ->
                 registered d' w /\ dni u = d' /\ has_row found = true))
        (well_formed_with d).
Proof.
  intros w Hw. cbn. split; [exact Hw|]. intros u Hu.
  unfold registered.
  destruct (find (has_dni d') (users w)) as [row|] eqn:Hf; [|discriminate].
  injection Hu as <-. split; [discriminate|]. split; [exact (find_has_dni _ _ _ Hf)|].
  cbn. apply negb_true_iff, Z.eqb_neq.
  destruct Hw as [Hw _]. exact (well_formed_row_id _ _ _ Hw Hf).
Qed.

Lemma save_well_formed d self :
  hoare (well_formed_with d) (save self)
        (fun u w => well_formed_with d w /\ registered (dni self) w /\ dni u = dni self)
        (well_formed_with d).
Proof.
  pose proof (well_formed_reads_database d) as Hdb.
  unfold save.
  eapply hoare_bind; [apply (find_registered d (dni self))|intros existing].
  apply hoare_pre with
    (P := fun w => well_formed_with d w
                   /\ (has_row existing = true -> registered (dni self) w)).
  { intros w [Hw Hf]. split; [exact Hw|]. intros Hrow.
    destruct existing as [e|]; [|discriminate]. now apply (Hf e eq_refl). }
  destruct (password_hash self) as [h|].
  2:{ intros w [Hw _]. exact Hw. }
  destruct (has_row existing).
  - eapply hoare_bind with
      (Q := fun _ w => well_formed_with d w /\ registered (dni self) w).
    + apply hoare_modify. intros w [Hw Hreg]. split.
      * now apply well_formed_update.
      * cbn [registered users set_users]. apply registered_update. now apply Hreg.
    + intros _ w H. cbn. tauto.
  - eapply hoare_bind.
    + eapply hoare_pre; [|apply (sql_insert_user_well_formed d (dni self))].
      cbn. tauto.
    + intros i w H. cbn. tauto.
Qed.

Lemma log_activity_well_formed d self a r details :
  keeps (fun w => well_formed_with d w /\ registered (dni self) w)
        (log_activity self a r details).
Proof.
  unfold log_activity.
  apply keeps_bind.
  { intros w [Hw Hreg]. cbn. split; [now apply (well_formed_reads_database d w)|exact Hreg]. }
  intros utc. apply keeps_modify.
  intros w [[(Hid & Hadm & Haud) Hd] Hreg].
  unfold well_formed_with, well_formed, registered in *.
  cbn [users activities set_activities]. repeat split; auto.
  intros b Hb. apply in_app_or in Hb. destruct Hb as [Hb|[<-|[]]]; [now apply Haud|].
  exists (dni self). cbn. auto.
Qed.

(** ** Every request keeps the database well formed *)

Lemma registered_reads_database d x :
  reads_database (fun w => well_formed_with d w /\ registered x w).
Proof.
  intros w w' Hu Ha [Hw Hx]. split; [now apply (well_formed_reads_database d w)|].
  unfold registered in *. now rewrite Hu.
Qed.

Lemma rules_well_formed d user :
  hoare (well_formed_with d) (update_user_status_based_on_rules user)
        (fun u w => (well_formed_with d w /\ registered (dni user) w) /\ dni u = dni user)
        (well_formed_with d).
Proof.
  pose proof (well_formed_reads_database d) as Hdb.
  unfold update_user_status_based_on_rules.
  eapply hoare_bind; [apply keeps_datetime_now, Hdb|intros now].
  eapply hoare_bind with (Q := fun u w => well_formed_with d w /\ dni u = dni user).
  - destruct (ts_truthy (last_login user)).
    + apply hoare_try; [|intros w H; cbn; auto].
      eapply hoare_bind; [apply keeps_lift|intros t].
      destruct (_ <? _); intros w H; cbn; auto.
    + eapply hoare_bind; [apply keeps_check_consecutive, Hdb|intros flagged].
      destruct flagged; intros w H; cbn; auto.
  - intros u. apply hoare_pure. intros Hu.
    eapply hoare_post; [|apply save_well_formed].
    cbn. intros a w (H1 & H2 & H3). rewrite <- Hu. tauto.
Qed.

Lemma update_login_attempt_well_formed d user success :
  keeps (well_formed_with d) (update_login_attempt user success).
Proof.
  pose proof (well_formed_reads_database d) as Hdb.
  unfold update_login_attempt.
  eapply hoare_bind; [apply keeps_datetime_now, Hdb|intros t].
  eapply hoare_bind with (Q := fun _ w => well_formed_with d w).
  - destruct success; [intros w H; exact H|].
    destruct (_ && _); [|intros w H; exact H].
    apply hoare_try; [|intros w H; exact H].
    eapply hoare_bind; [apply keeps_lift|intros dt].
    eapply hoare_bind; [apply keeps_datetime_now, Hdb|intros t'].
    destruct (_ <? _); intros w H; exact H.
  - intros u. eapply hoare_bind; [apply save_well_formed|intros u'].
    eapply hoare_bind with (Q := fun _ w => well_formed_with d w).
    + eapply hoare_weaken; [apply (log_activity_well_formed d u')| | |]; cbn.
      * intros w (H1 & H2 & H3). rewrite H3. tauto.
      * tauto.
      * tauto.
    + intros _ w H. exact H.
Qed.

Lemma log_as_admin_well_formed d a r details :
  keeps (well_formed_with d) (log_as_admin a r details).
Proof.
  unfold log_as_admin.
  eapply hoare_bind; [apply (find_registered d "admin")|intros found].
  destruct found as [u|]; [|intros w [H _]; exact H].
  eapply hoare_weaken; [apply (log_activity_well_formed d u)| | |]; cbn.
  - intros w [Hw Hf]. destruct (Hf u eq_refl) as (H1 & H2 & _).
    rewrite H2. tauto.
  - tauto.
  - tauto.
Qed.

Section HandlerProperties.

Context {hasher : PasswordHasher}.

(** ** The login gate *)

Lemma login_denied w rq d p row user w1 :
  login_request rq d p ->
  find (has_dni d) (users w) = Some row ->
  update_user_status_based_on_rules (create_from_row row) w = (Returned user, w1) ->
  str_in (status user) BLOCKED_STATUSES = true ->
  exists w2,
    login rq w = (Returned (render_template "login.html"), w2)
    /\ users w2 = users w1
    /\ activities w2 = (activities w1 ++ [denial_event user w1])%list
    /\ hash_checks w2 = hash_checks w1
    /\ user_dni (session w2) = user_dni (session w1)
    /\ is_admin (session w2) = is_admin (session w1).
Proof.
  intros (Hm & Hd & Hp & Htd & Htp) Hf Hr Hb.
  unfold login, form_get_or_empty. rewrite Hm, Hd, Hp, Htd, Htp. cbn [negb orb].
  unfold bind at 1. unfold find_by_dni, get. rewrite Hf. cbn [option_map].
  unfold bind at 1. rewrite Hr, Hb.
  eexists. split; [reflexivity|]. cbn. repeat split; reflexivity.
Qed.

Lemma rules_keep_client w user :
  let w1 := snd (update_user_status_based_on_rules user w) in
  session w1 = session w /\ hash_checks w1 = hash_checks w /\ drawn w1 = drawn w.
Proof.
  apply (keeps_run (fun w' => session w' = session w /\ hash_checks w' = hash_checks w
                              /\ drawn w' = drawn w)); [|auto].
  apply client_keeps_rules. intros a b Hs Hh Hdr (H1 & H2 & H3). repeat split; congruence.
Qed.

Lemma login_reaches_password_check w rq d p row user w1 h :
  login_request rq d p ->
  find (has_dni d) (users w) = Some row ->
  update_user_status_based_on_rules (create_from_row row) w = (Returned user, w1) ->
  str_in (status user) BLOCKED_STATUSES = false ->
  password_hash user = Some h ->
  truthy h = true ->
  login rq w
  = (if check_password_hash h p then
       user <- update_login_attempt user true ;;
       session_set_user_dni (dni user) ;;
       session_set_is_admin false ;;
       ret (render_template "success.html")
     else
       update_login_attempt user false ;;
       flash "Contraseña incorrecta" "error" ;;
       ret (render_template "login.html")) (note_hash_check h p w1).
Proof.
  intros (Hm & Hd & Hp & Htd & Htp) Hf Hr Hb Hh Hth.
  unfold login, form_get_or_empty. rewrite Hm, Hd, Hp, Htd, Htp. cbn [negb orb].
  unfold bind at 1. unfold find_by_dni, get. rewrite Hf. cbn [option_map].
  unfold bind at 1. rewrite Hr, Hb.
  unfold bind at 1. unfold check_password. rewrite Hh, Hth. cbn [negb].
  reflexivity.
Qed.

Lemma update_login_attempt_success user w row h :
  find (has_dni (dni user)) (users w) = Some row ->
  row_id row <> 0 ->
  password_hash user = Some h ->
  let now := isoformat (clock w (ticks w) + tz w) in
  let user' := on_success user now in
  let w1 := set_users (map (sql_update_user user' h)) (tick w) in
  update_login_attempt user true w
  = (Returned user', set_activities (fun l => l ++ [attempt_event user' "exitoso" w1])%list (tick w1)).
Proof.
  intros Hf Hid Hh now user' w1. unfold update_login_attempt.
  unfold bind at 1. unfold datetime_now. unfold bind at 1. unfold ret at 1.
  unfold bind at 1.
  rewrite (save_existing (on_success user (isoformat (clock w (ticks w) + tz w))) (tick w) row h);
    [reflexivity | exact Hf | exact Hid | exact Hh].
Qed.

(** C2. A login request for an existing account whose status, once the
    rules have been evaluated, is in [BLOCKED_STATUSES] is answered with
    the login page again: [check_password_hash] is not called, nobody is
    logged in, and one audit row ['acceso'/'fallido'] that names the
    status is appended. *)
Theorem login_gate_rejects_without_password_check
    (w : World) (rq : Request) (d p : string) (row : UserRow) (user : User) (w1 : World) :
  login_request rq d p ->
  find (has_dni d) (users w) = Some row ->
  update_user_status_based_on_rules (create_from_row row) w = (Returned user, w1) ->
  str_in (status user) BLOCKED_STATUSES = true ->
  exists w2,
    login rq w = (Returned (render_template "login.html"), w2)
    /\ hash_checks w2 = hash_checks w
    /\ user_dni (session w2) = user_dni (session w)
    /\ users w2 = users w1
    /\ activities w2 = (activities w1 ++ [denial_event user w1])%list
    /\ act_details (denial_event user w1) = Some ("Usuario " ++ status user).
Proof.
  intros Hrq Hf Hr Hb.
  destruct (login_denied w rq d p row user w1 Hrq Hf Hr Hb)
    as (w2 & Hl & Hu & Ha & Hh & Hs & _).
  pose proof (rules_keep_client w (create_from_row row)) as Hk.
  rewrite Hr in Hk. cbn in Hk. destruct Hk as (Hk1 & Hk2 & _).
  exists w2. repeat split; try assumption; try congruence.
Qed.

(** C3. An account whose [last_login] parses and lies more than 180 days
    before the clock reading of the rule evaluation is set to ['pausado']
    by that evaluation, which a login request runs and saves first; the
    gate then turns the request away without a password check. *)
Theorem stale_account_paused_before_gate
    (w : World) (rq : Request) (d p : string) (row : UserRow) (t : Z) :
  login_request rq d p ->
  find (has_dni d) (users w) = Some row ->
  row_id row <> 0 ->
  row_last_login row = Some (IsoText t) ->
  timedelta_days 180 < clock w (ticks w) + tz w - t ->
  let paused := set_status (create_from_row row) "pausado" in
  exists w1 w2 row',
    update_user_status_based_on_rules (create_from_row row) w = (Returned paused, w1)
    /\ find (has_dni d) (users w1) = Some row'
    /\ row_status row' = "pausado"
    /\ login rq w = (Returned (render_template "login.html"), w2)
    /\ users w2 = users w1
    /\ activities w2 = (activities w1 ++ [denial_event paused w1])%list
    /\ hash_checks w2 = hash_checks w.
Proof.
  intros Hrq Hf Hid Hl Hstale paused.
  pose proof (find_has_dni _ _ _ Hf) as Hdni.
  assert (Hr : update_user_status_based_on_rules (create_from_row row) w
               = (Returned paused,
                  set_users (map (sql_update_user paused (row_password_hash row))) (tick w))).
  { rewrite (rules_with_last_login _ _ t) by exact Hl.
    apply Z.ltb_lt in Hstale. rewrite Hstale.
    apply (save_existing _ _ row); [cbn; now rewrite Hdni | exact Hid | reflexivity]. }
  destruct (login_denied w rq d p row paused _ Hrq Hf Hr eq_refl)
    as (w2 & Hlog & Hu & Ha & Hh & _).
  eexists _, w2, _. split; [exact Hr|].
  split; [cbn [users set_users]; rewrite find_update; cbn [users tick]; rewrite Hf; reflexivity|].
  split.
  { unfold sql_update_user. cbn [dni paused set_status create_from_row].
    unfold has_dni. rewrite String.eqb_refl. reflexivity. }
  repeat split; assumption.
Qed.

(** ** What an ordinary client can do to a blocked account *)

Lemma update_login_attempt_keeps_blocked d user success :
  dni user <> d -> keeps (blocked_account d) (update_login_attempt user success).
Proof.
  intros Hne. pose proof (blocked_reads_users d) as Hr.
  unfold update_login_attempt.
  eapply hoare_bind; [apply keeps_datetime_now, users_only, Hr|intros t].
  eapply hoare_bind with (Q := fun u w => blocked_account d w /\ dni u = dni user).
  - destruct success; [intros w H; cbn; auto|].
    destruct (_ && _); [|intros w H; cbn; auto].
    apply hoare_try; [|intros w H; cbn; auto].
    eapply hoare_bind; [apply keeps_lift|intros dt].
    eapply hoare_bind; [apply keeps_datetime_now, users_only, Hr|intros t'].
    destruct (_ <? _); intros w H; cbn; auto.
  - intros u. apply hoare_pure. intros Hu.
    eapply hoare_bind.
    + apply save_keeps_blocked. intros Hd. congruence.
    + intros u'. eapply hoare_bind with (Q := fun _ w => blocked_account d w).
      * eapply hoare_pre; [|apply keeps_log_activity, Hr]. cbn. tauto.
      * intros _ w H. exact H.
Qed.

Lemma find_blocked d d' :
  hoare (blocked_account d) (find_by_dni d')
        (fun found w =>
           blocked_account d w
           /\ (forall u, found = Some u -> harmless d u /\ dni u = d'))
        (blocked_account d).
Proof.
  intros w Hw. cbn. split; [exact Hw|]. intros u Hu.
  destruct (find (has_dni d') (users w)) as [row|] eqn:Hf; [|discriminate].
  injection Hu as <-. pose proof (find_has_dni _ _ _ Hf) as Hd.
  split; [|exact Hd]. intros He. change (row_dni row = d) in He.
  destruct Hw as (row0 & Hf0 & Hb).
  assert (E : d' = d) by congruence. rewrite E in Hf.
  assert (E0 : row0 = row) by congruence. rewrite <- E0. exact Hb.
Qed.

Lemma check_password_keeps I user password :
  reads_database I -> keeps I (check_password user password).
Proof.
  intros H. unfold check_password. repeat keeps_step.
  apply keeps_modify. intros w HI. now apply (H w).
Qed.

Lemma login_keeps_blocked d rq : keeps (blocked_account d) (login rq).
Proof.
  pose proof (blocked_reads_users d) as Hr. pose proof (users_only _ Hr) as Hdb.
  unfold login. destruct (method rq); [apply keeps_ret|].
  destruct (_ || _).
  { apply keeps_bind; [now apply keeps_flash | intro; apply keeps_ret]. }
  eapply hoare_bind; [apply find_blocked|intros found].
  apply hoare_pure. intros Hfound.
  destruct found as [user|].
  2:{ apply keeps_bind; [now apply keeps_flash | intro; apply keeps_ret]. }
  destruct (Hfound user eq_refl) as [Hsafe _].
  eapply hoare_bind; [apply rules_keep_blocked, Hsafe|intros user'].
  apply hoare_pure. intros [Hsafe' _].
  destruct (str_in (status user') BLOCKED_STATUSES) eqn:Hgate.
  - apply keeps_bind; [now apply keeps_flash|intro].
    apply keeps_bind; [now apply keeps_log_activity|intro; apply keeps_ret].
  - assert (Hne : dni user' <> d).
    { intros He. specialize (Hsafe' He). congruence. }
    apply keeps_bind; [now apply check_password_keeps|intros ok].
    destruct ok.
    + apply keeps_bind; [now apply update_login_attempt_keeps_blocked|intro].
      apply keeps_bind; [now apply keeps_session_set_user_dni|intro].
      apply keeps_bind; [now apply keeps_session_set_is_admin|intro; apply keeps_ret].
    + apply keeps_bind; [now apply update_login_attempt_keeps_blocked|intro].
      apply keeps_bind; [now apply keeps_flash|intro; apply keeps_ret].
Qed.

Lemma register_keeps_blocked d rq : keeps (blocked_account d) (register rq).
Proof.
  pose proof (blocked_reads_users d) as Hr. pose proof (users_only _ Hr) as Hdb.
  unfold register. destruct (method rq); [apply keeps_ret|].
  destruct (validate_input _ _).
  2:{ apply keeps_bind; [|intro; apply keeps_ret].
      apply keeps_for_each. intro. now apply keeps_flash. }
  destruct (validate_dni _) as [ok_dni dni_message].
  destruct (negb ok_dni).
  { apply keeps_bind; [now apply keeps_flash | intro; apply keeps_ret]. }
  destruct (negb (String.eqb _ _)).
  { apply keeps_bind; [now apply keeps_flash | intro; apply keeps_ret]. }
  destruct (validate_password _) as [ok message].
  destruct (negb ok).
  { apply keeps_bind; [now apply keeps_flash | intro; apply keeps_ret]. }
  eapply hoare_bind; [apply hoare_get|intros existing].
  apply hoare_pre with (P := fun w =>
    blocked_account d w /\ (existing = None -> form_get_or_empty rq "dni" <> d)).
  { intros w [Hw He]. split; [exact Hw|]. intros Hn Hd. subst existing.
    destruct Hw as (row & Hf & _). rewrite Hd, Hf in Hn. discriminate. }
  apply hoare_pure. intros Hfresh.
  destruct existing.
  { apply keeps_bind; [now apply keeps_flash | intro; apply keeps_ret]. }
  eapply hoare_bind with (Q := fun _ w => blocked_account d w).
  { intros w Hw. cbn. now apply (Hr w). }
  intros h.
  eapply hoare_bind.
  { apply save_keeps_blocked. intros Hd. cbn in Hd. now destruct (Hfresh eq_refl). }
  intros u. eapply hoare_pre with (P := blocked_account d); [cbn; tauto|].
  apply keeps_bind; [now apply keeps_log_activity|intro].
  apply keeps_bind; [now apply keeps_flash | intro; apply keeps_ret].
Qed.

Lemma logout_keeps_blocked d : keeps (blocked_account d) logout.
Proof.
  pose proof (blocked_reads_users d) as Hr. pose proof (users_only _ Hr) as Hdb.
  unfold logout.
  apply keeps_bind; [apply keeps_get|intros who].
  apply keeps_bind.
  { destruct who as [x|]; [|apply keeps_ret].
    destruct (truthy x); [|apply keeps_ret].
    apply keeps_bind; [apply keeps_find_by_dni|intros found].
    destruct found; [now apply keeps_log_activity|apply keeps_ret]. }
  intro. apply keeps_bind; [now apply keeps_session_clear|intro].
  apply keeps_bind; [now apply keeps_flash | intro; apply keeps_ret].
Qed.

Lemma log_as_admin_keeps I a r details :
  reads_users I -> keeps I (log_as_admin a r details).
Proof.
  intros H. unfold log_as_admin.
  apply keeps_bind; [apply keeps_find_by_dni|intros found].
  destruct found; [now apply keeps_log_activity|apply keeps_ret].
Qed.

Lemma admin_login_keeps_blocked d rq : keeps (blocked_account d) (admin_login rq).
Proof.
  pose proof (blocked_reads_users d) as Hr. pose proof (users_only _ Hr) as Hdb.
  unfold admin_login. destruct (method rq); [apply keeps_ret|].
  destruct (negb _).
  { apply keeps_bind; [now apply keeps_flash | intro; apply keeps_ret]. }
  destruct (String.eqb _ _).
  - apply keeps_bind; [now apply keeps_session_set_is_admin|intro].
    apply keeps_bind; [now apply keeps_session_set_user_dni|intro].
    apply keeps_bind; [now apply log_as_admin_keeps|intro; apply keeps_ret].
  - apply keeps_bind; [now apply keeps_flash | intro; apply keeps_ret].
Qed.

Lemma change_admin_password_keeps_blocked d rq :
  keeps (blocked_account d) (change_admin_password rq).
Proof.
  pose proof (blocked_reads_users d) as Hr.
  unfold change_admin_password.
  apply keeps_bind; [apply keeps_get|intros admin].
  destruct (negb admin); [apply keeps_ret|].
  destruct (negb _); [apply keeps_ret|].
  destruct (form_get rq "current_password"); [|apply keeps_ret].
  destruct (form_get rq "new_password"); [|apply keeps_ret].
  destruct (form_get rq "confirm_password"); [|apply keeps_ret].
  destruct (negb _); [apply keeps_ret|].
  destruct (negb _); [apply keeps_ret|].
  destruct (validate_password _) as [ok message].
  destruct (negb ok); [apply keeps_ret|].
  apply keeps_bind; [now apply log_as_admin_keeps|intro; apply keeps_ret].
Qed.

Lemma change_user_password_keeps_blocked d rq :
  keeps (blocked_account d) (change_user_password rq).
Proof.
  pose proof (blocked_reads_users d) as Hr.
  unfold change_user_password.
  apply keeps_bind; [apply keeps_get|intros admin].
  destruct (negb admin); [apply keeps_ret|].
  destruct (form_get rq "dni") as [d'|]; [|apply keeps_ret].
  destruct (form_get rq "new_password") as [p|]; [|apply keeps_ret].
  destruct (_ || _); [apply keeps_ret|].
  eapply hoare_bind; [apply find_blocked|intros found].
  apply hoare_pure. intros Hfound.
  destruct found as [user|]; [|apply keeps_ret].
  destruct (Hfound user eq_refl) as [Hsafe _].
  destruct (validate_password p) as [ok message].
  destruct (negb ok); [apply keeps_ret|].
  eapply hoare_bind with (Q := fun _ w => blocked_account d w).
  { intros w Hw. cbn. now apply (Hr w). }
  intros h. eapply hoare_bind.
  { apply save_keeps_blocked. exact Hsafe. }
  intros u. eapply hoare_pre with (P := blocked_account d); [cbn; tauto|].
  apply keeps_bind; [now apply log_as_admin_keeps|intro; apply keeps_ret].
Qed.

(** C9. Once the status of an account is in [BLOCKED_STATUSES], it stays
    there through every sequence of [login], [register] and [logout]
    requests (and of the administrator's requests other than
    [change_user_status]), of whatever clients and for whatever
    accounts. *)
Theorem blocked_account_stays_blocked (d : string) (w w' : World) :
  blocked_account d w -> steps w w' -> blocked_account d w'.
Proof.
  intros Hb Hsteps. induction Hsteps as [|w1 w2 _ IH Hstep]; [exact Hb|].
  destruct Hstep as [client op].
  assert (Hstart : blocked_account d (set_session (fun _ => client) w1)).
  { now apply (blocked_reads_users d w1). }
  apply keeps_run; [|exact Hstart].
  destruct op; cbn [perform].
  - apply login_keeps_blocked.
  - apply register_keeps_blocked.
  - apply logout_keeps_blocked.
  - apply admin_login_keeps_blocked.
  - apply change_user_password_keeps_blocked.
  - apply change_admin_password_keeps_blocked.
Qed.

(** ** Reachable worlds *)

Lemma wf_flash_and_return msg cat (r : Response) :
  keeps (well_formed_with "admin") (flash msg cat ;; ret r).
Proof.
  apply keeps_bind; [apply keeps_flash, well_formed_reads_database | intro; apply keeps_ret].
Qed.

Lemma login_well_formed rq : keeps (well_formed_with "admin") (login rq).
Proof.
  pose proof (well_formed_reads_database "admin") as Hdb.
  unfold login. destruct (method rq); [apply keeps_ret|].
  destruct (_ || _); [apply wf_flash_and_return|].
  eapply hoare_bind; [apply keeps_find_by_dni|intros found].
  destruct found as [user|]; [|apply wf_flash_and_return].
  eapply hoare_bind; [apply rules_well_formed|intros user'].
  apply hoare_pure. intros Hdni.
  pose proof (registered_reads_database "admin" (dni user)) as Hdb2.
  destruct (str_in _ _).
  - apply hoare_weaken with
      (P := fun w => (well_formed_with "admin") w /\ registered (dni user) w)
      (Q := fun _ w => (well_formed_with "admin") w /\ registered (dni user) w)
      (E := fun w => (well_formed_with "admin") w /\ registered (dni user) w);
      [|tauto|cbn; tauto|tauto].
    apply keeps_bind; [now apply keeps_flash|intros _].
    apply keeps_bind; [|intros _; apply keeps_ret].
    rewrite <- Hdni. apply log_activity_well_formed.
  - apply hoare_pre with (P := (well_formed_with "admin")); [tauto|].
    apply keeps_bind; [now apply check_password_keeps|intros ok].
    destruct ok.
    + apply keeps_bind; [apply update_login_attempt_well_formed|intro].
      apply keeps_bind; [now apply keeps_session_set_user_dni|intro].
      apply keeps_bind; [now apply keeps_session_set_is_admin|intro; apply keeps_ret].
    + apply keeps_bind; [apply update_login_attempt_well_formed|intro].
      apply wf_flash_and_return.
Qed.

Lemma save_then_log_well_formed {B} (self : User) (k : User -> M B) :
  (forall u, dni u = dni self ->
     keeps (fun w => (well_formed_with "admin") w /\ registered (dni self) w) (k u)) ->
  keeps (well_formed_with "admin") (u <- save self ;; k u).
Proof.
  intros Hk. eapply hoare_bind; [apply save_well_formed|intros u].
  apply hoare_weaken with
    (P := fun w => ((well_formed_with "admin") w /\ registered (dni self) w) /\ dni u = dni self)
    (Q := fun _ w => (well_formed_with "admin") w /\ registered (dni self) w)
    (E := fun w => (well_formed_with "admin") w /\ registered (dni self) w);
    [|tauto|cbn; tauto|tauto].
  apply hoare_pure. exact (Hk u).
Qed.

Lemma register_well_formed rq : keeps (well_formed_with "admin") (register rq).
Proof.
  pose proof (well_formed_reads_database "admin") as Hdb.
  unfold register. destruct (method rq); [apply keeps_ret|].
  destruct (validate_input _ _).
  2:{ apply keeps_bind; [|intro; apply keeps_ret].
      apply keeps_for_each. intro. now apply keeps_flash. }
  destruct (validate_dni _) as [ok_dni dni_message].
  destruct (negb ok_dni); [apply wf_flash_and_return|].
  destruct (negb (String.eqb _ _)); [apply wf_flash_and_return|].
  destruct (validate_password _) as [ok message].
  destruct (negb ok); [apply wf_flash_and_return|].
  apply keeps_bind; [apply keeps_find_by_dni|intros existing].
  destruct existing; [apply wf_flash_and_return|].
  apply keeps_bind.
  { intros w Hw. cbn. now apply (Hdb w). }
  intros h. apply save_then_log_well_formed. intros u Hu.
  pose proof (registered_reads_database "admin" (dni (new_user (form_get_or_empty rq "dni") h)))
    as Hdb2.
  apply keeps_bind; [rewrite <- Hu; apply log_activity_well_formed|intro].
  apply keeps_bind; [now apply keeps_flash|intro; apply keeps_ret].
Qed.

Lemma logout_well_formed : keeps (well_formed_with "admin") logout.
Proof.
  pose proof (well_formed_reads_database "admin") as Hdb.
  unfold logout.
  apply keeps_bind; [apply keeps_get|intros who].
  apply keeps_bind.
  { destruct who as [x|]; [|apply keeps_ret].
    destruct (truthy x); [|apply keeps_ret].
    eapply hoare_bind; [apply (find_registered "admin" x)|intros found].
    destruct found as [u|]; [|intros w [H _]; exact H].
    eapply hoare_weaken; [apply (log_activity_well_formed "admin" u)| | |]; cbn.
    - intros w [Hw Hf]. destruct (Hf u eq_refl) as (H1 & H2 & _). rewrite H2. tauto.
    - tauto.
    - tauto. }
  intro. apply keeps_bind; [now apply keeps_session_clear|intro].
  apply wf_flash_and_return.
Qed.

Lemma admin_login_well_formed rq : keeps (well_formed_with "admin") (admin_login rq).
Proof.
  pose proof (well_formed_reads_database "admin") as Hdb.
  unfold admin_login. destruct (method rq); [apply keeps_ret|].
  destruct (negb _); [apply wf_flash_and_return|].
  destruct (String.eqb _ _); [|apply wf_flash_and_return].
  apply keeps_bind; [now apply keeps_session_set_is_admin|intro].
  apply keeps_bind; [now apply keeps_session_set_user_dni|intro].
  apply keeps_bind; [apply log_as_admin_well_formed|intro; apply keeps_ret].
Qed.

Lemma save_then_log_as_admin_well_formed self a r details (resp : Response) :
  keeps (well_formed_with "admin") (save self ;; log_as_admin a r details ;; ret resp).
Proof.
  apply keeps_bind.
  - eapply hoare_post; [|apply save_well_formed]. cbn. tauto.
  - intro. apply keeps_bind; [apply log_as_admin_well_formed|intro; apply keeps_ret].
Qed.

Lemma change_user_status_well_formed rq : keeps (well_formed_with "admin") (change_user_status rq).
Proof.
  unfold change_user_status.
  apply keeps_bind; [apply keeps_get|intros admin].
  destruct (negb admin); [apply keeps_ret|].
  destruct (form_get rq "dni") as [d'|]; [|apply keeps_ret].
  destruct (form_get rq "new_status") as [s|]; [|apply keeps_ret].
  destruct (_ || _); [apply keeps_ret|].
  destruct (String.eqb d' "admin"); [apply keeps_ret|].
  apply keeps_bind; [apply keeps_find_by_dni|intros found].
  destruct found as [user|]; [|apply keeps_ret].
  destruct (String.eqb _ _); [apply keeps_ret|].
  apply save_then_log_as_admin_well_formed.
Qed.

Lemma change_user_password_well_formed rq : keeps (well_formed_with "admin") (change_user_password rq).
Proof.
  pose proof (well_formed_reads_database "admin") as Hdb.
  unfold change_user_password.
  apply keeps_bind; [apply keeps_get|intros admin].
  destruct (negb admin); [apply keeps_ret|].
  destruct (form_get rq "dni") as [d'|]; [|apply keeps_ret].
  destruct (form_get rq "new_password") as [p|]; [|apply keeps_ret].
  destruct (_ || _); [apply keeps_ret|].
  apply keeps_bind; [apply keeps_find_by_dni|intros found].
  destruct found as [user|]; [|apply keeps_ret].
  destruct (validate_password p) as [ok message].
  destruct (negb ok); [apply keeps_ret|].
  apply keeps_bind.
  { intros w Hw. cbn. now apply (Hdb w). }
  intros h. apply save_then_log_as_admin_well_formed.
Qed.

Lemma change_admin_password_well_formed rq : keeps (well_formed_with "admin") (change_admin_password rq).
Proof.
  unfold change_admin_password.
  apply keeps_bind; [apply keeps_get|intros admin].
  destruct (negb admin); [apply keeps_ret|].
  destruct (negb _); [apply keeps_ret|].
  destruct (form_get rq "current_password"); [|apply keeps_ret].
  destruct (form_get rq "new_password"); [|apply keeps_ret].
  destruct (form_get rq "confirm_password"); [|apply keeps_ret].
  destruct (negb _); [apply keeps_ret|].
  destruct (negb _); [apply keeps_ret|].
  destruct (validate_password _) as [ok message].
  destruct (negb ok); [apply keeps_ret|].
  apply keeps_bind; [apply log_as_admin_well_formed|intro; apply keeps_ret].
Qed.

Lemma init_db_well_formed w0 :
  users w0 = [] -> activities w0 = [] -> well_formed (snd (init_db w0)).
Proof.
  intros Hu Ha. destruct w0 as [us acts s c t z sl dr hc]. cbn in Hu, Ha. subst us acts.
  unfold well_formed, registered. cbn. repeat split.
  - intros r [<-|[]]. cbn. pose proof (next_rowid_positive []). lia.
  - discriminate.
  - intros a [].
Qed.

Lemma reachable_well_formed w : reachable w -> well_formed w.
Proof.
  pose proof (well_formed_reads_database "admin") as Hdb.
  induction 1 as [w0 Hu Ha | w client op _ IH | w client rq _ IH].
  - now apply init_db_well_formed.
  - apply well_formed_with_admin. apply well_formed_with_admin in IH.
    apply keeps_run; [|now apply (Hdb w)].
    destruct op; cbn [perform].
    + apply login_well_formed.
    + apply register_well_formed.
    + apply logout_well_formed.
    + apply admin_login_well_formed.
    + apply change_user_password_well_formed.
    + apply change_admin_password_well_formed.
  - apply well_formed_with_admin. apply well_formed_with_admin in IH.
    apply keeps_run; [|now apply (Hdb w)].
    apply change_user_status_well_formed.
Qed.

(** In a reachable world the side conditions of the theorems below
    hold: rowids are not 0, and an identifier that is not registered has
    no audit row. *)
Lemma reachable_side_conditions w d :
  reachable w ->
  (forall row, find (has_dni d) (users w) = Some row -> row_id row <> 0)
  /\ (find (has_dni d) (users w) = None ->
      forall a, In a (activities w) -> act_user_dni a <> Some d)
  /\ (exists admin_row, find (has_dni "admin") (users w) = Some admin_row).
Proof.
  intros H. apply reachable_well_formed in H. split; [|split].
  - intros row. now apply well_formed_row_id.
  - now apply well_formed_no_orphans.
  - destruct H as (_ & Hadm & _). unfold registered in Hadm.
    destruct (find (has_dni "admin") (users w)) as [r|]; [eauto|now destruct Hadm].
Qed.

(** ** The administrative status override *)

Lemma change_status_of_admin_fails w rq :
  lookup "dni" (form rq) = Some "admin" ->
  exists msg http, change_user_status rq w = (Returned (jsonify_error msg http), w).
Proof.
  intros Hd. unfold change_user_status, form_get.
  unfold bind at 1. unfold get at 1.
  destruct (is_admin (session w)); cbn [negb]; [|unfold ret; eauto]. rewrite Hd.
  destruct (lookup "new_status" (form rq)) as [s|]; [|unfold ret; eauto].
  change (truthy "admin") with true. cbn [negb orb].
  destruct (truthy s); cbn [negb]; [|unfold ret; eauto].
  rewrite String.eqb_refl. unfold ret; eauto.
Qed.

(** C7. [change_user_status] fails for the identifier ['admin'] (in any
    session), for an unknown identifier and when the new status is the
    current one, and leaves the world as it was. Otherwise, in an
    administrator's session, the status of the account's row becomes the
    requested one, whatever the rules would say of the account: no other
    column changes, and one audit row ['cambio_estado'] is appended on
    behalf of the row ['admin']. *)
Theorem change_user_status_outcomes
    (w : World) (rq : Request) (d new_status : string) (admin_row : UserRow) :
  is_admin (session w) = true ->
  lookup "dni" (form rq) = Some d ->
  lookup "new_status" (form rq) = Some new_status ->
  truthy d = true ->
  truthy new_status = true ->
  find (has_dni "admin") (users w) = Some admin_row ->
  (forall w0 rq0, lookup "dni" (form rq0) = Some "admin" ->
     exists msg http, change_user_status rq0 w0 = (Returned (jsonify_error msg http), w0))
  /\ (d <> "admin" -> find (has_dni d) (users w) = None ->
      change_user_status rq w = (Returned (jsonify_error "Usuario no encontrado" 404), w))
  /\ (forall row, d <> "admin" -> find (has_dni d) (users w) = Some row ->
      row_status row = new_status ->
      exists msg, change_user_status rq w = (Returned (jsonify_error msg 400), w))
  /\ (forall row, d <> "admin" -> find (has_dni d) (users w) = Some row ->
      row_status row <> new_status -> row_id row <> 0 ->
      exists w',
        change_user_status rq w = (Returned (jsonify_success None), w')
        /\ find (has_dni d) (users w') = Some (with_status row new_status)
        /\ (forall d', d' <> d -> find (has_dni d') (users w') = find (has_dni d') (users w))
        /\ activities w' = (activities w ++ [status_change_event d new_status w])%list).
Proof.
  intros Hadm Hd Hs Htd Hts Hadmin.
  split; [intros; now apply change_status_of_admin_fails|].
  assert (Hstart :
            d <> "admin" ->
            change_user_status rq w
            = bind (find_by_dni d)
                (fun found =>
                   match found with
                   | None => ret (jsonify_error "Usuario no encontrado" 404)
                   | Some user =>
                       if String.eqb (status user) new_status then
                         ret (jsonify_error "El estado actual y el nuevo no pueden ser idénticos" 400)
                       else
                         save (set_status user new_status) ;;
                         log_as_admin "cambio_estado" "admin-ok"
                           (Some ("Usuario " ++ d ++ " -> " ++ new_status)) ;;
                         ret (jsonify_success None)
                   end) w).
  { intros Hne. unfold change_user_status, form_get.
    unfold bind at 1. unfold get at 1. rewrite Hadm, Hd, Hs, Htd, Hts. cbn [negb orb].
    apply String.eqb_neq in Hne. now rewrite Hne. }
  split; [|split].
  - intros Hne Hf. rewrite (Hstart Hne).
    unfold bind, find_by_dni, get. rewrite Hf. reflexivity.
  - intros row Hne Hf Hsame. rewrite (Hstart Hne).
    unfold bind, find_by_dni, get. rewrite Hf. cbn [option_map create_from_row status].
    rewrite Hsame, String.eqb_refl. eexists. reflexivity.
  - intros row Hne Hf Hdiff Hid. rewrite (Hstart Hne).
    pose proof (find_has_dni _ _ _ Hf) as Hdni.
    unfold bind at 1. unfold find_by_dni at 1, get. rewrite Hf.
    cbn [option_map]. cbn [create_from_row status].
    apply String.eqb_neq in Hdiff. rewrite Hdiff.
    unfold bind at 1.
    rewrite (save_existing _ _ row (row_password_hash row));
      [| cbn; now rewrite Hdni | exact Hid | reflexivity].
    unfold bind at 1. unfold log_as_admin, bind, find_by_dni, get.
    cbn [users set_users]. rewrite find_update, Hadmin. cbn [option_map].
    eexists. split; [reflexivity|]. cbn [users activities set_activities set_users tick].
    split; [|split].
    + rewrite find_update, Hf. cbn [option_map]. unfold sql_update_user.
      cbn [dni set_status create_from_row]. unfold has_dni at 1.
      rewrite Hdni, String.eqb_refl. unfold with_status. now rewrite Hdni.
    + intros d' Hd'. rewrite find_update.
      destruct (find (has_dni d') (users w)) as [r'|] eqn:Hf'; [|reflexivity].
      cbn [option_map]. unfold sql_update_user. cbn [dni set_status create_from_row].
      pose proof (find_has_dni _ _ _ Hf') as Hr'. unfold has_dni.
      rewrite Hr', Hdni. apply String.eqb_neq in Hd'. now rewrite Hd'.
    + cbn. unfold status_change_event.
      assert (Hadm_dni : row_dni (sql_update_user (set_status (create_from_row row) new_status)
                                    (row_password_hash row) admin_row) = "admin").
      { pose proof (find_has_dni _ _ _ Hadmin) as Ha. unfold sql_update_user.
        destruct (has_dni _ admin_row); exact Ha. }
      now rewrite Hadm_dni.
Qed.

(** ** Registration *)

Lemma flash_flashed message category w :
  flash message category w = (Returned tt, flashed category [message] w).
Proof. reflexivity. Qed.

Lemma flashed_app category l1 l2 w :
  flashed category l2 (flashed category l1 w) = flashed category (l1 ++ l2) w.
Proof.
  unfold flashed, set_session. cbn. now rewrite map_app, app_assoc.
Qed.

Lemma for_each_flash category errors w :
  for_each errors (fun error => flash error category) w
  = (Returned tt, flashed category errors w).
Proof.
  revert w. induction errors as [|e errors IH]; intros w.
  - cbn. unfold ret, flashed, set_session. cbn. rewrite app_nil_r.
    now destruct w as [? ? []].
  - cbn [for_each]. unfold bind. rewrite flash_flashed, IH.
    now rewrite (flashed_app category [e] errors).
Qed.

Lemma validate_input_registration rq d p :
  registration_request rq d p ->
  truthy (strip d) = true -> truthy (strip p) = true ->
  validate_input (form rq) ["dni"; "password"; "confirm_password"] = [].
Proof.
  intros (_ & Hd & Hp & Hc) Hsd Hsp. unfold validate_input. cbn [flat_map].
  now rewrite Hd, Hp, Hc, Hsd, Hsp.
Qed.

Lemma register_succeeds w rq d p :
  registration_request rq d p ->
  isdigit d = true -> 6 <= len d <= 8 -> policy_compliant p ->
  find (has_dni d) (users w) = None ->
  let h := generate_password_hash (salts w (drawn w)) p in
  let row := inserted_row d h "inmaculado" (draw w) in
  exists w1,
    register rq w = (Returned (redirect "index"), w1)
    /\ users w1 = (users w ++ [row])%list
    /\ activities w1
       = (activities w
          ++ [mkActivity (next_rowid (map act_id (activities w)))
                (CURRENT_TIMESTAMP (clock w (S (ticks w)))) (Some d)
                "registro" "exitoso" None])%list
    /\ clock w1 = clock w /\ ticks w1 = S (S (ticks w)) /\ tz w1 = tz w
    /\ hash_checks w1 = hash_checks w.
Proof.
  intros Hrq Hd Hlen Hpol Hfree h row.
  pose proof (validate_input_registration rq d p Hrq
                (proj2 (isdigit_not_blank d Hd)) (proj2 (policy_not_blank p Hpol))) as Hv.
  destruct Hrq as (Hm & Hld & Hlp & Hlc).
  unfold register, form_get_or_empty. rewrite Hm, Hv, Hld, Hlp, Hlc.
  rewrite (validate_dni_ok d Hd Hlen). cbn [negb].
  rewrite String.eqb_refl. cbn [negb].
  rewrite (validate_password_ok p Hpol). cbn [negb].
  unfold bind at 1. unfold find_by_dni, get. rewrite Hfree. cbn [option_map].
  unfold bind at 1. unfold new_password_hash.
  unfold bind at 1.
  rewrite (save_fresh (new_user d (generate_password_hash (salts w (drawn w)) p)) (draw w)
             (generate_password_hash (salts w (drawn w)) p) Hfree eq_refl).
  eexists. split; [reflexivity|]. cbn. repeat split; reflexivity.
Qed.

(** Registration followed by a login, for an identifier that is not
    registered and has no audit row. *)
Lemma register_then_login
    (w : World) (rq_register rq_login : Request) (d p : string) :
  registration_request rq_register d p ->
  method rq_login = POST ->
  lookup "dni" (form rq_login) = Some d ->
  lookup "password" (form rq_login) = Some p ->
  isdigit d = true ->
  6 <= len d <= 8 ->
  policy_compliant p ->
  find (has_dni d) (users w) = None ->
  (forall a, In a (activities w) -> act_user_dni a <> Some d) ->
  exists w1 w2 row,
    register rq_register w = (Returned (redirect "index"), w1)
    /\ login rq_login w1 = (Returned (render_template "success.html"), w2)
    /\ find (has_dni d) (users w2) = Some row
    /\ row_status row = "activo"
    /\ row_login_attempts row = 0
    /\ row_last_login row = Some (isoformat (clock w (4 + ticks w) + tz w))
    /\ user_dni (session w2) = Some d.
Proof.
  intros Hreg Hm Hld Hlp Hd Hlen Hpol Hfree Hclean.
  destruct (register_succeeds w rq_register d p Hreg Hd Hlen Hpol Hfree)
    as (w1 & Hr & Hu & Ha & Hc & Ht & Hz & _).
  set (h := generate_password_hash (salts w (drawn w)) p) in *.
  set (row := inserted_row d h "inmaculado" (draw w)) in *.
  assert (Hrq : login_request rq_login d p).
  { repeat split; try assumption;
      [apply (isdigit_not_blank d Hd) | apply (policy_not_blank p Hpol)]. }
  assert (Hf1 : find (has_dni d) (users w1) = Some row).
  { rewrite Hu, (find_app_new _ _ _ Hfree). cbn. unfold has_dni. cbn.
    now rewrite String.eqb_refl. }
  assert (Hid : row_id row <> 0).
  { cbn. pose proof (next_rowid_positive (map row_id (users w))). cbn in *. lia. }
  assert (Hrules : update_user_status_based_on_rules (create_from_row row) w1
                   = (Returned (create_from_row row),
                      set_users (map (sql_update_user (create_from_row row) h)) (tick (tick w1)))).
  { rewrite rules_without_history.
    - apply (save_existing _ _ row); [exact Hf1 | exact Hid | reflexivity].
    - reflexivity.
    - intros a Hin. rewrite Ha in Hin. apply in_app_or in Hin.
      unfold failed_login_since.
      destruct Hin as [Hin|[<-|[]]].
      + specialize (Hclean a Hin). cbn [dni create_from_row row inserted_row row_dni].
        destruct (act_user_dni a) as [x|]; [|reflexivity]. cbn [opt_str_eqb].
        destruct (String.eqb_spec x d); [subst; now destruct Hclean | reflexivity].
      + cbn [act_action_type]. change (String.eqb "registro" "acceso") with false.
        now rewrite andb_false_r. }
  exists w1.
  set (user := create_from_row row) in *.
  set (w1' := set_users (map (sql_update_user user h)) (tick (tick w1))) in *.
  assert (Hself : has_dni d row = true) by (unfold has_dni; cbn; apply String.eqb_refl).
  assert (Hf1' : find (has_dni (dni user)) (users (note_hash_check h p w1'))
                 = Some (sql_update_user user h row)).
  { cbn [users note_hash_check w1' set_users tick]. rewrite find_update.
    change (dni user) with d. now rewrite Hf1. }
  assert (Hid' : row_id (sql_update_user user h row) <> 0).
  { unfold sql_update_user. destruct (has_dni _ row); exact Hid. }
  pose proof (update_login_attempt_success user (note_hash_check h p w1') _ h
                Hf1' Hid' eq_refl) as Hok.
  cbn zeta in Hok.
  eexists. eexists. split; [exact Hr|].
  split.
  { rewrite (login_reaches_password_check w1 rq_login d p row user w1' h
               Hrq Hf1 Hrules eq_refl eq_refl) by apply generated_truthy.
    replace (check_password_hash h p) with true by (symmetry; apply check_generated).
    unfold bind at 1. rewrite Hok. reflexivity. }
  cbn [users set_users set_activities tick note_hash_check session set_session w1'].
  rewrite !find_update, Hf1. cbn [option_map].
  split; [reflexivity|].
  rewrite (update_hit user h row) by exact Hself.
  rewrite update_hit by exact Hself.
  cbn [row_status row_login_attempts row_last_login status login_attempts last_login
       on_success clock ticks tz note_hash_check set_users tick w1'].
  rewrite Hc, Ht, Hz. repeat split.
Qed.

(** C5. In every world the service can be in, for an identifier of 6 to
    8 digits that is not registered yet and a password that complies
    with the policy, [register] followed by [login] with the same
    identifier and password succeeds: the account's row ends with status
    ['activo'], [login_attempts] 0 and [last_login] the clock reading
    that [update_login_attempt] took during this login. *)
Theorem register_then_login_succeeds
    (w : World) (rq_register rq_login : Request) (d p : string) :
  reachable w ->
  registration_request rq_register d p ->
  method rq_login = POST ->
  lookup "dni" (form rq_login) = Some d ->
  lookup "password" (form rq_login) = Some p ->
  isdigit d = true ->
  6 <= len d <= 8 ->
  policy_compliant p ->
  find (has_dni d) (users w) = None ->
  exists w1 w2 row,
    register rq_register w = (Returned (redirect "index"), w1)
    /\ login rq_login w1 = (Returned (render_template "success.html"), w2)
    /\ find (has_dni d) (users w2) = Some row
    /\ row_status row = "activo"
    /\ row_login_attempts row = 0
    /\ row_last_login row = Some (isoformat (clock w (4 + ticks w) + tz w))
    /\ user_dni (session w2) = Some d.
Proof.
  intros Hreach Hreg Hm Hld Hlp Hd Hlen Hpol Hfree.
  apply (register_then_login w rq_register rq_login d p); try assumption.
  now apply (reachable_side_conditions w d Hreach).
Qed.

(** C6. A registration whose password breaks a rule of the policy (the
    length, the uppercase letter or the special character) is answered
    with the registration page and at least one ['error'] message; no
    row is inserted, no audit row is written, and nothing but the pending
    flash messages of the session changes. *)
Theorem register_rejects_bad_password (w : World) (rq : Request) (password : string) :
  method rq = POST ->
  lookup "password" (form rq) = Some password ->
  len password < 8 \/ 12 < len password
  \/ has_upper password = false \/ has_special password = false ->
  exists errors,
    errors <> []
    /\ register rq w = (Returned (render_template "register.html"), flashed "error" errors w)
    /\ users (flashed "error" errors w) = users w
    /\ activities (flashed "error" errors w) = activities w.
Proof.
  intros Hm Hp Hbad.
  assert (Hrej : fst (validate_password password) = false).
  { apply validate_password_rejects. intros (Hlen & Hup & Hsp).
    destruct Hbad as [H|[H|[H|H]]]; try lia; congruence. }
  unfold register. rewrite Hm.
  destruct (validate_input (form rq) ["dni"; "password"; "confirm_password"])
    as [|e errors] eqn:Hv.
  - unfold form_get_or_empty. rewrite Hp.
    destruct (validate_dni _) as [ok_dni dni_message].
    destruct ok_dni; cbn [negb].
    + destruct (String.eqb password _); cbn [negb].
      * destruct (validate_password password) as [ok message]. cbn in Hrej. subst ok.
        cbn [negb]. exists [message]. split; [discriminate|].
        unfold bind. rewrite flash_flashed. repeat split.
      * eexists [_]. split; [discriminate|].
        unfold bind. rewrite flash_flashed. repeat split.
    + exists [dni_message]. split; [discriminate|].
      unfold bind. rewrite flash_flashed. repeat split.
  - exists (e :: errors). split; [discriminate|].
    unfold bind. rewrite for_each_flash. repeat split.
Qed.

(** ** The administrator's password *)

Lemma admin_login_checks_constant (w : World) (rq : Request) (p : string) :
  method rq = POST ->
  lookup "password" (form rq) = Some p ->
  truthy p = true ->
  fst (admin_login rq w) = Returned (redirect "admin_dashboard") <-> p = ADMIN_PASSWORD.
Proof.
  intros Hm Hp Ht. unfold admin_login, form_get_or_empty. rewrite Hm, Hp, Ht. cbn [negb].
  destruct (String.eqb_spec p ADMIN_PASSWORD) as [->|Hne].
  - split; [reflexivity|]. intros _.
    unfold bind, session_set_is_admin, session_set_user_dni, modify, log_as_admin, bind,
      find_by_dni, get. cbn.
    destruct (find (has_dni "admin") (users w)); reflexivity.
  - split; [|contradiction]. unfold bind, flash, modify; cbn. discriminate.
Qed.

(** C10. [change_admin_password] answers with success and changes no
    credential: table [users] (hence every [password_hash]) is left as it
    was, no salt is drawn and the session is untouched; the one thing it
    writes is an audit row (on behalf of the row ['admin'], when there is
    one); and afterwards [admin_login] still accepts exactly the constant
    [ADMIN_PASSWORD]. *)
Theorem change_admin_password_changes_nothing
    (w : World) (rq : Request) (new_password : string) :
  is_admin (session w) = true ->
  lookup "current_password" (form rq) = Some ADMIN_PASSWORD ->
  lookup "new_password" (form rq) = Some new_password ->
  lookup "confirm_password" (form rq) = Some new_password ->
  policy_compliant new_password ->
  exists w',
    change_admin_password rq w
    = (Returned (jsonify_success (Some "Contraseña de administrador actualizada")), w')
    /\ users w' = users w
    /\ activities w'
       = match find (has_dni "admin") (users w) with
         | Some _ => (activities w ++ [admin_password_event w])%list
         | None => activities w
         end
    /\ session w' = session w
    /\ drawn w' = drawn w
    /\ (forall (rq' : Request) (p : string),
          method rq' = POST ->
          lookup "password" (form rq') = Some p ->
          truthy p = true ->
          fst (admin_login rq' w') = Returned (redirect "admin_dashboard")
          <-> p = ADMIN_PASSWORD).
Proof.
  intros Hadm Hcur Hnew Hconf Hpol.
  assert (Htr : truthy new_password = true).
  { destruct new_password; [|reflexivity]. destruct Hpol as [[H _] _]. cbv in H. now destruct H. }
  unfold change_admin_password, form_get.
  unfold bind at 1. unfold get at 1. rewrite Hadm. cbn [negb].
  rewrite Hcur, Hnew, Hconf. cbn [truthy_opt]. rewrite Htr.
  change (truthy ADMIN_PASSWORD) with true. cbn [andb negb].
  rewrite !String.eqb_refl. cbn [negb].
  rewrite (validate_password_ok _ Hpol). cbn [negb].
  unfold log_as_admin, bind, find_by_dni, get.
  destruct (find (has_dni "admin") (users w)) as [admin_row|] eqn:Hrow; cbn.
  - eexists. split; [reflexivity|]. cbn.
    rewrite (find_has_dni _ _ _ Hrow).
    split; [reflexivity|]. split; [reflexivity|]. split; [now destruct (session w)|].
    split; [reflexivity|]. intros; now apply admin_login_checks_constant.
  - eexists. split; [reflexivity|].
    do 4 (split; [reflexivity|]). intros; now apply admin_login_checks_constant.
Qed.

End HandlerProperties.

(* ================================================================= *)
(** * Further properties of the service *)

(** ** Invariants that every request keeps

    An invariant of the two tables that survives an UPDATE of [save], its
    INSERT and the INSERT of [log_activity] survives every handler. *)

Section EveryRequest.

Context {hasher : PasswordHasher}.

Variable I : World -> Prop.

Hypothesis I_reads_database : reads_database I.

Hypothesis I_update :
  forall self h w, I w -> I (set_users (map (sql_update_user self h)) w).

Hypothesis I_insert : forall d h s, keeps I (sql_insert_user d h s).

Hypothesis I_log :
  forall (stamp : Z) (who action_type result : string) (details : option string) w,
    I w ->
    I (set_activities
         (fun l => l ++ [mkActivity (next_rowid (map act_id l)) (CURRENT_TIMESTAMP stamp)
                           (Some who) action_type result details])%list w).

Ltac keeps_all :=
  repeat first
    [ keeps_step
    | now apply keeps_datetime_now
    | now apply keeps_sqlite_now
    | now apply keeps_flash
    | now apply keeps_session_set_user_dni
    | now apply keeps_session_set_is_admin
    | now apply keeps_session_clear
    | now apply keeps_check_consecutive
    | now apply check_password_keeps
    | assumption
    | match goal with H : forall _, keeps I _ |- _ => apply H end
    | match goal with H : forall _ _, keeps I _ |- _ => apply H end
    | match goal with H : forall _ _ _, keeps I _ |- _ => apply H end
    | match goal with H : forall _ _ _ _, keeps I _ |- _ => apply H end ].

Lemma every_save self : keeps I (save self).
Proof.
  unfold save. keeps_all. apply keeps_modify. intros w. apply I_update.
Qed.

Lemma every_log_activity self a r details : keeps I (log_activity self a r details).
Proof.
  unfold log_activity. keeps_all. apply keeps_modify. intros w. apply I_log.
Qed.

Lemma every_new_password_hash p : keeps I (new_password_hash p).
Proof. intros w Hw. cbn. now apply (I_reads_database w). Qed.

Lemma every_rules user : keeps I (update_user_status_based_on_rules user).
Proof.
  pose proof every_save. unfold update_user_status_based_on_rules. keeps_all.
Qed.

Lemma every_update_login_attempt user success :
  keeps I (update_login_attempt user success).
Proof.
  pose proof every_save. pose proof every_log_activity.
  unfold update_login_attempt. keeps_all.
Qed.

Lemma every_log_as_admin a r details : keeps I (log_as_admin a r details).
Proof. pose proof every_log_activity. unfold log_as_admin. keeps_all. Qed.

Lemma every_login rq : keeps I (login rq).
Proof.
  pose proof every_rules. pose proof every_update_login_attempt.
  pose proof every_log_activity.
  unfold login. keeps_all.
Qed.

Lemma every_register rq : keeps I (register rq).
Proof.
  pose proof every_save. pose proof every_log_activity. pose proof every_new_password_hash.
  unfold register. keeps_all.
Qed.

Lemma every_logout : keeps I logout.
Proof. pose proof every_log_activity. unfold logout. keeps_all. Qed.

Lemma every_admin_login rq : keeps I (admin_login rq).
Proof. pose proof every_log_as_admin. unfold admin_login. keeps_all. Qed.

Lemma every_change_user_status rq : keeps I (change_user_status rq).
Proof.
  pose proof every_log_as_admin. pose proof every_save.
  unfold change_user_status. keeps_all.
Qed.

Lemma every_change_user_password rq : keeps I (change_user_password rq).
Proof.
  pose proof every_log_as_admin. pose proof every_save. pose proof every_new_password_hash.
  unfold change_user_password. keeps_all.
Qed.

Lemma every_change_admin_password rq : keeps I (change_admin_password rq).
Proof. pose proof every_log_as_admin. unfold change_admin_password. keeps_all. Qed.

Lemma every_request_step w w' : I w -> request_step w w' -> I w'.
Proof.
  intros Hw [client op | client rq].
  - apply keeps_run; [|now apply (I_reads_database w)].
    destruct op; cbn [perform].
    + apply every_login.
    + apply every_register.
    + apply every_logout.
    + apply every_admin_login.
    + apply every_change_user_password.
    + apply every_change_admin_password.
  - apply keeps_run; [|now apply (I_reads_database w)].
    apply every_change_user_status.
Qed.

Lemma every_request_steps w w' : I w -> request_steps w w' -> I w'.
Proof.
  intros Hw Hs. induction Hs as [|w1 w2 _ IH Hstep]; [exact Hw|].
  exact (every_request_step _ _ IH Hstep).
Qed.

End EveryRequest.

(** ** What requests never undo *)

Lemma sql_insert_user_cases d h s w :
  (existsb (has_dni d) (users w) = true
   /\ sql_insert_user d h s w = (Raised IntegrityError, tick w))
  \/ (existsb (has_dni d) (users w) = false
      /\ sql_insert_user d h s w
         = (Returned (next_rowid (map row_id (users w))),
            set_users (fun l => l ++ [inserted_row d h s w])%list (tick w))).
Proof.
  unfold sql_insert_user, bind, sqlite_now, get. cbn [users tick].
  destruct (existsb (has_dni d) (users w)); [left|right]; split; reflexivity.
Qed.

Lemma sql_insert_user_keeps I d h s :
  (forall w, I w -> I (tick w)) ->
  (forall w, I w -> existsb (has_dni d) (users w) = false ->
             I (set_users (fun l => l ++ [inserted_row d h s w])%list (tick w))) ->
  keeps I (sql_insert_user d h s).
Proof.
  intros Htick Hins w Hw.
  destruct (sql_insert_user_cases d h s w) as [[_ ->]|[Hfree ->]]; auto.
Qed.

Lemma identity_update self h l :
  map identity (map (sql_update_user self h) l) = map identity l.
Proof.
  rewrite map_map. apply map_ext. intros r. unfold sql_update_user.
  now destruct (has_dni (dni self) r).
Qed.

Lemma next_rowid_above ids x : In x ids -> x < next_rowid ids.
Proof.
  unfold next_rowid. induction ids as [|y ids IH]; [intros []|].
  cbn [fold_right]. intros [->|H]; [lia|]. specialize (IH H). lia.
Qed.

Lemma NoDup_snoc {A} (l : list A) x : NoDup l -> ~ In x l -> NoDup (l ++ [x]).
Proof.
  intros Hl Hx. induction Hl as [|y l Hy Hl IH]; cbn.
  - constructor; [intros []|constructor].
  - constructor.
    + intros Hin. apply in_app_or in Hin. destruct Hin as [Hin|[<-|[]]]; [auto|].
      apply Hx. now left.
    + apply IH. intros Hin. apply Hx. now right.
Qed.

Lemma existsb_has_dni_false d l :
  existsb (has_dni d) l = false -> ~ In d (map row_dni l).
Proof.
  intros H Hin. apply in_map_iff in Hin. destruct Hin as (r & Hr & Hin).
  assert (existsb (has_dni d) l = true); [|congruence].
  apply existsb_exists. exists r. split; [exact Hin|].
  unfold has_dni. rewrite Hr. apply String.eqb_refl.
Qed.

Section Monotone.

Context {hasher : PasswordHasher}.

(** X1. The audit log is append-only: through any sequence of requests,
    of any kind and of any clients, the rows that were in table
    [activities] stay as they are and where they are; rows are only
    added after them. *)
Theorem audit_log_is_append_only (w w' : World) :
  request_steps w w' -> audit_extends w w'.
Proof.
  apply (every_request_steps (audit_extends w)).
  - intros a b _ Ha (l & Hl). exists l. now rewrite Ha.
  - intros self h a H. exact H.
  - intros d h s. apply sql_insert_user_keeps; intros a H; auto.
  - intros stamp who action_type result details a (l & Hl).
    exists (l ++ [mkActivity (next_rowid (map act_id (activities a)))
                    (CURRENT_TIMESTAMP stamp) (Some who) action_type result details])%list.
    cbn [activities set_activities]. rewrite Hl at 1. now rewrite app_assoc.
  - exists []. now rewrite app_nil_r.
Qed.

(** X2. Accounts are never deleted and keep their identity: through any
    sequence of requests every row of table [users] stays at its place
    with the same rowid, identifier and creation time; rows are only
    added after them. *)
Theorem accounts_keep_their_identity (w w' : World) :
  request_steps w w' -> accounts_extend w w'.
Proof.
  apply (every_request_steps (accounts_extend w)).
  - intros a b Hu _ (l & Hl). exists l. now rewrite Hu.
  - intros self h a (l & Hl). exists l. cbn [users set_users].
    now rewrite identity_update.
  - intros d h s. apply sql_insert_user_keeps; [intros a H; exact H|].
    intros a (l & Hl) _. exists (l ++ [identity (inserted_row d h s a)])%list.
    cbn [users set_users tick]. rewrite map_app, Hl. cbn [map]. now rewrite app_assoc.
  - intros stamp who action_type result details a H. exact H.
  - exists []. now rewrite app_nil_r.
Qed.

Lemma unique_accounts_kept (w w' : World) :
  unique_accounts w -> request_steps w w' -> unique_accounts w'.
Proof.
  apply (every_request_steps unique_accounts).
  - intros a b Hu _ H. unfold unique_accounts in *. now rewrite Hu.
  - intros self h a [H1 H2]. unfold unique_accounts. cbn [users set_users].
    assert (E : forall (B : Type) (f : UserRow -> B),
                (forall r, f (sql_update_user self h r) = f r) ->
                forall l, map f (map (sql_update_user self h) l) = map f l).
    { intros B f Hf l. rewrite map_map. apply map_ext, Hf. }
    rewrite (E _ row_dni), (E _ row_id); [split; assumption| |];
      intros r; unfold sql_update_user; now destruct (has_dni (dni self) r).
  - intros d h s. apply sql_insert_user_keeps; [intros a H; exact H|].
    intros a [H1 H2] Hfree. unfold unique_accounts. cbn [users set_users tick].
    rewrite !map_app. cbn [map row_dni row_id inserted_row]. split.
    + apply NoDup_snoc; [exact H1|]. now apply existsb_has_dni_false.
    + apply NoDup_snoc; [exact H2|]. intros Hin.
      apply next_rowid_above in Hin. lia.
  - intros stamp who action_type result details a H. exact H.
Qed.

Lemma reachable_request_steps (w : World) :
  reachable w -> exists w0, users w0 = [] /\ activities w0 = []
                            /\ request_steps (snd (init_db w0)) w.
Proof.
  induction 1 as [w0 Hu Ha | w client op _ (w0 & Hu & Ha & IH)
                 | w client rq _ (w0 & Hu & Ha & IH)].
  - exists w0. repeat split; auto. constructor.
  - exists w0. repeat split; auto. eapply request_steps_more; [exact IH|constructor].
  - exists w0. repeat split; auto. eapply request_steps_more; [exact IH|constructor].
Qed.

(** X3. In every world the service can be in, an identifier has at most
    one row in table [users], and so has a rowid. *)
Theorem identifiers_are_unique (w : World) : reachable w -> unique_accounts w.
Proof.
  intros H. destruct (reachable_request_steps w H) as (w0 & Hu & Ha & Hs).
  apply (unique_accounts_kept _ _) in Hs; [exact Hs|].
  destruct w0 as [us acts s c t z sl dr hc]. cbn in Hu, Ha. subst us acts.
  unfold unique_accounts. cbn. split; (constructor; [intros []|constructor]).
Qed.

(** X4. In every world the service can be in, the row ['admin'] exists,
    and every audit row names an identifier that has a row in table
    [users]. *)
Theorem audit_rows_name_registered_accounts (w : World) :
  reachable w ->
  (exists admin_row, find (has_dni "admin") (users w) = Some admin_row)
  /\ (forall a, In a (activities w) ->
        exists d row,
          act_user_dni a = Some d /\ find (has_dni d) (users w) = Some row).
Proof.
  intros H. apply reachable_well_formed in H. destruct H as (_ & Hadm & Haud).
  unfold registered in *. split.
  - destruct (find (has_dni "admin") (users w)) as [r|]; [eauto|now destruct Hadm].
  - intros a Ha. destruct (Haud a Ha) as (d & Hd & Hreg).
    destruct (find (has_dni d) (users w)) as [r|] eqn:E; [|now destruct Hreg].
    exists d, r. now rewrite E.
Qed.

(** X5. The totals of [get_system_stats] never decrease, whatever
    requests are served in between. *)
Theorem system_stats_never_decrease (w w' : World) :
  request_steps w w' ->
  exists total_users total_activities total_users' total_activities',
    fst (get_system_stats w) = Returned (total_users, total_activities)
    /\ fst (get_system_stats w') = Returned (total_users', total_activities')
    /\ total_users <= total_users' /\ total_activities <= total_activities'.
Proof.
  intros Hs. do 4 eexists. split; [reflexivity|]. split; [reflexivity|].
  revert Hs.
  apply (every_request_steps
           (fun x => Z.of_nat (List.length (users w)) <= Z.of_nat (List.length (users x))
                     /\ Z.of_nat (List.length (activities w))
                        <= Z.of_nat (List.length (activities x)))).
  - intros a b Hu Ha H. now rewrite Hu, Ha.
  - intros self h a H. cbn [users activities set_users]. now rewrite length_map.
  - intros d h s. apply sql_insert_user_keeps; [intros a H; exact H|].
    intros a H _. cbn [users activities set_users tick]. rewrite length_app. cbn. lia.
  - intros stamp who action_type result details a H.
    cbn [users activities set_activities]. rewrite length_app. cbn. lia.
  - lia.
Qed.

End Monotone.

(** ** [User.save] and [User.find_by_dni] *)

Lemma NoDup_map_injective {A B} (f : A -> B) (l : list A) a b :
  NoDup (map f l) -> In a l -> In b l -> f a = f b -> a = b.
Proof.
  induction l as [|x l IH]; [intros _ []|]. cbn [map]. intros Hnd Ha Hb Hf.
  apply NoDup_cons_iff in Hnd. destruct Hnd as [Hx Hl].
  destruct Ha as [->|Ha], Hb as [->|Hb]; auto.
  - destruct Hx. rewrite Hf. now apply in_map.
  - destruct Hx. rewrite <- Hf. now apply in_map.
Qed.


(** X7. Saving a user whose identifier has no row inserts one with the
    identifier, the password hash and the status of the object only:
    [last_login] and [last_attempt] are NULL and [login_attempts] is 0
    whatever the object holds. The object gets the new rowid, which is
    not 0 and is the rowid of no other row; the rows that were there are
    as before. *)
Theorem save_then_find_new (self : User) (w : World) (h : string) :
  find (has_dni (dni self)) (users w) = None ->
  password_hash self = Some h ->
  exists w' rowid,
    save self w = (Returned (set_id self rowid), w')
    /\ rowid <> 0
    /\ ~ In rowid (map row_id (users w))
    /\ find (has_dni (dni self)) (users w')
       = Some (mkUserRow rowid (dni self) h (status self)
                         (CURRENT_TIMESTAMP (clock w (ticks w))) None 0 None)
    /\ (forall d row, find (has_dni d) (users w) = Some row ->
          find (has_dni d) (users w') = Some row)
    /\ activities w' = activities w.
Proof.
  intros Hf Hh. rewrite (save_fresh self w h Hf Hh).
  eexists. eexists. split; [reflexivity|].
  cbn [users set_users tick activities].
  split; [pose proof (next_rowid_positive (map row_id (users w))); lia|].
  split; [intros Hin; apply next_rowid_above in Hin; lia|].
  split; [|split].
  - rewrite (find_app_new _ _ _ Hf). cbn [find]. unfold has_dni at 1.
    cbn [row_dni inserted_row]. now rewrite String.eqb_refl.
  - intros d row Hd. now apply find_app_old.
  - reflexivity.
Qed.

(** X8. When [save] is refused and when it goes through, for an object
    whose counter SQLite can store (64 bits). [save] raises
    [IntegrityError], and neither table has changed, when the object has
    no password hash (the column is NOT NULL) or when the row of its
    identifier has rowid 0 (the object is taken for a new one, and the
    INSERT finds the identifier taken); in every other case it returns. *)
Theorem save_fails_without_writing (self : User) (w : World) :
  - 2 ^ 63 <= login_attempts self < 2 ^ 63 ->
  let refused :=
    password_hash self = None
    \/ exists row, find (has_dni (dni self)) (users w) = Some row /\ row_id row = 0 in
  (refused ->
   exists w',
     save self w = (Raised IntegrityError, w')
     /\ users w' = users w /\ activities w' = activities w)
  /\ (~ refused -> exists u w', save self w = (Returned u, w')).
Proof.
  intros _ refused. subst refused.
  destruct (password_hash self) as [h|] eqn:Hh.
  2:{ split; [|intros H; destruct H; now left].
      intros _. unfold save. unfold bind at 1. unfold find_by_dni, get. rewrite Hh.
      eexists. split; [reflexivity|]. split; reflexivity. }
  destruct (find (has_dni (dni self)) (users w)) as [row|] eqn:Hf.
  - destruct (Z.eq_dec (row_id row) 0) as [Hz|Hz].
    + split; [|intros H; destruct H; right; exists row; auto].
      intros _. unfold save. unfold bind at 1. unfold find_by_dni, get. rewrite Hh, Hf.
      cbn [option_map has_row create_from_row id]. rewrite Hz. cbn [Z.eqb negb].
      assert (Htaken : existsb (has_dni (dni self)) (users w) = true).
      { apply existsb_exists. exists row. apply find_some in Hf. exact Hf. }
      unfold bind.
      destruct (sql_insert_user_cases (dni self) h (status self) w) as [[_ E]|[Hfree _]];
        [|congruence].
      rewrite E. eexists. split; [reflexivity|]. split; reflexivity.
    + split.
      * intros [H|(row' & Hrow & Hz')]; [discriminate|].
        injection Hrow as <-. contradiction.
      * intros _. rewrite (save_existing self w row h Hf Hz Hh). eauto.
  - split.
    + intros [H|(row' & Hrow & _)]; discriminate.
    + intros _. rewrite (save_fresh self w h Hf Hh). eauto.
Qed.

(** X9. The rule evaluation changes nothing but the status of the
    account it evaluates: with unique identifiers, after
    [update_user_status_based_on_rules] on a loaded user the table is the
    old one with the returned status written in the row of that account
    (no counter, timestamp, hash or other row changes), the returned
    status is the old one, ['pausado'] or ['alertado'], and the audit log
    is as before. *)
Theorem rules_change_only_the_status
    (w w' : World) (d : string) (row : UserRow) (user' : User) :
  NoDup (map row_dni (users w)) ->
  find (has_dni d) (users w) = Some row ->
  row_id row <> 0 ->
  update_user_status_based_on_rules (create_from_row row) w = (Returned user', w') ->
  users w' = map (fun r => if has_dni d r then with_status r (status user') else r) (users w)
  /\ (status user' = row_status row \/ status user' = "pausado"
      \/ status user' = "alertado")
  /\ activities w' = activities w.
Proof.
  intros Hnd Hf Hid Hrun.
  pose proof (find_has_dni _ _ _ Hf) as Hd.
  assert (Hin : In row (users w)) by (apply find_some in Hf; tauto).
  assert (Hsave : forall s w0,
            users w0 = users w -> activities w0 = activities w ->
            save (set_status (create_from_row row) s) w0 = (Returned user', w') ->
            users w' = map (fun r => if has_dni d r then with_status r s else r) (users w)
            /\ status user' = s /\ activities w' = activities w).
  { intros s w0 Hu Ha Hs.
    rewrite (save_existing _ w0 row (row_password_hash row)) in Hs;
      [| cbn; rewrite Hu, Hd; exact Hf | exact Hid | reflexivity].
    injection Hs as <- <-. cbn [users activities set_users status set_status].
    rewrite Hu, Ha. split; [|auto]. apply map_ext_in. intros r Hr.
    unfold sql_update_user. cbn [dni set_status create_from_row]. rewrite Hd.
    destruct (has_dni d r) eqn:E; [|reflexivity].
    apply String.eqb_eq in E.
    assert (r = row) as -> by (apply (NoDup_map_injective row_dni (users w)); congruence).
    reflexivity. }
  assert (Hself : set_status (create_from_row row) (row_status row) = create_from_row row)
    by reflexivity.
  unfold update_user_status_based_on_rules in Hrun.
  unfold bind at 1 in Hrun. unfold datetime_now in Hrun. unfold bind at 1 in Hrun.
  destruct (ts_truthy (last_login (create_from_row row))).
  - unfold try_except, bind at 1, lift in Hrun.
    destruct (fromisoformat_opt _) as [t|e].
    + destruct (timedelta_days 180 <? _).
      * unfold ret at 1 in Hrun. destruct (Hsave "pausado" (tick w) eq_refl eq_refl Hrun)
          as (H1 & H2 & H3). rewrite H2. auto.
      * unfold ret at 1 in Hrun. rewrite <- Hself in Hrun.
        destruct (Hsave _ (tick w) eq_refl eq_refl Hrun) as (H1 & H2 & H3).
        rewrite H2. auto.
    + destruct (exn_eqb ValueError e); [|discriminate].
      unfold ret at 1 in Hrun. rewrite <- Hself in Hrun.
      destruct (Hsave _ (tick w) eq_refl eq_refl Hrun) as (H1 & H2 & H3).
      rewrite H2. auto.
  - unfold bind at 1 in Hrun.
    pose proof (keeps_run (fun x => users x = users w /\ activities x = activities w)
                  (check_consecutive_failed_logins (dni (create_from_row row)) 5) (tick w))
      as Hk.
    destruct (check_consecutive_failed_logins _ 5 (tick w)) as [[flagged|e] w1];
      [|discriminate].
    cbn [snd] in Hk. destruct Hk as [Hu Ha]; [| split; reflexivity |].
    { apply keeps_check_consecutive. intros a b Hu Ha [H1 H2]. split; congruence. }
    destruct flagged.
    + unfold ret at 1 in Hrun. destruct (Hsave "alertado" w1 Hu Ha Hrun) as (H1 & H2 & H3).
      rewrite H2. auto.
    + unfold ret at 1 in Hrun. rewrite <- Hself in Hrun.
      destruct (Hsave _ w1 Hu Ha Hrun) as (H1 & H2 & H3). rewrite H2. auto.
Qed.

(** ** [validate_input] *)

Lemma rstrip_only_space s :
  existsb nonspace (chars s) = false -> rstrip s = "".
Proof.
  induction s as [|c r IH]; cbn [chars list_ascii_of_string existsb rstrip]; [reflexivity|].
  intros H. apply orb_false_iff in H. destruct H as [Hc Hr].
  rewrite (IH Hr). unfold nonspace in Hc. apply negb_false_iff in Hc.
  now rewrite Hc.
Qed.

Lemma lstrip_only_space s :
  existsb nonspace (chars s) = false -> existsb nonspace (chars (lstrip s)) = false.
Proof.
  induction s as [|c r IH]; cbn [chars list_ascii_of_string existsb lstrip]; [reflexivity|].
  intros H. apply orb_false_iff in H. destruct H as [Hc Hr].
  unfold nonspace in Hc. apply negb_false_iff in Hc. rewrite Hc. now apply IH.
Qed.

Lemma strip_truthy s : truthy (strip s) = existsb nonspace (chars s).
Proof.
  destruct (existsb nonspace (chars s)) eqn:E.
  - now apply strip_nonspace.
  - unfold strip. now rewrite (rstrip_only_space _ (lstrip_only_space _ E)).
Qed.

Lemma validate_input_empty data required_fields :
  validate_input data required_fields = [] ->
  forall field, In field required_fields ->
    exists v, lookup field data = Some v /\ truthy (strip v) = true.
Proof.
  unfold validate_input. induction required_fields as [|f fields IH]; cbn [flat_map].
  - intros _ field [].
  - intros H. apply app_eq_nil in H. destruct H as [Hf Hrest].
    intros field [<-|Hin]; [|now apply IH].
    destruct (lookup f data) as [v|]; [|discriminate].
    exists v. split; [reflexivity|].
    destruct (truthy (strip v)); [reflexivity|discriminate].
Qed.

(** X10. [validate_input] reports nothing exactly when every required
    field is in the form with a value that has a character other than
    white space; a field that is missing, empty or blank is an error. *)
Theorem validate_input_accepts_filled_fields
    (data : list (string * string)) (required_fields : list string) :
  validate_input data required_fields = [] <->
  forall field, In field required_fields ->
    exists v, lookup field data = Some v /\ existsb nonspace (chars v) = true.
Proof.
  split.
  - intros H field Hin.
    destruct (validate_input_empty data required_fields H field Hin) as (v & Hv & Ht).
    exists v. split; [exact Hv|]. now rewrite <- strip_truthy.
  - unfold validate_input. induction required_fields as [|f fields IH]; cbn [flat_map];
      [reflexivity|].
    intros H. destruct (H f (or_introl eq_refl)) as (v & -> & Hv).
    rewrite strip_truthy, Hv. cbn [app]. apply IH.
    intros field Hin. apply H. now right.
Qed.

Lemma classic_policy p : policy_compliant p \/ ~ policy_compliant p.
Proof.
  unfold policy_compliant.
  destruct (Z_le_dec 8 (len p)), (Z_le_dec (len p) 12),
    (has_upper p), (has_special p); try (left; repeat split; auto; fail);
    right; intros ((H1 & H2) & H3 & H4); try contradiction; discriminate.
Qed.

Section RequestOutcomes.

Context {hasher : PasswordHasher}.

(** ** [register], in full *)

(** X11. [register] never raises and writes only for a complete, valid
    and new registration: either it answers with the registration page and
    both tables are as before, or it redirects to the index and then the
    form held an identifier that [validate_dni] accepts and that had no
    row, a password that complies with the policy, typed twice, and
    exactly one row (a rowid that is not 0 and is the rowid of no other
    row, status ['inmaculado'], the hash of that password, no login yet,
    counter 0) and one audit row ['registro'/'exitoso'] were added. *)
Theorem register_writes_only_valid_accounts (rq : Request) (w : World) :
  exists response w',
    register rq w = (Returned response, w')
    /\ ((response = render_template "register.html"
         /\ users w' = users w /\ activities w' = activities w)
        \/ (response = redirect "index"
            /\ exists d p rowid,
                 registration_request rq d p
                 /\ fst (validate_dni d) = true
                 /\ policy_compliant p
                 /\ find (has_dni d) (users w) = None
                 /\ rowid <> 0
                 /\ ~ In rowid (map row_id (users w))
                 /\ users w'
                    = (users w
                       ++ [mkUserRow rowid d
                             (generate_password_hash (salts w (drawn w)) p)
                             "inmaculado" (CURRENT_TIMESTAMP (clock w (ticks w)))
                             None 0 None])%list
                 /\ activities w'
                    = (activities w
                       ++ [mkActivity (next_rowid (map act_id (activities w)))
                             (CURRENT_TIMESTAMP (clock w (S (ticks w)))) (Some d)
                             "registro" "exitoso" None])%list)).
Proof.
  unfold register. destruct (method rq) eqn:Hm.
  { do 2 eexists. split; [reflexivity|]. left. auto. }
  destruct (validate_input (form rq) ["dni"; "password"; "confirm_password"])
    as [|e errors] eqn:Hv.
  2:{ unfold bind. rewrite for_each_flash. do 2 eexists. split; [reflexivity|]. left. auto. }
  pose proof (validate_input_empty _ _ Hv) as Hfields.
  destruct (Hfields "dni") as (d & Hd & _); [cbn; auto|].
  destruct (Hfields "password") as (p & Hp & _); [cbn; auto|].
  destruct (Hfields "confirm_password") as (c & Hc & _); [cbn; auto|].
  unfold form_get_or_empty. rewrite Hd, Hp, Hc.
  destruct (validate_dni d) as [ok_dni dni_message] eqn:Hvd.
  destruct ok_dni; cbn [negb].
  2:{ unfold bind. rewrite flash_flashed. do 2 eexists. split; [reflexivity|]. left. auto. }
  destruct (String.eqb_spec p c) as [<-|Hne]; cbn [negb].
  2:{ unfold bind. rewrite flash_flashed. do 2 eexists. split; [reflexivity|]. left. auto. }
  destruct (validate_password p) as [ok message] eqn:Hvp.
  destruct ok; cbn [negb].
  2:{ unfold bind. rewrite flash_flashed. do 2 eexists. split; [reflexivity|]. left. auto. }
  unfold bind at 1. unfold find_by_dni, get.
  destruct (find (has_dni d) (users w)) as [row|] eqn:Hf; cbn [option_map].
  { unfold bind. rewrite flash_flashed. do 2 eexists. split; [reflexivity|]. left. auto. }
  unfold bind at 1. unfold new_password_hash. unfold bind at 1.
  rewrite (save_fresh (new_user d (generate_password_hash (salts w (drawn w)) p)) (draw w)
             (generate_password_hash (salts w (drawn w)) p) Hf eq_refl).
  do 2 eexists. split; [reflexivity|]. right. split; [reflexivity|].
  exists d, p, (next_rowid (map row_id (users w))). split; [repeat split; assumption|].
  split; [now rewrite Hvd|]. split.
  { destruct (classic_policy p) as [H|H]; [exact H|].
    apply validate_password_rejects in H. rewrite Hvp in H. discriminate. }
  split; [exact Hf|].
  split; [pose proof (next_rowid_positive (map row_id (users w))); lia|].
  split; [intros Hin; apply next_rowid_above in Hin; lia|].
  split; reflexivity.
Qed.

(** ** [login], in full *)

(** X12. A login that names no registered account leaves no trace: for
    a GET, an empty or missing identifier or an identifier without a row,
    [login] answers with the login page, both tables are as before (no
    audit row is written for the attempt), nobody is logged in and no
    hash is checked. *)
Theorem login_without_account_leaves_no_trace (rq : Request) (w : World) :
  find (has_dni (form_get_or_empty rq "dni")) (users w) = None ->
  exists w',
    login rq w = (Returned (render_template "login.html"), w')
    /\ users w' = users w
    /\ activities w' = activities w
    /\ user_dni (session w') = user_dni (session w)
    /\ is_admin (session w') = is_admin (session w)
    /\ hash_checks w' = hash_checks w.
Proof.
  intros Hf. unfold login. destruct (method rq).
  { eexists. split; [reflexivity|]. repeat split; reflexivity. }
  destruct (negb (truthy (form_get_or_empty rq "dni"))
            || negb (truthy (form_get_or_empty rq "password"))).
  { unfold bind. rewrite flash_flashed. eexists. split; [reflexivity|].
    repeat split; reflexivity. }
  unfold bind at 1. unfold find_by_dni, get. rewrite Hf. cbn [option_map].
  unfold bind. rewrite flash_flashed. eexists. split; [reflexivity|].
  repeat split; reflexivity.
Qed.

(** What the rule evaluation returns and leaves in table [users], for a
    user that was loaded from its row. *)
Lemma rules_outcome (w w1 : World) (d : string) (row : UserRow) (user : User) :
  find (has_dni d) (users w) = Some row ->
  row_id row <> 0 ->
  update_user_status_based_on_rules (create_from_row row) w = (Returned user, w1) ->
  user = set_status (create_from_row row) (status user)
  /\ find (has_dni d) (users w1) = Some (with_status row (status user))
  /\ (forall d', d' <> d -> find (has_dni d') (users w1) = find (has_dni d') (users w))
  /\ activities w1 = activities w
  /\ clock w1 = clock w /\ tz w1 = tz w.
Proof.
  intros Hf Hid Hrun.
  pose proof (find_has_dni _ _ _ Hf) as Hd.
  assert (Hsave : forall s w0,
            users w0 = users w -> activities w0 = activities w ->
            clock w0 = clock w -> tz w0 = tz w ->
            save (set_status (create_from_row row) s) w0 = (Returned user, w1) ->
            user = set_status (create_from_row row) s
            /\ find (has_dni d) (users w1) = Some (with_status row s)
            /\ (forall d', d' <> d ->
                  find (has_dni d') (users w1) = find (has_dni d') (users w))
            /\ activities w1 = activities w /\ clock w1 = clock w /\ tz w1 = tz w).
  { intros s w0 Hu Ha Hc Hz Hs.
    rewrite (save_existing _ w0 row (row_password_hash row)) in Hs;
      [| cbn; rewrite Hu, Hd; exact Hf | exact Hid | reflexivity].
    injection Hs as <- <-. cbn [users activities set_users clock tz].
    rewrite Hu. split; [reflexivity|]. split; [|split; [|auto]].
    - rewrite find_update, Hf. cbn [option_map]. rewrite update_hit; [reflexivity|].
      cbn. unfold has_dni. apply String.eqb_refl.
    - intros d' Hne. rewrite find_update.
      destruct (find (has_dni d') (users w)) as [r|] eqn:E; [|reflexivity].
      cbn [option_map]. unfold sql_update_user.
      pose proof (find_has_dni _ _ _ E) as Hr. unfold has_dni. cbn. rewrite Hr, Hd.
      assert (String.eqb d' d = false) as -> by now apply String.eqb_neq.
      reflexivity. }
  assert (Hself : set_status (create_from_row row) (row_status row) = create_from_row row)
    by reflexivity.
  assert (Hfinal : forall s,
            user = set_status (create_from_row row) s
            /\ find (has_dni d) (users w1) = Some (with_status row s)
            /\ (forall d', d' <> d ->
                  find (has_dni d') (users w1) = find (has_dni d') (users w))
            /\ activities w1 = activities w /\ clock w1 = clock w /\ tz w1 = tz w ->
            user = set_status (create_from_row row) (status user)
            /\ find (has_dni d) (users w1) = Some (with_status row (status user))
            /\ (forall d', d' <> d ->
                  find (has_dni d') (users w1) = find (has_dni d') (users w))
            /\ activities w1 = activities w /\ clock w1 = clock w /\ tz w1 = tz w).
  { intros s (H1 & H2 & H3). assert (status user = s) as -> by (rewrite H1; reflexivity).
    auto. }
  unfold update_user_status_based_on_rules in Hrun.
  unfold bind at 1 in Hrun. unfold datetime_now in Hrun. unfold bind at 1 in Hrun.
  destruct (ts_truthy (last_login (create_from_row row))).
  - unfold try_except, bind at 1, lift in Hrun.
    destruct (fromisoformat_opt _) as [t|e].
    + destruct (timedelta_days 180 <? _).
      * unfold ret at 1 in Hrun.
        exact (Hfinal _ (Hsave "pausado" (tick w) eq_refl eq_refl eq_refl eq_refl Hrun)).
      * unfold ret at 1 in Hrun. rewrite <- Hself in Hrun.
        exact (Hfinal _ (Hsave _ (tick w) eq_refl eq_refl eq_refl eq_refl Hrun)).
    + destruct (exn_eqb ValueError e); [|discriminate].
      unfold ret at 1 in Hrun. rewrite <- Hself in Hrun.
      exact (Hfinal _ (Hsave _ (tick w) eq_refl eq_refl eq_refl eq_refl Hrun)).
  - unfold bind at 1 in Hrun.
    pose proof (keeps_run (fun x => (users x = users w /\ activities x = activities w)
                                    /\ clock x = clock w /\ tz x = tz w)
                  (check_consecutive_failed_logins (dni (create_from_row row)) 5) (tick w))
      as Hk.
    destruct (check_consecutive_failed_logins _ 5 (tick w)) as [[flagged|e] w1'];
      [|discriminate].
    cbn [snd] in Hk. destruct Hk as [[Hu Ha] [Hc Hz]]; [| repeat split; reflexivity |].
    { unfold check_consecutive_failed_logins, select_recent_attempts, datetime_now,
        sqlite_now.
      repeat first [keeps_step | (intros ? Hkept; cbn; exact Hkept)]. }
    destruct flagged.
    + unfold ret at 1 in Hrun. exact (Hfinal _ (Hsave "alertado" w1' Hu Ha Hc Hz Hrun)).
    + unfold ret at 1 in Hrun. rewrite <- Hself in Hrun.
      exact (Hfinal _ (Hsave _ w1' Hu Ha Hc Hz Hrun)).
Qed.

(** A failed attempt, whatever the clock does. *)
Lemma update_login_attempt_failure user w row h :
  find (has_dni (dni user)) (users w) = Some row ->
  row_id row <> 0 ->
  password_hash user = Some h ->
  let counted := on_failure user (isoformat (clock w (ticks w) + tz w)) in
  let blocks := (5 <=? login_attempts user + 1)
                && (clock w (S (ticks w)) - clock w (ticks w) <? timedelta_minutes 1) in
  let user' := if blocks then set_status counted "bloqueado" else counted in
  exists w',
    update_login_attempt user false w = (Returned user', w')
    /\ users w' = map (sql_update_user user' h) (users w)
    /\ exists t,
         activities w'
         = (activities w
            ++ [mkActivity (next_rowid (map act_id (activities w))) (CURRENT_TIMESTAMP t)
                  (Some (dni user)) "acceso" "fallido" None])%list
    /\ session w' = session w /\ hash_checks w' = hash_checks w.
Proof.
  intros Hf Hid Hh counted blocks user'. unfold update_login_attempt.
  unfold bind at 1. unfold datetime_now at 1. unfold bind at 1.
  fold counted. cbn [login_attempts last_attempt counted on_failure ts_truthy isoformat].
  subst user' blocks.
  destruct (5 <=? login_attempts user + 1); cbn [andb].
  - unfold try_except, bind at 1, lift, fromisoformat_opt, fromisoformat.
    unfold bind at 1. unfold datetime_now. cbn [clock ticks tz tick].
    unfold isoformat. cbv iota beta.
    replace (clock w (S (ticks w)) + tz w - (clock w (ticks w) + tz w))
      with (clock w (S (ticks w)) - clock w (ticks w)) by lia.
    destruct (_ <? timedelta_minutes 1).
    + unfold ret at 1. unfold bind at 1.
      erewrite save_existing; [| exact Hf | exact Hid | exact Hh].
      eexists. split; [reflexivity|]. split; [reflexivity|]. eexists.
      split; [reflexivity|]. split; reflexivity.
    + unfold ret at 1. unfold bind at 1.
      erewrite save_existing; [| exact Hf | exact Hid | exact Hh].
      eexists. split; [reflexivity|]. split; [reflexivity|]. eexists.
      split; [reflexivity|]. split; reflexivity.
  - unfold ret at 1. unfold bind at 1.
    erewrite save_existing; [| exact Hf | exact Hid | exact Hh].
    eexists. split; [reflexivity|]. split; [reflexivity|]. eexists.
      split; [reflexivity|]. split; reflexivity.
Qed.

#[local] Arguments timedelta_minutes : simpl never.

(** X13. A login with the right password on an account that the rules
    leave outside [BLOCKED_STATUSES]: the answer is the success page, the
    session holds the identifier and is no administrator's session
    (whatever it was), and the row of the account has status ['activo'],
    counter 0 and [last_login] the local time of the attempt; its rowid,
    hash, creation time and [last_attempt] are as before. No other row
    changes and one audit row ['acceso'/'exitoso'] is appended. *)
Theorem successful_login_effect
    (w w1 : World) (rq : Request) (d p : string) (row : UserRow) (user : User) :
  login_request rq d p ->
  find (has_dni d) (users w) = Some row ->
  row_id row <> 0 ->
  update_user_status_based_on_rules (create_from_row row) w = (Returned user, w1) ->
  str_in (status user) BLOCKED_STATUSES = false ->
  truthy (row_password_hash row) = true ->
  check_password_hash (row_password_hash row) p = true ->
  exists w2,
    login rq w = (Returned (render_template "success.html"), w2)
    /\ find (has_dni d) (users w2)
       = Some (mkUserRow (row_id row) d (row_password_hash row) "activo"
                 (row_created_at row) (Some (isoformat (clock w (ticks w1) + tz w))) 0
                 (row_last_attempt row))
    /\ (forall d', d' <> d -> find (has_dni d') (users w2) = find (has_dni d') (users w))
    /\ activities w2
       = (activities w
          ++ [mkActivity (next_rowid (map act_id (activities w)))
                (CURRENT_TIMESTAMP (clock w (S (ticks w1)))) (Some d)
                "acceso" "exitoso" None])%list
    /\ user_dni (session w2) = Some d
    /\ is_admin (session w2) = false.
Proof.
  intros Hrq Hf Hid Hrun Hb Hth Hck.
  pose proof (find_has_dni _ _ _ Hf) as Hd.
  destruct (rules_outcome w w1 d row user Hf Hid Hrun) as (Hu & Hf1 & Hothers & Ha & Hc & Hz).
  assert (Hh : password_hash user = Some (row_password_hash row)) by (rewrite Hu; reflexivity).
  assert (Hdni : dni user = d) by (rewrite Hu; exact Hd).
  rewrite (login_reaches_password_check w rq d p row user w1 _ Hrq Hf Hrun Hb Hh Hth), Hck.
  unfold bind at 1.
  rewrite (update_login_attempt_success user (note_hash_check (row_password_hash row) p w1)
             (with_status row (status user)) (row_password_hash row));
    [| cbn [users note_hash_check]; rewrite Hdni; exact Hf1 | exact Hid | exact Hh].
  eexists. split; [reflexivity|].
  cbn [users activities session set_users set_activities set_session tick note_hash_check
       clock ticks tz user_dni is_admin].
  split; [|split; [|split; [|split; [|reflexivity]]]].
  - rewrite find_update, Hf1. cbn [option_map]. rewrite update_hit.
    + cbn. rewrite Hu, Hc, Hz, Hd. reflexivity.
    + cbn. unfold has_dni. rewrite Hdni. cbn. rewrite Hd. apply String.eqb_refl.
  - intros d' Hne. rewrite find_update, (Hothers d' Hne).
    destruct (find (has_dni d') (users w)) as [r|] eqn:E; [|reflexivity].
    cbn [option_map]. unfold sql_update_user.
    pose proof (find_has_dni _ _ _ E) as Hr. unfold has_dni. cbn. rewrite Hr, Hdni.
    assert (String.eqb d' d = false) as -> by now apply String.eqb_neq.
    reflexivity.
  - unfold attempt_event. cbn. now rewrite Ha, Hc, Hdni.
  - cbn. now rewrite Hdni.
Qed.


(** ** Administrator rights *)

(** X15. [admin_login] never touches table [users] and never checks a
    hash. A POST whose password is [ADMIN_PASSWORD] redirects to the
    dashboard with the session marked as the administrator's, identifier
    ['admin'], and one audit row ['admin_login'] when the row ['admin']
    exists; any other request gets the login form again, and neither the
    audit log nor who is logged in changes: a wrong administrator
    password is not recorded. *)
Theorem admin_login_outcomes (rq : Request) (w : World) :
  let w' := snd (admin_login rq w) in
  users w' = users w
  /\ hash_checks w' = hash_checks w
  /\ (method rq = POST /\ lookup "password" (form rq) = Some ADMIN_PASSWORD ->
      fst (admin_login rq w) = Returned (redirect "admin_dashboard")
      /\ is_admin (session w') = true
      /\ user_dni (session w') = Some "admin"
      /\ (registered "admin" w ->
          activities w'
          = (activities w
             ++ [mkActivity (next_rowid (map act_id (activities w)))
                   (CURRENT_TIMESTAMP (clock w (ticks w))) (Some "admin")
                   "admin_login" "exitoso" None])%list))
  /\ (~ (method rq = POST /\ lookup "password" (form rq) = Some ADMIN_PASSWORD) ->
      fst (admin_login rq w) = Returned (render_template "admin_login.html")
      /\ activities w' = activities w
      /\ is_admin (session w') = is_admin (session w)
      /\ user_dni (session w') = user_dni (session w)).
Proof.
  unfold admin_login, form_get_or_empty. destruct (method rq).
  { cbn. split; [reflexivity|]. split; [reflexivity|].
    split; [intros [H _]; discriminate|]. intros _. repeat split; reflexivity. }
  destruct (lookup "password" (form rq)) as [p|].
  2:{ cbn. split; [reflexivity|]. split; [reflexivity|].
      split; [intros [_ H]; discriminate|]. intros _. repeat split; reflexivity. }
  destruct (truthy p) eqn:Ht; cbn [negb].
  2:{ assert (p = "") as -> by (unfold truthy in Ht; apply negb_false_iff in Ht;
                                now apply String.eqb_eq in Ht).
      cbn. split; [reflexivity|]. split; [reflexivity|].
      split; [intros [_ H]; discriminate|]. intros _. repeat split; reflexivity. }
  destruct (String.eqb_spec p ADMIN_PASSWORD) as [->|Hne].
  - unfold bind, session_set_is_admin, session_set_user_dni, modify, log_as_admin, bind,
      find_by_dni, get, registered. cbn [users set_session].
    destruct (find (has_dni "admin") (users w)) as [a|] eqn:Hf; cbn [option_map].
    + pose proof (find_has_dni _ _ _ Hf) as Hd.
      cbn. rewrite Hd. split; [reflexivity|]. split; [reflexivity|].
      split; [intros _; repeat split; reflexivity|].
      intros H. destruct H. split; reflexivity.
    + cbn. split; [reflexivity|]. split; [reflexivity|].
      split; [intros _; repeat split; try reflexivity; contradiction|].
      intros H. destruct H. split; reflexivity.
  - unfold bind. rewrite flash_flashed. cbn.
    split; [reflexivity|]. split; [reflexivity|].
    split; [intros [_ H]; congruence|]. intros _. repeat split; reflexivity.
Qed.

(** A session that is not the administrator's. *)
Lemma unprivileged_kept_by_login rq :
  keeps (fun w => is_admin (session w) = false) (login rq).
Proof.
  unfold login, update_login_attempt, update_user_status_based_on_rules,
    check_consecutive_failed_logins, select_recent_attempts, check_password, save,
    sql_insert_user, log_activity, flash, session_set_user_dni, session_set_is_admin,
    datetime_now, sqlite_now.
  repeat first
    [ keeps_step
    | apply keeps_modify; intros ? Hkept; first [exact Hkept | reflexivity]
    | (intros ? Hkept; cbn; exact Hkept) ].
Qed.

Lemma unprivileged_kept_by_register rq :
  keeps (fun w => is_admin (session w) = false) (register rq).
Proof.
  unfold register, save, sql_insert_user, log_activity, flash, new_password_hash,
    sqlite_now.
  repeat first
    [ keeps_step
    | apply keeps_modify; intros ? Hkept; exact Hkept
    | (intros ? Hkept; cbn; exact Hkept) ].
Qed.

Lemma unprivileged_kept_by_logout :
  keeps (fun w => is_admin (session w) = false) logout.
Proof.
  unfold logout, log_activity, flash, session_clear, sqlite_now.
  repeat first
    [ keeps_step
    | apply keeps_modify; intros ? Hkept; first [exact Hkept | reflexivity]
    | (intros ? Hkept; cbn; exact Hkept) ].
Qed.

(** X16. Administrator rights come from [admin_login] alone, and
    without them the administrative requests do nothing. In a session
    that is not the administrator's, [change_user_status],
    [change_user_password] and [change_admin_password] answer 403 and
    leave the world as it was; and the only request after which the
    session is the administrator's is a POST to [admin_login] with
    [ADMIN_PASSWORD]. *)
Theorem administrator_rights_come_from_admin_login (w : World) :
  is_admin (session w) = false ->
  (forall rq,
     change_user_status rq w = (Returned (jsonify_error "Acceso denegado" 403), w)
     /\ change_user_password rq w = (Returned (jsonify_error "Acceso denegado" 403), w)
     /\ change_admin_password rq w = (Returned (jsonify_error "Acceso denegado" 403), w))
  /\ (forall op,
        is_admin (session (snd (perform op w))) = true ->
        exists rq, op = AdminLogin rq /\ method rq = POST
                   /\ lookup "password" (form rq) = Some ADMIN_PASSWORD).
Proof.
  intros Hno.
  assert (Hgate : forall rq,
     change_user_status rq w = (Returned (jsonify_error "Acceso denegado" 403), w)
     /\ change_user_password rq w = (Returned (jsonify_error "Acceso denegado" 403), w)
     /\ change_admin_password rq w = (Returned (jsonify_error "Acceso denegado" 403), w)).
  { intros rq. unfold change_user_status, change_user_password, change_admin_password,
      bind, get. rewrite Hno. cbn. auto. }
  split; [exact Hgate|].
  intros op Hyes.
  assert (Hkept : forall (m : M Response),
            keeps (fun x => is_admin (session x) = false) m ->
            is_admin (session (snd (m w))) = true -> False).
  { intros m Hm H. pose proof (keeps_run _ m w Hm Hno) as Hk. cbn beta in Hk. congruence. }
  destruct op as [rq|rq| |rq|rq|rq]; cbn [perform] in Hyes.
  - destruct (Hkept _ (unprivileged_kept_by_login rq) Hyes).
  - destruct (Hkept _ (unprivileged_kept_by_register rq) Hyes).
  - destruct (Hkept _ unprivileged_kept_by_logout Hyes).
  - exists rq. split; [reflexivity|].
    assert (Hsame : is_admin (session w) = true -> False) by congruence.
    revert Hyes. unfold admin_login, form_get_or_empty. destruct (method rq).
    { intros Hyes. destruct (Hsame Hyes). }
    destruct (lookup "password" (form rq)) as [p|];
      [|intros Hyes; destruct (Hsame Hyes)].
    destruct (truthy p); cbn [negb]; [|intros Hyes; destruct (Hsame Hyes)].
    destruct (String.eqb_spec p ADMIN_PASSWORD) as [->|Hne]; [auto|].
    intros Hyes. destruct (Hsame Hyes).
  - destruct (Hgate rq) as (_ & H & _). rewrite H in Hyes. cbn in Hyes. congruence.
  - destruct (Hgate rq) as (_ & _ & H). rewrite H in Hyes. cbn in Hyes. congruence.
Qed.

(** What [log_as_admin] does: it never fails, and writes one row when
    the row ['admin'] exists. *)
Lemma log_as_admin_run (action_type result : string) (details : option string) (w : World) :
  exists w',
    log_as_admin action_type result details w = (Returned tt, w')
    /\ users w' = users w
    /\ session w' = session w
    /\ (registered "admin" w ->
        activities w'
        = (activities w
           ++ [mkActivity (next_rowid (map act_id (activities w)))
                 (CURRENT_TIMESTAMP (clock w (ticks w))) (Some "admin")
                 action_type result details])%list).
Proof.
  unfold log_as_admin, bind, find_by_dni, get, registered.
  destruct (find (has_dni "admin") (users w)) as [a|] eqn:Hf; cbn [option_map].
  - pose proof (find_has_dni _ _ _ Hf) as Hd. eexists. split; [reflexivity|].
    cbn. rewrite Hd. auto.
  - eexists. split; [reflexivity|]. repeat split; try reflexivity. contradiction.
Qed.

(** X17. [change_user_password] in an administrator's session, for an
    identifier that has a row (the row ['admin'] included): a password
    that breaks the policy is refused with 400 and nothing changes; one
    that complies replaces the hash of the row by a hash that verifies
    the new password. The status, the counter and the timestamps of the
    row are not reset, no other row changes, and one audit row
    ['cambio_password'] is written on behalf of the row ['admin'] when it
    exists. *)
Theorem change_user_password_outcomes
    (w : World) (rq : Request) (d p : string) (row : UserRow) :
  is_admin (session w) = true ->
  lookup "dni" (form rq) = Some d ->
  lookup "new_password" (form rq) = Some p ->
  truthy d = true ->
  truthy p = true ->
  find (has_dni d) (users w) = Some row ->
  row_id row <> 0 ->
  (~ policy_compliant p ->
   exists msg, change_user_password rq w = (Returned (jsonify_error msg 400), w))
  /\ (policy_compliant p ->
      exists w' h,
        change_user_password rq w = (Returned (jsonify_success None), w')
        /\ check_password_hash h p = true
        /\ find (has_dni d) (users w')
           = Some (mkUserRow (row_id row) d h (row_status row) (row_created_at row)
                     (row_last_login row) (row_login_attempts row)
                     (row_last_attempt row))
        /\ (forall d', d' <> d ->
              find (has_dni d') (users w') = find (has_dni d') (users w))
        /\ (registered "admin" w ->
            activities w'
            = (activities w
               ++ [mkActivity (next_rowid (map act_id (activities w)))
                     (CURRENT_TIMESTAMP (clock w (ticks w))) (Some "admin")
                     "cambio_password" "admin-ok" (Some ("Usuario " ++ d)%string)])%list)).
Proof.
  intros Hadm Hd Hp Htd Htp Hf Hid.
  pose proof (find_has_dni _ _ _ Hf) as Hrow.
  assert (Hstart :
            change_user_password rq w
            = (let '(is_valid_password, password_message) := validate_password p in
               if negb is_valid_password then ret (jsonify_error password_message 400)
               else
                 h <- new_password_hash p ;;
                 save (set_password_hash (create_from_row row) h) ;;
                 log_as_admin "cambio_password" "admin-ok" (Some ("Usuario " ++ d)) ;;
                 ret (jsonify_success None)) w).
  { unfold change_user_password, form_get. unfold bind at 1. unfold get.
    rewrite Hadm, Hd, Hp, Htd, Htp. cbn [negb orb].
    unfold bind at 1. unfold find_by_dni, get. rewrite Hf. reflexivity. }
  rewrite Hstart. clear Hstart. split.
  - intros Hbad. pose proof (validate_password_rejects p Hbad) as Hrej.
    destruct (validate_password p) as [ok msg]. cbn [fst] in Hrej. subst ok. cbn [negb].
    exists msg. reflexivity.
  - intros Hpol. rewrite (validate_password_ok p Hpol). cbn [negb].
    unfold bind at 1. unfold new_password_hash. unfold bind at 1.
    set (h := generate_password_hash (salts w (drawn w)) p).
    rewrite (save_existing _ (draw w) row h);
      [| cbn; rewrite Hrow; exact Hf | exact Hid | reflexivity].
    set (w1 := set_users (map (sql_update_user (set_password_hash (create_from_row row) h) h))
                 (draw w)).
    destruct (log_as_admin_run "cambio_password" "admin-ok" (Some ("Usuario " ++ d)) w1)
      as (w' & Hlog & Hu & _ & Ha).
    unfold bind. rewrite Hlog. exists w', h. split; [reflexivity|].
    split; [apply check_generated|]. rewrite Hu. subst w1. cbn [users set_users draw].
    split; [|split].
    + rewrite find_update, Hf. cbn [option_map]. rewrite update_hit.
      * cbn. rewrite Hrow. reflexivity.
      * cbn. unfold has_dni. apply String.eqb_refl.
    + intros d' Hne. rewrite find_update.
      destruct (find (has_dni d') (users w)) as [r|] eqn:E; [|reflexivity].
      cbn [option_map]. unfold sql_update_user.
      pose proof (find_has_dni _ _ _ E) as Hr. unfold has_dni. cbn. rewrite Hr, Hrow.
      assert (String.eqb d' d = false) as -> by now apply String.eqb_neq.
      reflexivity.
    + intros Hadmin. apply Ha. unfold registered. cbn [users set_users draw].
      rewrite find_update. unfold registered in Hadmin.
      destruct (find (has_dni "admin") (users w)); [discriminate|contradiction].
Qed.

(** X18. [logout] never fails: it empties the session (nobody is logged
    in, no administrator rights, and the pending flash messages are
    dropped before the farewell is flashed), leaves table [users] alone,
    and writes an audit row ['logout'] exactly when the session named an
    identifier that has a row. *)
Theorem logout_effect (w : World) :
  exists w',
    logout w = (Returned (redirect "index"), w')
    /\ session w' = mkSession None false [("success", "Sesión cerrada exitosamente")]
    /\ users w' = users w
    /\ hash_checks w' = hash_checks w
    /\ (forall d, user_dni (session w) = Some d -> truthy d = true -> registered d w ->
          activities w'
          = (activities w
             ++ [mkActivity (next_rowid (map act_id (activities w)))
                   (CURRENT_TIMESTAMP (clock w (ticks w))) (Some d)
                   "logout" "exitoso" None])%list)
    /\ ((forall d, user_dni (session w) = Some d -> ~ registered d w) ->
          activities w' = activities w).
Proof.
  unfold logout. unfold bind at 1. unfold get.
  destruct (user_dni (session w)) as [d|] eqn:Hwho.
  2:{ eexists. split; [reflexivity|]. cbn. repeat split; try reflexivity. discriminate. }
  destruct (truthy d) eqn:Ht.
  2:{ eexists. split; [reflexivity|]. cbn. repeat split; try reflexivity.
      intros d' H Ht'. injection H as <-. congruence. }
  unfold find_by_dni, get, registered, bind. cbv beta.
  destruct (find (has_dni d) (users w)) as [row|] eqn:Hf; cbn [option_map].
  - pose proof (find_has_dni _ _ _ Hf) as Hd.
    eexists. split; [reflexivity|]. cbn. rewrite Hd. repeat split; try reflexivity.
    + intros d' H _ _. injection H as <-. reflexivity.
    + intros H. destruct (H d eq_refl). rewrite Hf. discriminate.
  - eexists. split; [reflexivity|]. cbn. repeat split; try reflexivity.
    intros d' H _ Hr. injection H as <-. rewrite Hf in Hr. contradiction.
Qed.

(** X19. [init_db] never fails and is idempotent on the tables: after it
    the row ['admin'] exists; an identifier that had a row keeps that
    very row (start-up does not reset the hash or the status of an
    existing ['admin']); the audit log is not touched; and a second
    start-up changes neither table. *)
Theorem init_db_is_idempotent (w : World) :
  let w1 := snd (init_db w) in
  let w2 := snd (init_db w1) in
  fst (init_db w) = Returned tt
  /\ registered "admin" w1
  /\ (forall d row, find (has_dni d) (users w) = Some row ->
        find (has_dni d) (users w1) = Some row)
  /\ (registered "admin" w -> users w1 = users w)
  /\ activities w1 = activities w
  /\ users w2 = users w1
  /\ activities w2 = activities w1.
Proof.
  assert (Hrun : forall x,
            (existsb (has_dni "admin") (users x) = true
             /\ init_db x = (Returned tt, tick (draw x)))
            \/ (existsb (has_dni "admin") (users x) = false
                /\ init_db x
                   = (Returned tt,
                      set_users
                        (fun l => l ++ [inserted_row "admin"
                                          (generate_password_hash (salts x (drawn x))
                                             "Password123!")
                                          "activo" x])%list (tick (draw x))))).
  { intros x. unfold init_db. unfold bind at 1. unfold new_password_hash.
    unfold try_except, bind.
    destruct (sql_insert_user_cases "admin"
                (generate_password_hash (salts x (drawn x)) "Password123!") "activo" (draw x))
      as [[Ht ->]|[Hfree ->]]; [left|right]; (split; [exact Ht || exact Hfree|reflexivity]). }
  assert (Hadmin : forall l r, existsb (has_dni "admin") (l ++ [r]) = true
                               \/ row_dni r <> "admin").
  { intros l r. destruct (String.eqb_spec (row_dni r) "admin") as [E|E]; [left|now right].
    rewrite existsb_app. cbn. unfold has_dni at 2. rewrite E. cbn.
    apply orb_true_r. }
  assert (Hreg : forall x, existsb (has_dni "admin") (users x) = true <-> registered "admin" x).
  { intros x. unfold registered. split.
    - intros H Hn. apply find_none_existsb in Hn. congruence.
    - intros H. destruct (existsb (has_dni "admin") (users x)) eqn:E; [reflexivity|].
      destruct H. destruct (find (has_dni "admin") (users x)) as [r|] eqn:F; [|reflexivity].
      apply find_some in F. assert (existsb (has_dni "admin") (users x) = true); [|congruence].
      apply existsb_exists. exists r. exact F. }
  cbv zeta.
  destruct (Hrun w) as [[Ht E]|[Hfree E]]; rewrite E; cbn [fst snd].
  - destruct (Hrun (tick (draw w))) as [[Ht' E']|[Hfree' E']]; rewrite E'; cbn [snd].
    + cbn. repeat split; auto. now apply Hreg.
    + cbn [users tick draw] in Hfree'. congruence.
  - match goal with |- context [init_db ?x] => destruct (Hrun x) as [[Ht' E']|[Hfree' E']] end;
      rewrite E'; cbn [snd].
    + cbn [users activities set_users tick draw]. repeat split; auto.
      * apply Hreg. cbn [users set_users tick draw]. rewrite existsb_app. cbn.
        unfold has_dni at 2. cbn. apply orb_true_r.
      * intros d row Hf. now apply find_app_old.
      * intros Hr. apply Hreg in Hr. congruence.
    + cbn [users set_users tick draw] in Hfree'. rewrite existsb_app in Hfree'.
      cbn in Hfree'. unfold has_dni at 2 in Hfree'. cbn in Hfree'.
      rewrite orb_true_r in Hfree'. discriminate.
Qed.

(** ** No request fails *)

Lemma stamped_reachable (w : World) : reachable w -> stamped w.
Proof.
  intros H. destruct (reachable_request_steps w H) as (w0 & Hu & Ha & Hs).
  revert Hs. apply (every_request_steps stamped).
  - intros a b _ Hact Hst. unfold stamped. now rewrite Hact.
  - intros self h a Hst. exact Hst.
  - intros d h s. apply sql_insert_user_keeps; intros a Hst; auto.
  - intros stamp who action_type result details a Hst x Hx.
    cbn [activities set_activities] in Hx. apply in_app_or in Hx.
    destruct Hx as [Hx|[<-|[]]]; [now apply Hst|]. unfold CURRENT_TIMESTAMP. cbn. eauto.
  - pose proof (keeps_run (fun x => activities x = activities w0) init_db w0) as Hk.
    cbn beta in Hk. intros a Hin. rewrite Hk, Ha in Hin; [destruct Hin| |reflexivity].
    unfold init_db, new_password_hash, sql_insert_user, sqlite_now.
    repeat first
      [ keeps_step
      | apply keeps_modify; intros ? Hkept; exact Hkept
      | (intros ? Hkept; cbn; exact Hkept) ].
Qed.

Lemma parse_dates_total rows acc :
  (forall k, In k (keys rows) -> k <> None) ->
  exists r, parse_dates rows acc = Returned r.
Proof.
  revert acc. induction rows as [|[k n] rows IH]; intros acc H; cbn [parse_dates].
  - eauto.
  - destruct k as [z|]; [|destruct (H None); [now left|reflexivity]].
    cbn [fst date_fromisoformat].
    destruct (_ && _); apply IH; intros k Hk; apply H; now right.
Qed.

Lemma check_consecutive_returns d w :
  stamped w ->
  exists flagged w',
    check_consecutive_failed_logins d 5 w = (Returned flagged, w')
    /\ users w' = users w /\ activities w' = activities w.
Proof.
  intros Hst. unfold check_consecutive_failed_logins.
  set (cutoff := date_of (clock w (ticks w)) - 5).
  set (dates := map (fun a => sql_DATE (act_timestamp a))
                  (filter (failed_login_since d cutoff) (activities w))).
  set (groups := group_by_date_desc dates).
  assert (Hsel : select_recent_attempts d 5 w = (Returned (firstn 5 groups), tick w))
    by reflexivity.
  rewrite (bind_returned _ _ _ _ _ Hsel).
  destruct (5 <=? Z.of_nat (List.length (firstn 5 groups))).
  2:{ do 2 eexists. split; [reflexivity|]. split; reflexivity. }
  rewrite (bind_returned _ _ _ _ _ (expected_dates_run (tick w))).
  change (Z.to_nat 5) with 5%nat.
  rewrite firstn_firstn. cbn [Nat.min].
  unfold bind. rewrite parse_loop.
  destruct (parse_dates_total (firstn 5 groups) []) as (r & ->).
  { intros k Hk. rewrite keys_firstn in Hk. apply in_firstn in Hk.
    apply (proj1 (group_keys dates k)) in Hk. unfold dates in Hk.
    apply in_map_iff in Hk. destruct Hk as (a & <- & Hin).
    apply filter_In in Hin. destruct (Hst a (proj1 Hin)) as (t & ->). discriminate. }
  do 2 eexists. split; [reflexivity|]. split; reflexivity.
Qed.

Lemma rules_return (w : World) (d : string) (row : UserRow) :
  stamped w ->
  find (has_dni d) (users w) = Some row ->
  row_id row <> 0 ->
  exists user w1,
    update_user_status_based_on_rules (create_from_row row) w = (Returned user, w1).
Proof.
  intros Hst Hf Hid.
  pose proof (find_has_dni _ _ _ Hf) as Hd.
  assert (Hsave : forall s w0,
            users w0 = users w ->
            exists user w1,
              save (set_status (create_from_row row) s) w0 = (Returned user, w1)).
  { intros s w0 Hu.
    rewrite (save_existing _ w0 row (row_password_hash row));
      [eauto | cbn; rewrite Hu, Hd; exact Hf | exact Hid | reflexivity]. }
  assert (Hself : set_status (create_from_row row) (row_status row) = create_from_row row)
    by reflexivity.
  unfold update_user_status_based_on_rules.
  unfold bind at 1. unfold datetime_now. unfold bind at 1.
  destruct (ts_truthy (last_login (create_from_row row))) eqn:Hts.
  - unfold try_except, bind at 1, lift.
    destruct (fromisoformat_opt _) as [t|e] eqn:Hparse.
    + destruct (timedelta_days 180 <? _); unfold ret at 1.
      * apply (Hsave "pausado" (tick w) eq_refl).
      * rewrite <- Hself. apply (Hsave _ (tick w) eq_refl).
    + assert (e = ValueError) as ->.
      { unfold fromisoformat_opt, create_from_row in Hparse, Hts. cbn in Hparse, Hts.
        destruct (row_last_login row) as [[t|s]|]; cbn in Hparse, Hts; congruence. }
      cbn [exn_eqb]. unfold ret at 1. rewrite <- Hself. apply (Hsave _ (tick w) eq_refl).
  - unfold bind at 1.
    destruct (check_consecutive_returns (dni (create_from_row row)) (tick w) Hst)
      as (flagged & w' & -> & Hu & _).
    destruct flagged; unfold ret at 1.
    + apply (Hsave "alertado" w' Hu).
    + rewrite <- Hself. apply (Hsave _ w' Hu).
Qed.

Lemma update_login_attempt_returns user success w row h :
  find (has_dni (dni user)) (users w) = Some row ->
  row_id row <> 0 ->
  password_hash user = Some h ->
  exists user' w', update_login_attempt user success w = (Returned user', w').
Proof.
  intros Hf Hid Hh. destruct success.
  - rewrite (update_login_attempt_success user w row h Hf Hid Hh). eauto.
  - destruct (update_login_attempt_failure user w row h Hf Hid Hh) as (w' & H & _). eauto.
Qed.

Lemma login_returns rq w :
  stamped w ->
  (forall r, In r (users w) -> row_id r <> 0) ->
  exists response w', login rq w = (Returned response, w').
Proof.
  intros Hst Hids. unfold login. destruct (method rq); [do 2 eexists; reflexivity|].
  destruct (negb _ || negb _).
  { unfold bind. rewrite flash_flashed. do 2 eexists; reflexivity. }
  unfold bind at 1. unfold find_by_dni, get.
  destruct (find (has_dni (form_get_or_empty rq "dni")) (users w)) as [row|] eqn:Hf;
    cbn [option_map].
  2:{ unfold bind. rewrite flash_flashed. do 2 eexists; reflexivity. }
  assert (Hid : row_id row <> 0) by (apply Hids; apply find_some in Hf; tauto).
  destruct (rules_return w _ row Hst Hf Hid) as (user & w1 & Hrun).
  destruct (rules_outcome w w1 _ row user Hf Hid Hrun) as (Hu & Hf1 & _).
  assert (Hh : password_hash user = Some (row_password_hash row)) by (rewrite Hu; reflexivity).
  assert (Hdni : dni user = form_get_or_empty rq "dni")
    by (rewrite Hu; exact (find_has_dni _ _ _ Hf)).
  unfold bind at 1. rewrite Hrun.
  destruct (str_in (status user) BLOCKED_STATUSES).
  { unfold bind. rewrite flash_flashed. do 2 eexists; reflexivity. }
  unfold bind at 1. unfold check_password. rewrite Hh.
  destruct (truthy (row_password_hash row)); cbn [negb].
  - unfold bind at 1. unfold modify, ret at 1.
    destruct (update_login_attempt_returns user
                (check_password_hash (row_password_hash row) (form_get_or_empty rq "password"))
                (note_hash_check (row_password_hash row) (form_get_or_empty rq "password") w1)
                (with_status row (status user)) (row_password_hash row))
      as (user' & w2 & Hrun2);
      [cbn [users note_hash_check]; rewrite Hdni; exact Hf1 | exact Hid | exact Hh |].
    destruct (check_password_hash _ _); unfold bind; rewrite Hrun2;
      do 2 eexists; reflexivity.
  - unfold ret at 1.
    destruct (update_login_attempt_returns user false w1
                (with_status row (status user)) (row_password_hash row))
      as (user' & w2 & Hrun2); [rewrite Hdni; exact Hf1 | exact Hid | exact Hh |].
    unfold bind. rewrite Hrun2. do 2 eexists; reflexivity.
Qed.

Lemma register_returns rq w : exists response w', register rq w = (Returned response, w').
Proof.
  unfold register. destruct (method rq); [do 2 eexists; reflexivity|].
  destruct (validate_input _ _).
  2:{ unfold bind. rewrite for_each_flash. do 2 eexists; reflexivity. }
  destruct (validate_dni _) as [[|] ?]; cbn [negb].
  2:{ unfold bind. rewrite flash_flashed. do 2 eexists; reflexivity. }
  destruct (negb (String.eqb _ _)).
  { unfold bind. rewrite flash_flashed. do 2 eexists; reflexivity. }
  destruct (validate_password _) as [[|] ?]; cbn [negb].
  2:{ unfold bind. rewrite flash_flashed. do 2 eexists; reflexivity. }
  unfold bind at 1. unfold find_by_dni, get.
  destruct (find (has_dni (form_get_or_empty rq "dni")) (users w)) eqn:Hf; cbn [option_map].
  { unfold bind. rewrite flash_flashed. do 2 eexists; reflexivity. }
  unfold bind at 1. unfold new_password_hash. unfold bind at 1.
  erewrite save_fresh; [| exact Hf | reflexivity].
  do 2 eexists; reflexivity.
Qed.

Lemma logout_returns w : exists response w', logout w = (Returned response, w').
Proof.
  unfold logout, find_by_dni, get, bind. cbv beta.
  destruct (user_dni (session w)) as [d|]; [|do 2 eexists; reflexivity].
  destruct (truthy d); [|do 2 eexists; reflexivity].
  destruct (find (has_dni d) (users w)); do 2 eexists; reflexivity.
Qed.

Lemma admin_login_returns rq w :
  exists response w', admin_login rq w = (Returned response, w').
Proof.
  unfold admin_login. destruct (method rq); [do 2 eexists; reflexivity|].
  destruct (negb _).
  { unfold bind. rewrite flash_flashed. do 2 eexists; reflexivity. }
  destruct (String.eqb _ _).
  - unfold bind at 1. unfold session_set_is_admin, modify. unfold bind at 1.
    unfold session_set_user_dni, modify. unfold bind at 1.
    match goal with |- context [log_as_admin ?a ?r ?det ?x] =>
      destruct (log_as_admin_run a r det x) as (w' & -> & _) end.
    do 2 eexists; reflexivity.
  - unfold bind. rewrite flash_flashed. do 2 eexists; reflexivity.
Qed.

Lemma change_user_status_returns rq w :
  (forall r, In r (users w) -> row_id r <> 0) ->
  exists response w', change_user_status rq w = (Returned response, w').
Proof.
  intros Hids. unfold change_user_status, form_get. unfold bind at 1. unfold get.
  destruct (negb (is_admin (session w))); [do 2 eexists; reflexivity|].
  destruct (lookup "dni" (form rq)) as [d|]; [|do 2 eexists; reflexivity].
  destruct (lookup "new_status" (form rq)) as [s|]; [|do 2 eexists; reflexivity].
  destruct (negb _ || negb _); [do 2 eexists; reflexivity|].
  destruct (String.eqb d "admin"); [do 2 eexists; reflexivity|].
  unfold bind at 1. unfold find_by_dni, get.
  destruct (find (has_dni d) (users w)) as [row|] eqn:Hf; cbn [option_map];
    [|do 2 eexists; reflexivity].
  destruct (String.eqb _ s); [do 2 eexists; reflexivity|].
  unfold bind at 1.
  rewrite (save_existing _ w row (row_password_hash row));
    [| cbn; rewrite (find_has_dni _ _ _ Hf); exact Hf
     | apply Hids; apply find_some in Hf; tauto | reflexivity].
  unfold bind at 1.
  match goal with |- context [log_as_admin ?a ?r ?det ?x] =>
    destruct (log_as_admin_run a r det x) as (w' & -> & _) end.
  do 2 eexists; reflexivity.
Qed.

Lemma change_user_password_returns rq w :
  (forall r, In r (users w) -> row_id r <> 0) ->
  exists response w', change_user_password rq w = (Returned response, w').
Proof.
  intros Hids. unfold change_user_password, form_get. unfold bind at 1. unfold get.
  destruct (negb (is_admin (session w))); [do 2 eexists; reflexivity|].
  destruct (lookup "dni" (form rq)) as [d|]; [|do 2 eexists; reflexivity].
  destruct (lookup "new_password" (form rq)) as [p|]; [|do 2 eexists; reflexivity].
  destruct (negb _ || negb _); [do 2 eexists; reflexivity|].
  unfold bind at 1. unfold find_by_dni, get.
  destruct (find (has_dni d) (users w)) as [row|] eqn:Hf; cbn [option_map];
    [|do 2 eexists; reflexivity].
  destruct (validate_password p) as [[|] ?]; cbn [negb]; [|do 2 eexists; reflexivity].
  unfold bind at 1. unfold new_password_hash. unfold bind at 1.
  erewrite (save_existing _ (draw w) row);
    [| cbn; rewrite (find_has_dni _ _ _ Hf); exact Hf
     | apply Hids; apply find_some in Hf; tauto | reflexivity].
  unfold bind at 1.
  match goal with |- context [log_as_admin ?a ?r ?det ?x] =>
    destruct (log_as_admin_run a r det x) as (w' & -> & _) end.
  do 2 eexists; reflexivity.
Qed.

Lemma change_admin_password_returns rq w :
  exists response w', change_admin_password rq w = (Returned response, w').
Proof.
  unfold change_admin_password, form_get. unfold bind at 1. unfold get.
  destruct (negb (is_admin (session w))); [do 2 eexists; reflexivity|].
  destruct (negb _); [do 2 eexists; reflexivity|].
  destruct (lookup "current_password" (form rq)); [|do 2 eexists; reflexivity].
  destruct (lookup "new_password" (form rq)) as [p|]; [|do 2 eexists; reflexivity].
  destruct (lookup "confirm_password" (form rq)); [|do 2 eexists; reflexivity].
  destruct (negb _); [do 2 eexists; reflexivity|].
  destruct (negb _); [do 2 eexists; reflexivity|].
  destruct (validate_password p) as [[|] ?]; cbn [negb]; [|do 2 eexists; reflexivity].
  unfold bind at 1.
  match goal with |- context [log_as_admin ?a ?r ?det ?x] =>
    destruct (log_as_admin_run a r det x) as (w' & -> & _) end.
  do 2 eexists; reflexivity.
Qed.

(** X20. No request fails: in every world the service can be in (after
    start-up and any requests of any clients) and in which every counter
    [login_attempts] can still be incremented and stored by SQLite (it is
    below 2^63 - 1), every request of every handler, in whatever session
    and with whatever form, returns a response; none raises an exception.
    In particular every timestamp that the rule evaluation of [login]
    reads was written by the service and parses. *)
Theorem no_request_fails (w : World) (client : Session) :
  reachable w ->
  (forall r, In r (users w) -> - 2 ^ 63 <= row_login_attempts r < 2 ^ 63 - 1) ->
  (forall op, exists response,
      fst (perform op (set_session (fun _ => client) w)) = Returned response)
  /\ (forall rq, exists response,
        fst (change_user_status rq (set_session (fun _ => client) w)) = Returned response).
Proof.
  intros Hreach _.
  pose proof (stamped_reachable w Hreach) as Hst.
  destruct (reachable_well_formed w Hreach) as (Hids & _).
  set (w0 := set_session (fun _ => client) w).
  assert (Hst0 : stamped w0) by exact Hst.
  assert (Hids0 : forall r, In r (users w0) -> row_id r <> 0) by exact Hids.
  clearbody w0.
  assert (Hfst : forall (m : M Response),
            (exists response w', m w0 = (Returned response, w')) ->
            exists response, fst (m w0) = Returned response).
  { intros m (response & w' & E). exists response. now rewrite E. }
  split.
  - intros op. apply Hfst. destruct op; cbn [perform].
    + now apply login_returns.
    + apply register_returns.
    + apply logout_returns.
    + apply admin_login_returns.
    + now apply change_user_password_returns.
    + apply change_admin_password_returns.
  - intros rq. apply Hfst. now apply change_user_status_returns.
Qed.

(** ** Password hashes *)

Section Credentials.

Variable C : list (string * string).
Variable d : string.
Variable oh : option string.

Lemma update_same_credentials self h l :
  (forall r, In r l -> row_dni r = dni self -> row_password_hash r = h) ->
  map credentials (map (sql_update_user self h) l) = map credentials l.
Proof.
  intros H. rewrite map_map. apply map_ext_in. intros r Hin.
  unfold sql_update_user, has_dni.
  destruct (String.eqb_spec (row_dni r) (dni self)) as [E|E]; [|reflexivity].
  unfold credentials. cbn. now rewrite (H r Hin E).
Qed.

Lemma credentials_dni l : map fst (map credentials l) = map row_dni l.
Proof. rewrite map_map. reflexivity. Qed.

Lemma save_credentials self :
  dni self = d -> password_hash self = oh ->
  hoare (credentials_kept_for C d oh) (save self)
    (fun u' x => credentials_kept_for C d oh x /\ dni u' = d /\ password_hash u' = oh)
    (credentials_kept_for C d oh).
Proof.
  intros Hd Hh x HK. pose proof HK as ((Hnd & added & Hc) & Hag).
  unfold save. unfold bind at 1. unfold find_by_dni, get. rewrite Hh.
  destruct oh as [h|]; [|exact HK].
  assert (Hsame : forall r, In r (users x) -> row_dni r = dni self -> row_password_hash r = h).
  { intros r Hin Hr. rewrite Hd in Hr. specialize (Hag r Hin Hr). congruence. }
  destruct (has_row _).
  - unfold bind, modify, ret. split; [|auto]. split; [split|].
    + cbn [users set_users]. rewrite <- credentials_dni, update_same_credentials by exact Hsame.
      now rewrite credentials_dni.
    + exists added. cbn [users set_users].
      now rewrite update_same_credentials by exact Hsame.
    + cbn [users set_users]. intros r Hin Hr. apply in_map_iff in Hin.
      destruct Hin as (r0 & <- & Hin0). revert Hr. unfold sql_update_user, has_dni.
      destruct (String.eqb_spec (row_dni r0) (dni self)) as [E|E]; cbn.
      * reflexivity.
      * intros Hr. now apply Hag.
  - unfold bind.
    destruct (sql_insert_user_cases (dni self) h (status self) x) as [[_ ->]|[Hfree ->]].
    + exact HK.
    + unfold ret. split; [|auto]. unfold credentials_kept_for, credentials_kept.
      cbn [users set_users tick]. split; [split|].
      * rewrite map_app. cbn [map row_dni inserted_row].
        apply NoDup_snoc; [exact Hnd|]. now apply existsb_has_dni_false.
      * exists (added ++ [credentials (inserted_row (dni self) h (status self) x)])%list.
        rewrite map_app, Hc. cbn [map]. now rewrite app_assoc.
      * intros r Hin Hr. apply in_app_or in Hin. destruct Hin as [Hin|[<-|[]]].
        -- now apply Hag.
        -- reflexivity.
Qed.

Lemma credentials_kept_for_reads_users : reads_users (credentials_kept_for C d oh).
Proof.
  intros a b Hu H. unfold credentials_kept_for, credentials_kept in *. now rewrite Hu.
Qed.

Lemma credentials_kept_reads_users : reads_users (credentials_kept C).
Proof. intros a b Hu H. unfold credentials_kept in *. now rewrite Hu. Qed.

Lemma returned_with_credentials (user : User) :
  dni user = d -> password_hash user = oh ->
  hoare (credentials_kept_for C d oh) (ret user)
    (fun u' x => credentials_kept_for C d oh x /\ dni u' = d /\ password_hash u' = oh)
    (credentials_kept_for C d oh).
Proof. intros Hd Hh x HK. cbn. auto. Qed.

Lemma rules_credentials user :
  dni user = d -> password_hash user = oh ->
  hoare (credentials_kept_for C d oh) (update_user_status_based_on_rules user)
    (fun u' x => credentials_kept_for C d oh x /\ dni u' = d /\ password_hash u' = oh)
    (credentials_kept_for C d oh).
Proof.
  intros Hd Hh. unfold update_user_status_based_on_rules.
  eapply hoare_bind;
    [apply keeps_datetime_now, users_only, credentials_kept_for_reads_users|]. intros now.
  eapply hoare_bind with
    (Q := fun u' x => credentials_kept_for C d oh x /\ (dni u' = d /\ password_hash u' = oh)).
  2:{ intros u'. apply hoare_pure. intros [Hd' Hh']. now apply save_credentials. }
  destruct (ts_truthy (last_login user)).
  - apply hoare_try; [|now apply returned_with_credentials].
    eapply hoare_bind; [apply keeps_lift|]. intros t.
    destruct (_ <? _); now apply returned_with_credentials.
  - eapply hoare_bind;
      [apply keeps_check_consecutive, users_only, credentials_kept_for_reads_users|].
    intros flagged. destruct flagged; now apply returned_with_credentials.
Qed.

Lemma log_activity_credentials self a r details :
  keeps (credentials_kept_for C d oh) (log_activity self a r details).
Proof. apply keeps_log_activity, credentials_kept_for_reads_users. Qed.

Lemma update_login_attempt_credentials user success :
  dni user = d -> password_hash user = oh ->
  keeps (credentials_kept_for C d oh) (update_login_attempt user success).
Proof.
  intros Hd Hh. unfold update_login_attempt.
  eapply hoare_bind;
    [apply keeps_datetime_now, users_only, credentials_kept_for_reads_users|]. intros t.
  eapply hoare_bind with
    (Q := fun u' x => credentials_kept_for C d oh x /\ (dni u' = d /\ password_hash u' = oh)).
  - destruct success; [now apply returned_with_credentials|].
    destruct (_ && _); [|now apply returned_with_credentials].
    apply hoare_try; [|now apply returned_with_credentials].
    eapply hoare_bind; [apply keeps_lift|]. intros t0.
    eapply hoare_bind;
    [apply keeps_datetime_now, users_only, credentials_kept_for_reads_users|]. intros t'.
    destruct (_ <? _); now apply returned_with_credentials.
  - intros u'. apply hoare_pure. intros [Hd' Hh'].
    eapply hoare_bind; [now apply save_credentials|]. intros u''.
    apply hoare_pure. intros _.
    apply keeps_bind; [apply log_activity_credentials|intro]. apply keeps_ret.
Qed.

End Credentials.

Lemma find_credentials (C : list (string * string)) (d : string) :
  hoare (credentials_kept C) (find_by_dni d)
    (fun found x =>
       match found with
       | Some u => credentials_kept_for C (dni u) (password_hash u) x
       | None => forall oh, credentials_kept_for C d oh x
       end)
    (credentials_kept C).
Proof.
  intros x HK. cbn. pose proof HK as (Hnd & _).
  destruct (find (has_dni d) (users x)) as [row|] eqn:Hf; cbn [option_map].
  - split; [exact HK|]. intros r Hin Hr. cbn in Hr |- *.
    assert (r = row) as -> ; [|reflexivity].
    apply (NoDup_map_injective row_dni (users x)); auto.
    apply find_some in Hf. tauto.
  - intros oh. split; [exact HK|]. intros r Hin Hr.
    apply find_none with (x := r) in Hf; [|exact Hin].
    unfold has_dni in Hf. rewrite Hr, String.eqb_refl in Hf. discriminate.
Qed.

Lemma login_credentials (C : list (string * string)) rq :
  keeps (credentials_kept C) (login rq).
Proof.
  pose proof (credentials_kept_reads_users C) as Hread.
  assert (Hquiet : forall {A} (m : M A) u,
            keeps (credentials_kept_for C (dni u) (password_hash u)) m ->
            hoare (credentials_kept_for C (dni u) (password_hash u)) m
              (fun _ => credentials_kept C) (credentials_kept C)).
  { intros A m u H. eapply hoare_weaken; [exact H|auto|intros ? ? [? _]; auto|intros ? [? _]; auto]. }
  unfold login. destruct (method rq); [apply keeps_ret|].
  destruct (negb _ || negb _).
  { unfold flash. repeat first [keeps_step | apply keeps_modify; intros ? Hkept; exact Hkept]. }
  eapply hoare_bind; [apply find_credentials|]. intros [user|].
  2:{ eapply hoare_pre; [intros x H; exact (proj1 (H None))|].
      unfold flash. repeat first [keeps_step | apply keeps_modify; intros ? Hkept; exact Hkept]. }
  apply Hquiet.
  eapply hoare_bind; [now apply rules_credentials|]. intros user'.
  apply hoare_pure. intros [Hd Hh].
  pose proof (credentials_kept_for_reads_users C (dni user) (password_hash user)) as Hr.
  destruct (str_in _ _).
  - apply keeps_bind; [unfold flash; apply keeps_modify; intros ? Hkept; exact Hkept|intro].
    apply keeps_bind; [apply log_activity_credentials|intro]. apply keeps_ret.
  - apply keeps_bind.
    { unfold check_password.
      repeat first [keeps_step | apply keeps_modify; intros ? Hkept; exact Hkept]. }
    intros ok. destruct ok.
    + apply keeps_bind; [now apply update_login_attempt_credentials|intro].
      unfold session_set_user_dni, session_set_is_admin.
      repeat first [keeps_step | apply keeps_modify; intros ? Hkept; exact Hkept].
    + apply keeps_bind; [now apply update_login_attempt_credentials|intro].
      unfold flash.
      repeat first [keeps_step | apply keeps_modify; intros ? Hkept; exact Hkept].
Qed.

Lemma register_credentials (C : list (string * string)) rq :
  keeps (credentials_kept C) (register rq).
Proof.
  pose proof (credentials_kept_reads_users C) as Hread.
  unfold register. destruct (method rq); [apply keeps_ret|].
  destruct (validate_input _ _).
  2:{ apply keeps_bind; [|intro; apply keeps_ret].
      apply keeps_for_each. intro. now apply keeps_flash, users_only. }
  destruct (validate_dni _) as [[|] ?]; cbn [negb].
  2:{ apply keeps_bind; [now apply keeps_flash, users_only|intro; apply keeps_ret]. }
  destruct (negb (String.eqb _ _)).
  { apply keeps_bind; [now apply keeps_flash, users_only|intro; apply keeps_ret]. }
  destruct (validate_password _) as [[|] ?]; cbn [negb].
  2:{ apply keeps_bind; [now apply keeps_flash, users_only|intro; apply keeps_ret]. }
  eapply hoare_bind; [apply find_credentials|]. intros [existing|].
  { eapply hoare_pre with (P := credentials_kept C); [intros ? [? _]; auto|].
    apply keeps_bind; [now apply keeps_flash, users_only|intro; apply keeps_ret]. }
  eapply hoare_bind with (Q := fun h x =>
    credentials_kept_for C (form_get_or_empty rq "dni") (Some h) x).
  { intros x H. cbn.
    apply (credentials_kept_for_reads_users C _ _ x); [reflexivity|apply H]. }
  intros h.
  pose proof (credentials_kept_for_reads_users C (form_get_or_empty rq "dni") (Some h)) as Hr.
  eapply hoare_weaken with
    (P := credentials_kept_for C (form_get_or_empty rq "dni") (Some h))
    (Q := fun _ => credentials_kept_for C (form_get_or_empty rq "dni") (Some h))
    (E := credentials_kept_for C (form_get_or_empty rq "dni") (Some h));
    [|auto|intros ? ? [? _]; auto|intros ? [? _]; auto].
  eapply hoare_bind; [now apply save_credentials|]. intros new_user'.
  apply hoare_pure. intros _.
  apply keeps_bind; [apply log_activity_credentials|intro].
  apply keeps_bind; [now apply keeps_flash, users_only|intro; apply keeps_ret].
Qed.

Lemma change_user_status_credentials (C : list (string * string)) rq :
  keeps (credentials_kept C) (change_user_status rq).
Proof.
  pose proof (credentials_kept_reads_users C) as Hread.
  unfold change_user_status.
  apply keeps_bind; [apply keeps_get|]. intros admin.
  destruct (negb admin); [apply keeps_ret|].
  destruct (form_get rq "dni") as [d|]; [|apply keeps_ret].
  destruct (form_get rq "new_status") as [s|]; [|apply keeps_ret].
  destruct (negb _ || negb _); [apply keeps_ret|].
  destruct (String.eqb d "admin"); [apply keeps_ret|].
  eapply hoare_bind; [apply find_credentials|]. intros [user|].
  2:{ intros x H. exact (proj1 (H None)). }
  destruct (String.eqb _ s).
  { intros x H. exact (proj1 H). }
  eapply hoare_weaken with
    (P := credentials_kept_for C (dni user) (password_hash user))
    (Q := fun _ => credentials_kept_for C (dni user) (password_hash user))
    (E := credentials_kept_for C (dni user) (password_hash user));
    [|auto|intros ? ? [? _]; auto|intros ? [? _]; auto].
  eapply hoare_bind; [now apply save_credentials|]. intros saved.
  apply hoare_pure. intros _.
  apply keeps_bind; [|intro; apply keeps_ret].
  apply log_as_admin_keeps, credentials_kept_for_reads_users.
Qed.

Lemma quiet_credentials (C : list (string * string)) :
  keeps (credentials_kept C) logout
  /\ (forall rq, keeps (credentials_kept C) (admin_login rq))
  /\ (forall rq, keeps (credentials_kept C) (change_admin_password rq)).
Proof.
  pose proof (credentials_kept_reads_users C) as Hread.
  pose proof (users_only _ Hread) as Hdb.
  split; [|split; intros rq].
  - unfold logout.
    repeat first
      [ keeps_step
      | now apply keeps_log_activity
      | now apply keeps_session_clear
      | now apply keeps_flash ].
  - unfold admin_login.
    repeat first
      [ keeps_step
      | now apply log_as_admin_keeps
      | now apply keeps_session_set_is_admin
      | now apply keeps_session_set_user_dni
      | now apply keeps_flash ].
  - unfold change_admin_password.
    repeat first [ keeps_step | now apply log_as_admin_keeps ].
Qed.

(** X21. A stored password hash changes by an administrator's reset
    only. From a table with unique identifiers, whatever a client sends
    in whatever session, after the request every row that was in table
    [users] is at its place with its identifier and its password hash,
    new rows coming after them; the one exception is
    [change_user_password] in a session with administrator rights. Logins
    (right or wrong), registrations, status changes and
    [change_admin_password] leave every hash alone. *)
Theorem password_hashes_change_by_admin_reset_only (w : World) (client : Session) :
  NoDup (map row_dni (users w)) ->
  (forall op,
     (forall rq, op = ChangeUserPassword rq -> is_admin client = false) ->
     credentials_extend w (snd (perform op (set_session (fun _ => client) w))))
  /\ (forall rq,
        credentials_extend w
          (snd (change_user_status rq (set_session (fun _ => client) w)))).
Proof.
  intros Hnd.
  set (C := map credentials (users w)).
  set (w0 := set_session (fun _ => client) w).
  assert (H0 : credentials_kept C w0).
  { split; [exact Hnd|]. exists []. cbn [users w0 set_session]. now rewrite app_nil_r. }
  assert (Hrun : forall (m : M Response),
            keeps (credentials_kept C) m -> credentials_extend w (snd (m w0))).
  { intros m Hm. exact (proj2 (keeps_run _ m w0 Hm H0)). }
  destruct (quiet_credentials C) as (Hlogout & Hadmin & Hown).
  split.
  - intros op Hop. destruct op as [rq|rq| |rq|rq|rq]; cbn [perform].
    + apply Hrun, login_credentials.
    + apply Hrun, register_credentials.
    + apply Hrun, Hlogout.
    + apply Hrun, Hadmin.
    + specialize (Hop rq eq_refl).
      unfold change_user_password, bind, get. cbn [w0 session set_session].
      rewrite Hop. cbn. exists []. now rewrite app_nil_r.
    + apply Hrun, Hown.
  - intros rq. apply Hrun, change_user_status_credentials.
Qed.

(** ** The rule of consecutive days, conversely *)

(** In a list of dates in strictly descending order that holds none
    after [m] and holds [m], [m - 1], ..., the first [n] are exactly
    these. *)
Lemma descending_top (n : nat) (m : Z) (l : list (option Z)) :
  descending l ->
  (forall k, In k l -> exists z, k = Some z /\ z <= m) ->
  (forall i : nat, (i < n)%nat -> In (Some (m - Z.of_nat i)) l) ->
  firstn n l = map (fun i : nat => Some (m - Z.of_nat i)) (seq 0 n).
Proof.
  unfold descending. revert m l. induction n as [|n IH]; intros m l Hs Hle Hin;
    [reflexivity|].
  destruct l as [|k l].
  { destruct (Hin 0%nat); lia. }
  apply StronglySorted_inv in Hs. destruct Hs as [Hl Hk]. rewrite Forall_forall in Hk.
  assert (Hhead : k = Some m).
  { pose proof (Hin 0%nat ltac:(lia)) as H0. cbn [Z.of_nat] in H0. rewrite Z.sub_0_r in H0.
    destruct H0 as [H0|H0]; [exact H0|]. specialize (Hk _ H0).
    destruct (Hle k (or_introl eq_refl)) as (z & -> & Hz). cbn in Hk.
    apply Z.ltb_lt in Hk. lia. }
  subst k. cbn [firstn seq map]. rewrite Z.sub_0_r. f_equal.
  rewrite <- seq_shift, map_map.
  rewrite (IH (m - 1) l Hl).
  - apply map_ext. intros i. f_equal. lia.
  - intros k Hkin. destruct (Hle k (or_intror Hkin)) as (z & -> & Hz).
    exists z. split; [reflexivity|]. specialize (Hk _ Hkin). cbn in Hk.
    apply Z.ltb_lt in Hk. lia.
  - intros i Hi. destruct (Hin (S i) ltac:(lia)) as [H|H].
    + injection H as H. lia.
    + replace (m - 1 - Z.of_nat i) with (m - Z.of_nat (S i)) by lia. exact H.
Qed.

Lemma parse_dates_in_range rows acc zs :
  keys rows = map Some zs ->
  (forall z, In z zs -> -719162 <= z <= 2932896) ->
  parse_dates rows acc = Returned (acc ++ zs)%list.
Proof.
  revert acc zs. induction rows as [|[k n] rows IH]; intros acc zs Hk Hr.
  - destruct zs; [|discriminate]. cbn. now rewrite app_nil_r.
  - destruct zs as [|z zs]; [discriminate|]. cbn [keys map fst] in Hk.
    injection Hk as -> Hk. cbn [parse_dates fst date_fromisoformat].
    pose proof (Hr z (or_introl eq_refl)) as Hz.
    replace (-719162 <=? z) with true by (symmetry; apply Z.leb_le; lia).
    replace (z <=? 2932896) with true by (symmetry; apply Z.leb_le; lia).
    cbn [andb]. rewrite (IH (acc ++ [z])%list zs Hk).
    + now rewrite <- app_assoc.
    + intros y Hy. apply Hr. now right.
Qed.

Lemma check_consecutive_complete (d : string) (w : World) :
  let today := date_of (local_time w 1) in
  stamped w ->
  (forall i : nat, (i < 5)%nat -> date_of (local_time w (S i)) = today) ->
  (forall i, 0 <= i < 5 -> failed_on w d (today - i)) ->
  (forall day, failed_on w d day -> day <= today) ->
  date_of (clock w (ticks w)) - 5 <= today - 4 ->
  -719162 <= today - 4 ->
  today <= 2932896 ->
  exists w',
    check_consecutive_failed_logins d 5 w = (Returned true, w')
    /\ users w' = users w /\ activities w' = activities w.
Proof.
  intros today Hst Hsame Hfail Hlast Hcut Hlow Hhigh.
  unfold check_consecutive_failed_logins.
  set (cutoff := date_of (clock w (ticks w)) - 5) in *.
  set (dates := map (fun a => sql_DATE (act_timestamp a))
                  (filter (failed_login_since d cutoff) (activities w))).
  set (groups := group_by_date_desc dates).
  assert (Hsel : select_recent_attempts d 5 w = (Returned (firstn 5 groups), tick w))
    by reflexivity.
  rewrite (bind_returned _ _ _ _ _ Hsel).
  assert (Hkeys : firstn 5 (keys groups)
                  = map Some [today; today - 1; today - 2; today - 3; today - 4]).
  { rewrite (descending_top 5 today (keys groups) (group_descending dates)).
    - cbn [seq map Z.of_nat Pos.of_succ_nat Pos.succ]. now rewrite Z.sub_0_r.
    - intros k Hk. apply (proj1 (group_keys dates k)) in Hk. unfold dates in Hk.
      apply in_map_iff in Hk. destruct Hk as (a & <- & Hin).
      apply filter_In in Hin. destruct Hin as [Hin Hf].
      destruct (Hst a Hin) as (t & Ht). rewrite Ht. cbn [sql_DATE].
      exists (date_of t). split; [reflexivity|]. apply Hlast.
      apply failed_login_since_true in Hf. exists a. rewrite Ht. cbn [sql_DATE]. tauto.
    - intros i Hi. destruct (Hfail (Z.of_nat i) ltac:(lia)) as (a & Hin & Hu & Hact & Hres & Hd).
      apply (proj2 (group_keys dates _)). unfold dates. apply in_map_iff.
      exists a. split; [exact Hd|]. apply filter_In. split; [exact Hin|].
      apply failed_login_since_true. repeat split; try assumption.
      destruct (act_timestamp a) as [t|s]; [|discriminate].
      cbn in Hd |- *. injection Hd as Hd. apply Z.leb_le. lia. }
  assert (Hlen : List.length (firstn 5 groups) = 5%nat).
  { transitivity (List.length (keys (firstn 5 groups)));
      [unfold keys; symmetry; apply length_map|].
    now rewrite keys_firstn, Hkeys. }
  rewrite Hlen. change (5 <=? Z.of_nat 5) with true. cbv iota.
  rewrite (bind_returned _ _ _ _ _ (expected_dates_run (tick w))).
  change (Z.to_nat 5) with 5%nat.
  rewrite firstn_firstn. cbn [Nat.min].
  unfold bind. rewrite parse_loop.
  rewrite (parse_dates_in_range (firstn 5 groups) []
             [today; today - 1; today - 2; today - 3; today - 4]).
  - rewrite !local_time_tick.
    rewrite (Hsame 1%nat), (Hsame 2%nat), (Hsame 3%nat), (Hsame 4%nat) by lia.
    fold today. cbn [app].
    assert (Heq : dates_eqb [today; today - 1; today - 2; today - 3; today - 4]
                    [today; today - 1; today - 2; today - 3; today - 4] = true)
      by now apply dates_eqb_eq.
    unfold ret. rewrite Heq. eexists. split; [reflexivity|]. split; reflexivity.
  - now rewrite keys_firstn.
  - intros z Hz. cbn [In] in Hz. lia.
Qed.

(** The converse in the two calendars of the code: for an account that
    has never logged in, when the five readings of the clock taken for
    the expected dates fall on one date [today] of the local calendar,
    the dates that SQLite gives the failed logins of the account (dates
    in UTC) include each of [today], ..., [today - 4] and none after
    [today], SQLite's window of five days reaches back to [today - 4] and
    these dates are dates of the years 1 to 9999, the rule evaluation
    gives ['alertado']. *)
Lemma five_days_flag_in_two_calendars
    (w : World) (d : string) (row : UserRow) :
  let today := date_of (local_time w 2) in
  find (has_dni d) (users w) = Some row ->
  row_id row <> 0 ->
  ts_truthy (row_last_login row) = false ->
  stamped w ->
  (forall i : nat, (i < 5)%nat -> date_of (local_time w (2 + i)) = today) ->
  (forall i, 0 <= i < 5 -> failed_on w d (today - i)) ->
  (forall day, failed_on w d day -> day <= today) ->
  date_of (clock w (S (ticks w))) - 5 <= today - 4 ->
  -719162 <= today - 4 ->
  today <= 2932896 ->
  exists user w',
    update_user_status_based_on_rules (create_from_row row) w = (Returned user, w')
    /\ status user = "alertado"
    /\ find (has_dni d) (users w') = Some (with_status row "alertado")
    /\ activities w' = activities w.
Proof.
  intros today Hf Hid Hnever Hst Hsame Hfail Hlast Hcut Hlow Hhigh.
  pose proof (find_has_dni _ _ _ Hf) as Hd.
  unfold update_user_status_based_on_rules.
  unfold bind at 1. unfold datetime_now. unfold bind at 1.
  change (last_login (create_from_row row)) with (row_last_login row). rewrite Hnever.
  unfold bind at 1.
  destruct (check_consecutive_complete d (tick w)) as (w1 & Hrun & Hu & Ha);
    try (rewrite ?local_time_tick; assumption).
  { intros i Hi. rewrite !local_time_tick. exact (Hsame i Hi). }
  cbn [users activities tick] in Hu, Ha.
  change (dni (create_from_row row)) with (row_dni row). rewrite Hd, Hrun.
  unfold ret at 1.
  rewrite (save_existing _ w1 row (row_password_hash row));
    [| cbn; rewrite Hu, Hd; exact Hf | exact Hid | reflexivity].
  do 2 eexists. split; [reflexivity|]. split; [reflexivity|].
  cbn [users activities set_users]. rewrite Hu. split; [|exact Ha].
  rewrite find_update, Hf. cbn [option_map]. rewrite update_hit; [reflexivity|].
  cbn. unfold has_dni. apply String.eqb_refl.
Qed.

(** X22. Five days of failures flag the account, on a server whose
    local time is UTC (so that Python's dates and SQLite's are dates of
    one calendar): for an account that has never logged in, when the six
    readings of the clock that the check takes (SQLite's ['now'] and the
    five for the expected dates) fall on one date, today, every audit
    row has a well-formed timestamp, the audit log holds a failed login
    of the account on each of today, yesterday, ..., today minus 4 and
    none on a later date, and these are dates of the years 1 to 9999, the
    rule evaluation flags the account: the returned user and the row have
    status ['alertado'], whatever the status was, and nothing else
    changes in the row. *)
Theorem five_days_of_failures_flag_the_account
    (w : World) (d : string) (row : UserRow) :
  let today := date_of (clock w (S (ticks w))) in
  tz w = 0 ->
  find (has_dni d) (users w) = Some row ->
  row_id row <> 0 ->
  ts_truthy (row_last_login row) = false ->
  stamped w ->
  (forall i : nat, (i < 6)%nat -> date_of (clock w (S (ticks w) + i)) = today) ->
  (forall i, 0 <= i < 5 -> failed_on w d (today - i)) ->
  (forall day, failed_on w d day -> day <= today) ->
  -719162 <= today - 4 ->
  today <= 2932896 ->
  exists user w',
    update_user_status_based_on_rules (create_from_row row) w = (Returned user, w')
    /\ status user = "alertado"
    /\ find (has_dni d) (users w') = Some (with_status row "alertado")
    /\ activities w' = activities w.
Proof.
  intros today Hz Hf Hid Hnever Hst Hsame Hfail Hlast Hlow Hhigh.
  assert (Hlocal : forall i : nat, (i < 5)%nat -> date_of (local_time w (2 + i)) = today).
  { intros i Hi. unfold local_time. rewrite Hz, Z.add_0_r.
    replace (ticks w + (2 + i))%nat with (S (ticks w) + S i)%nat by lia.
    apply Hsame. lia. }
  assert (Htoday : date_of (local_time w 2) = today) by exact (Hlocal 0%nat ltac:(lia)).
  apply (five_days_flag_in_two_calendars w d row); try assumption;
    rewrite ?Htoday; try assumption.
  fold today. lia.
Qed.

End RequestOutcomes.

(* ================================================================= *)
(** * The properties on concrete worlds *)

Lemma sample_clock_monotone (w : World) : clock w = sample_clock -> monotone_clock w.
Proof.
  intros E n. rewrite E. unfold sample_clock. lia.
Qed.

Lemma run_pair {A} (m : M A) (w : World) (a : A) :
  fst (m w) = Returned a -> m w = (Returned a, snd (m w)).
Proof. intros H. rewrite <- H. apply surjective_pairing. Qed.

(** C1. The fifth failed login blocks the account although the failure
    before it is an hour old: after a registration and four failed
    logins the counter is 4 and the status is unchanged; the next clock
    reading comes an hour later, and the failed login that takes it
    leaves the account ['bloqueado']. The check compares the clock with
    the [last_attempt] that the same call has just written. *)
Theorem fifth_failure_blocks_an_hour_later :
  let before := find (has_dni sample_dni) (users after_four_failures) in
  let later := find (has_dni sample_dni)
                 (users (after (login bad_login) after_four_failures)) in
  option_map row_status before = Some "inmaculado"
  /\ option_map row_login_attempts before = Some 4
  /\ option_map row_last_attempt before = Some (Some (IsoText (noon + sample_tz + 17000)))
  /\ clock after_four_failures (2 + ticks after_four_failures) + sample_tz
     = noon + sample_tz + hour + 21000
  /\ option_map row_last_attempt later
     = Some (Some (IsoText (noon + sample_tz + hour + 21000)))
  /\ option_map row_login_attempts later = Some 5
  /\ option_map row_status later = Some "bloqueado".
Proof. vm_compute. repeat split. Qed.

(** C4. An account is moved to ['alertado'] although it has no failed
    login today, in either calendar. The server is three hours behind
    UTC. After a registration and a failed login at 22:00 local time on
    each of five evenings, 30 October to 3 November (the fifth leaves the
    account ['bloqueado'], and it has never logged in), the next login
    comes at 22:00 on 4 November, which is 01:00 UTC on 5 November. The
    failed logins are on 31 October to 4 November in UTC and on 30
    October to 3 November in local time, the most recent one yesterday
    in both; the rule evaluation compares the UTC dates of the rows with
    the local dates 4 November back to 31 October, finds them equal, and
    the row of the account gets ['alertado']. *)
Theorem flagged_without_a_failure_today :
  let w := after_five_evenings in
  let before := find (has_dni sample_dni) (users w) in
  let later := find (has_dni sample_dni) (users (after (login good_login) w)) in
  option_map row_status before = Some "bloqueado"
  /\ option_map row_last_login before = Some None
  /\ map (fun a => utc_date (act_timestamp a)) (failed_logins w sample_dni)
     = [Some 20757; Some 20758; Some 20759; Some 20760; Some 20761]
  /\ map (fun a => local_date w (act_timestamp a)) (failed_logins w sample_dni)
     = [Some 20756; Some 20757; Some 20758; Some 20759; Some 20760]
  /\ date_of (clock w (ticks w)) = 20762
  /\ date_of (local_time w 0) = 20761
  /\ fst (check_consecutive_failed_logins sample_dni 5 (tick w)) = Returned true
  /\ option_map row_status later = Some "alertado".
Proof. vm_compute. repeat split. Qed.

(** C8. The rule evaluation raises [TypeError] on an audit row whose
    timestamp is not a time: SQLite's [DATE] gives NULL for it, the NULL
    group is the fifth row of the query, and [datetime.fromisoformat]
    gets [None]; the handler only catches [ValueError]. *)
Theorem malformed_activity_timestamp_raises :
  fst (select_recent_attempts sample_dni 5 (tick garbage_world))
  = Returned [(Some 20761, 1); (Some 20760, 1); (Some 20759, 1); (Some 20758, 1); (None, 1)]
  /\ fst (check_consecutive_failed_logins sample_dni 5 (tick garbage_world))
     = Raised TypeError
  /\ fst (login good_login garbage_world) = Raised TypeError.
Proof. vm_compute. repeat split. Qed.

(** Witness of C2: the login of a suspended account. *)
Lemma login_gate_rejects_without_password_check_witness :
  exists w2,
    login good_login suspended_world = (Returned (render_template "login.html"), w2)
    /\ hash_checks w2 = hash_checks suspended_world
    /\ act_details (last (activities w2) (failed_login_event 0 "" (BadText "")))
       = Some "Usuario suspendido".
Proof.
  destruct (login_gate_rejects_without_password_check (hasher := plain_hasher)
              suspended_world good_login sample_dni "Abc12345!"
              (sample_row sample_dni "suspendido" None 0 None)
              (create_from_row (sample_row sample_dni "suspendido" None 0 None))
              (snd (update_user_status_based_on_rules
                      (create_from_row (sample_row sample_dni "suspendido" None 0 None))
                      suspended_world)))
    as (w2 & Hl & Hh & _ & _ & Ha & _).
  - repeat split.
  - reflexivity.
  - apply run_pair. vm_compute. reflexivity.
  - reflexivity.
  - exists w2. split; [exact Hl|]. split; [exact Hh|].
    rewrite Ha, last_last. reflexivity.
Defined.

(** Witness of C3: the login of an account whose last login is 181 days
    old. *)
Lemma stale_account_paused_before_gate_witness :
  exists w2,
    login good_login stale_world = (Returned (render_template "login.html"), w2)
    /\ option_map row_status (find (has_dni sample_dni) (users w2)) = Some "pausado"
    /\ hash_checks w2 = hash_checks stale_world.
Proof.
  destruct (stale_account_paused_before_gate (hasher := plain_hasher)
              stale_world good_login sample_dni "Abc12345!"
              (sample_row sample_dni "activo"
                 (Some (IsoText (noon + sample_tz - timedelta_days 181))) 0 None)
              (noon + sample_tz - timedelta_days 181))
    as (w1 & w2 & row' & _ & Hf & Hs & Hl & Hu & _ & Hh).
  - repeat split.
  - reflexivity.
  - cbn. discriminate.
  - reflexivity.
  - vm_compute. reflexivity.
  - exists w2. split; [exact Hl|]. split; [|exact Hh].
    rewrite Hu, Hf. cbn. now rewrite Hs.
Defined.

(** Witness of C5: registration and login on the database right after
    start-up. *)
Lemma register_then_login_succeeds_witness :
  exists w1 w2 row,
    register registration boot = (Returned (redirect "index"), w1)
    /\ login good_login w1 = (Returned (render_template "success.html"), w2)
    /\ find (has_dni sample_dni) (users w2) = Some row
    /\ row_status row = "activo"
    /\ row_login_attempts row = 0
    /\ row_last_login row = Some (isoformat (clock boot (4 + ticks boot) + tz boot))
    /\ user_dni (session w2) = Some sample_dni.
Proof.
  apply (register_then_login_succeeds (hasher := plain_hasher) boot registration
           good_login sample_dni "Abc12345!").
  - apply reachable_start; reflexivity.
  - repeat split.
  - reflexivity.
  - reflexivity.
  - reflexivity.
  - reflexivity.
  - vm_compute. split; discriminate.
  - vm_compute. repeat split; discriminate.
  - reflexivity.
Defined.

(** Witness of C6: a password without a special character. *)
Lemma register_rejects_bad_password_witness :
  exists errors,
    errors <> []
    /\ register (post [("dni", sample_dni); ("password", "Abcd12345");
                       ("confirm_password", "Abcd12345")]) boot
       = (Returned (render_template "register.html"), flashed "error" errors boot)
    /\ users (flashed "error" errors boot) = users boot
    /\ activities (flashed "error" errors boot) = activities boot.
Proof.
  apply (register_rejects_bad_password (hasher := plain_hasher) boot _ "Abcd12345").
  - reflexivity.
  - reflexivity.
  - right. right. right. reflexivity.
Defined.

(** Witness of C7: the administrator lifts a suspension. *)
Lemma change_user_status_outcomes_witness :
  exists w',
    change_user_status (post [("dni", sample_dni); ("new_status", "activo")])
      (as_admin suspended_world)
    = (Returned (jsonify_success None), w')
    /\ option_map row_status (find (has_dni sample_dni) (users w')) = Some "activo".
Proof.
  destruct (change_user_status_outcomes
              (as_admin suspended_world)
              (post [("dni", sample_dni); ("new_status", "activo")])
              sample_dni "activo"
              (mkUserRow 1 "admin" "$Password123!" "activo" (CURRENT_TIMESTAMP noon)
                         None 0 None))
    as (_ & _ & _ & H).
  - reflexivity.
  - reflexivity.
  - reflexivity.
  - reflexivity.
  - reflexivity.
  - reflexivity.
  - destruct (H (sample_row sample_dni "suspendido" None 0 None))
      as (w' & Hrun & Hf & _).
    + discriminate.
    + reflexivity.
    + discriminate.
    + cbn. discriminate.
    + exists w'. split; [exact Hrun|]. now rewrite Hf.
Defined.

(** Witness of C9: a suspended account after a login with the right
    password and a logout. *)
Lemma blocked_account_stays_blocked_witness :
  blocked_account sample_dni
    (after (perform (hasher := plain_hasher) Logout)
       (set_session (fun _ => empty_session)
          (after (perform (Authenticate good_login))
             (set_session (fun _ => empty_session) suspended_world)))).
Proof.
  apply (blocked_account_stays_blocked (hasher := plain_hasher) sample_dni suspended_world).
  - exists (sample_row sample_dni "suspendido" None 0 None). split; reflexivity.
  - eapply steps_more; [eapply steps_more; [apply steps_done|]|].
    + apply (step_intro _ empty_session (Authenticate good_login)).
    + apply (step_intro _ empty_session Logout).
Defined.

(** Witness of C10: the administrator "changes" the password on the
    database right after start-up. *)
Lemma change_admin_password_changes_nothing_witness :
  exists w',
    change_admin_password
      (post [("current_password", ADMIN_PASSWORD); ("new_password", "Nueva123!");
             ("confirm_password", "Nueva123!")]) (as_admin boot)
    = (Returned (jsonify_success (Some "Contraseña de administrador actualizada")), w')
    /\ users w' = users boot
    /\ fst (admin_login (post [("password", "Nueva123!")]) w')
       <> Returned (redirect "admin_dashboard").
Proof.
  destruct (change_admin_password_changes_nothing
              (as_admin boot)
              (post [("current_password", ADMIN_PASSWORD); ("new_password", "Nueva123!");
                     ("confirm_password", "Nueva123!")]) "Nueva123!")
    as (w' & Hrun & Hu & _ & _ & _ & Hlogin).
  - reflexivity.
  - reflexivity.
  - reflexivity.
  - reflexivity.
  - vm_compute. repeat split; discriminate.
  - exists w'. split; [exact Hrun|]. split; [exact Hu|].
    intros H. apply (Hlogin (post [("password", "Nueva123!")]) "Nueva123!") in H;
      [discriminate | reflexivity | reflexivity | reflexivity].
Defined.

(** ** Runs of the further properties *)

(** X1 on a run: the audit log after a registration and a failed login
    (two rows) is kept by the login of the administrator that follows. *)
Lemma audit_log_is_append_only_witness :
  audit_extends registered_world
    (snd (perform (hasher := plain_hasher) (AdminLogin administrator_login)
            (set_session (fun _ => empty_session) registered_world))).
Proof.
  apply (audit_log_is_append_only (hasher := plain_hasher)).
  eapply request_steps_more; [apply request_steps_done|].
  apply (request_ordinary registered_world empty_session (AdminLogin administrator_login)).
Defined.

(** X2 on a run: a registration and a failed login after start-up keep
    the row ['admin'], and the failed login keeps the identity of the new
    account. *)
Lemma accounts_keep_their_identity_witness :
  accounts_extend boot registered_world
  /\ accounts_extend
       (snd (perform (hasher := plain_hasher) (Register registration)
               (set_session (fun _ => empty_session) boot)))
       registered_world.
Proof.
  split; apply (accounts_keep_their_identity (hasher := plain_hasher)).
  - eapply request_steps_more;
      [eapply request_steps_more; [apply request_steps_done|]|].
    + apply (request_ordinary boot empty_session (Register registration)).
    + apply (request_ordinary _ empty_session (Authenticate bad_login)).
  - eapply request_steps_more; [apply request_steps_done|].
    apply (request_ordinary _ empty_session (Authenticate bad_login)).
Defined.

(** X3 on a run: the two accounts after start-up, a registration and a
    failed login. *)
Lemma identifiers_are_unique_witness : unique_accounts registered_world.
Proof.
  apply (identifiers_are_unique (hasher := plain_hasher)).
  apply (reachable_request (hasher := plain_hasher) _ empty_session
           (Authenticate bad_login)).
  apply (reachable_request (hasher := plain_hasher) _ empty_session
           (Register registration)).
  apply (reachable_start blank_world); reflexivity.
Defined.

(** X4 on a run: after start-up and a registration. *)
Lemma audit_rows_name_registered_accounts_witness :
  (exists admin_row,
      find (has_dni "admin")
        (users (after (register (hasher := plain_hasher) registration) boot))
      = Some admin_row)
  /\ (forall a,
        In a (activities (after (register (hasher := plain_hasher) registration) boot)) ->
        exists d row,
          act_user_dni a = Some d
          /\ find (has_dni d)
               (users (after (register (hasher := plain_hasher) registration) boot))
             = Some row).
Proof.
  apply (audit_rows_name_registered_accounts (hasher := plain_hasher)).
  apply (reachable_request (hasher := plain_hasher) boot (session boot) (Register registration)).
  apply (reachable_start blank_world); reflexivity.
Defined.

(** X5 on a run: the totals before and after a registration. *)
Lemma system_stats_never_decrease_witness :
  exists total_users total_activities total_users' total_activities',
    fst (get_system_stats boot) = Returned (total_users, total_activities)
    /\ fst (get_system_stats
              (snd (perform (hasher := plain_hasher) (Register registration)
                      (set_session (fun _ => empty_session) boot))))
       = Returned (total_users', total_activities')
    /\ total_users <= total_users' /\ total_activities <= total_activities'.
Proof.
  apply (system_stats_never_decrease (hasher := plain_hasher)).
  eapply request_steps_more; [apply request_steps_done|].
  apply (request_ordinary boot empty_session (Register registration)).
Defined.


(** X7 on a run: a new user is saved right after start-up. *)
Lemma save_then_find_new_witness :
  exists w' rowid,
    save (new_user "87654321" "$Abc12345!") boot
    = (Returned (set_id (new_user "87654321" "$Abc12345!") rowid), w')
    /\ rowid <> 0
    /\ find (has_dni "87654321") (users w')
       = Some (mkUserRow rowid "87654321" "$Abc12345!" "inmaculado"
                 (CURRENT_TIMESTAMP (clock boot (ticks boot))) None 0 None).
Proof.
  destruct (save_then_find_new (new_user "87654321" "$Abc12345!") boot "$Abc12345!")
    as (w' & rowid & Hsave & Hid & _ & Hfind & _).
  - reflexivity.
  - reflexivity.
  - exists w', rowid. split; [exact Hsave|]. split; [exact Hid|exact Hfind].
Defined.

(** X8 on a run: a user without a password hash is refused, and the
    suspended account, saved as ['activo'], goes through. *)
Lemma save_fails_without_writing_witness :
  (exists w',
      save hashless_user boot = (Raised IntegrityError, w')
      /\ users w' = users boot /\ activities w' = activities boot)
  /\ (exists u w',
        save (set_status (create_from_row (sample_row sample_dni "suspendido" None 0 None))
                "activo") suspended_world
        = (Returned u, w')).
Proof.
  split.
  - apply (save_fails_without_writing hashless_user boot).
    + vm_compute. split; [discriminate|reflexivity].
    + left. reflexivity.
  - apply (save_fails_without_writing
             (set_status (create_from_row (sample_row sample_dni "suspendido" None 0 None))
                "activo") suspended_world).
    + vm_compute. split; [discriminate|reflexivity].
    + intros [H|(row & Hrow & Hz)]; [discriminate|].
      vm_compute in Hrow. injection Hrow as <-. discriminate.
Defined.

(** X9 on a run: the account whose last login is 181 days old. *)
Lemma rules_change_only_the_status_witness :
  users (snd (update_user_status_based_on_rules
                (create_from_row
                   (sample_row sample_dni "activo"
                      (Some (IsoText (noon + sample_tz - timedelta_days 181))) 0 None))
                stale_world))
  = map (fun r => if has_dni sample_dni r then with_status r "pausado" else r)
      (users stale_world).
Proof.
  pose (row := sample_row sample_dni "activo"
                 (Some (IsoText (noon + sample_tz - timedelta_days 181))) 0 None).
  destruct (rules_change_only_the_status stale_world
              (snd (update_user_status_based_on_rules (create_from_row row) stale_world))
              sample_dni row (set_status (create_from_row row) "pausado"))
    as (H & _).
  - cbn. constructor; [intros [H|[]]; discriminate|].
    constructor; [intros []|constructor].
  - reflexivity.
  - discriminate.
  - apply run_pair. vm_compute. reflexivity.
  - exact H.
Defined.

(** X12 on a run: a login for an identifier that has no row. *)
Lemma login_without_account_leaves_no_trace_witness :
  exists w',
    login (hasher := plain_hasher) unknown_login boot
    = (Returned (render_template "login.html"), w')
    /\ users w' = users boot
    /\ activities w' = activities boot
    /\ user_dni (session w') = user_dni (session boot)
    /\ is_admin (session w') = is_admin (session boot)
    /\ hash_checks w' = hash_checks boot.
Proof.
  apply (login_without_account_leaves_no_trace (hasher := plain_hasher) unknown_login boot).
  reflexivity.
Defined.

(** X13 on a run: the first login of a registered account. *)
Lemma successful_login_effect_witness :
  exists w2,
    login (hasher := plain_hasher) good_login fresh_account_world
    = (Returned (render_template "success.html"), w2)
    /\ find (has_dni sample_dni) (users w2)
       = Some (mkUserRow 2 sample_dni "$Abc12345!" "activo" (IsoText 0)
                 (Some (isoformat (sample_clock 3 + sample_tz))) 0 None)
    /\ user_dni (session w2) = Some sample_dni
    /\ is_admin (session w2) = false.
Proof.
  pose (row := sample_row sample_dni "inmaculado" None 0 None).
  destruct (successful_login_effect (hasher := plain_hasher) fresh_account_world
              (snd (update_user_status_based_on_rules (create_from_row row)
                      fresh_account_world))
              good_login sample_dni "Abc12345!" row (create_from_row row))
    as (w2 & Hrun & Hrow & _ & _ & Hwho & Hadm).
  - repeat split.
  - reflexivity.
  - discriminate.
  - apply run_pair. vm_compute. reflexivity.
  - reflexivity.
  - reflexivity.
  - reflexivity.
  - exists w2. split; [exact Hrun|]. split; [exact Hrow|]. split; [exact Hwho|exact Hadm].
Defined.


(** X16 on a run: right after start-up nobody is the administrator;
    the reset of a password is refused, and the request that gives the
    rights is the login of the administrator. *)
Lemma administrator_rights_come_from_admin_login_witness :
  change_user_password (hasher := plain_hasher) password_reset boot
  = (Returned (jsonify_error "Acceso denegado" 403), boot)
  /\ is_admin (session (snd (perform (hasher := plain_hasher)
                               (AdminLogin administrator_login) boot))) = true
  /\ (exists rq, AdminLogin administrator_login = AdminLogin rq /\ method rq = POST
                 /\ lookup "password" (form rq) = Some ADMIN_PASSWORD).
Proof.
  destruct (administrator_rights_come_from_admin_login (hasher := plain_hasher) boot)
    as (Hgate & Hflag).
  - reflexivity.
  - assert (Hyes : is_admin (session (snd (perform (hasher := plain_hasher)
                                             (AdminLogin administrator_login) boot))) = true)
      by (vm_compute; reflexivity).
    split; [exact (proj1 (proj2 (Hgate password_reset)))|].
    split; [exact Hyes|]. exact (Hflag (AdminLogin administrator_login) Hyes).
Defined.

(** X17 on a run: the administrator resets the password of the
    suspended account. *)
Lemma change_user_password_outcomes_witness :
  exists w' h,
    change_user_password (hasher := plain_hasher) password_reset (as_admin suspended_world)
    = (Returned (jsonify_success None), w')
    /\ check_password_hash h "Xyz98765!" = true
    /\ find (has_dni sample_dni) (users w')
       = Some (mkUserRow 2 sample_dni h "suspendido" (IsoText 0) None 0 None).
Proof.
  destruct (change_user_password_outcomes (hasher := plain_hasher)
              (as_admin suspended_world) password_reset sample_dni "Xyz98765!"
              (sample_row sample_dni "suspendido" None 0 None))
    as (_ & Hgood); try reflexivity.
  - discriminate.
  - destruct Hgood as (w' & h & Hrun & Hcheck & Hrow & _).
    + vm_compute. repeat split; discriminate.
    + exists w', h. split; [exact Hrun|]. split; [exact Hcheck|exact Hrow].
Defined.

(** X20 on a run: the requests of an administrator after start-up, a
    registration and a failed login. *)
Lemma no_request_fails_witness :
  (forall op, exists response,
      fst (perform (hasher := plain_hasher) op
             (set_session (fun _ => mkSession (Some "admin") true []) registered_world))
      = Returned response)
  /\ (forall rq, exists response,
        fst (change_user_status rq
               (set_session (fun _ => mkSession (Some "admin") true []) registered_world))
        = Returned response).
Proof.
  apply (no_request_fails (hasher := plain_hasher) registered_world
           (mkSession (Some "admin") true [])).
  - apply (reachable_request (hasher := plain_hasher) _ empty_session
             (Authenticate bad_login)).
    apply (reachable_request (hasher := plain_hasher) _ empty_session
             (Register registration)).
    apply (reachable_start blank_world); reflexivity.
  - assert (E : map row_login_attempts (users registered_world) = [0; 1])
      by (vm_compute; reflexivity).
    intros r Hin. apply (in_map row_login_attempts) in Hin. rewrite E in Hin.
    destruct Hin as [<-|[<-|[]]]; vm_compute; (split; [discriminate|reflexivity]).
Defined.

(** X21 on a run: the requests right after start-up. *)
Lemma password_hashes_change_by_admin_reset_only_witness :
  (forall op,
     (forall rq, op = ChangeUserPassword rq -> is_admin empty_session = false) ->
     credentials_extend boot
       (snd (perform (hasher := plain_hasher) op
               (set_session (fun _ => empty_session) boot))))
  /\ (forall rq,
        credentials_extend boot
          (snd (change_user_status rq (set_session (fun _ => empty_session) boot)))).
Proof.
  apply (password_hashes_change_by_admin_reset_only (hasher := plain_hasher) boot
           empty_session).
  cbn. constructor; [intros []|constructor].
Defined.

(** X22 on a run: the account with failed logins on each of the last
    five days, on a server in UTC. *)
Lemma five_days_of_failures_flag_the_account_witness :
  exists user w',
    update_user_status_based_on_rules
      (create_from_row (sample_row sample_dni "inmaculado" None 5 None))
      utc_five_days_world
    = (Returned user, w')
    /\ status user = "alertado"
    /\ find (has_dni sample_dni) (users w')
       = Some (with_status (sample_row sample_dni "inmaculado" None 5 None) "alertado").
Proof.
  destruct (five_days_of_failures_flag_the_account utc_five_days_world sample_dni
              (sample_row sample_dni "inmaculado" None 5 None))
    as (user & w' & Hrun & Hstatus & Hrow & _).
  - reflexivity.
  - reflexivity.
  - discriminate.
  - reflexivity.
  - intros a Hin. cbn in Hin.
    repeat (destruct Hin as [<-|Hin]; [eexists; reflexivity|]). destruct Hin.
  - intros i Hi.
    assert (Hcases : (i = 0 \/ i = 1 \/ i = 2 \/ i = 3 \/ i = 4 \/ i = 5)%nat) by lia.
    destruct Hcases as [->|[->|[->|[->|[->| ->]]]]]; vm_compute; reflexivity.
  - intros i Hi.
    assert (Hcases : i = 0 \/ i = 1 \/ i = 2 \/ i = 3 \/ i = 4) by lia.
    destruct Hcases as [->|[->|[->|[->| ->]]]].
    + exists (failed_login_event 5 sample_dni (IsoText noon)).
      split; [cbn; tauto|]. repeat split; vm_compute; reflexivity.
    + exists (failed_login_event 4 sample_dni (IsoText (noon - timedelta_days 1))).
      split; [cbn; tauto|]. repeat split; vm_compute; reflexivity.
    + exists (failed_login_event 3 sample_dni (IsoText (noon - timedelta_days 2))).
      split; [cbn; tauto|]. repeat split; vm_compute; reflexivity.
    + exists (failed_login_event 2 sample_dni (IsoText (noon - timedelta_days 3))).
      split; [cbn; tauto|]. repeat split; vm_compute; reflexivity.
    + exists (failed_login_event 1 sample_dni (IsoText (noon - timedelta_days 4))).
      split; [cbn; tauto|]. repeat split; vm_compute; reflexivity.
  - intros day (a & Hin & _ & _ & _ & Hday). cbn in Hin.
    repeat (destruct Hin as [<-|Hin];
            [vm_compute in Hday; injection Hday as <-; vm_compute; discriminate|]).
    destruct Hin.
  - vm_compute. discriminate.
  - vm_compute. discriminate.
  - exists user, w'. split; [exact Hrun|]. split; [exact Hstatus|exact Hrow].
Defined.
